(** * Carbon emission tracking system: record cache and document store

    A shallow embedding of the non-GUI logic of the application:

    - [update_total_value], the helper that derives a record's total;
    - the [DocumentManagementSystem] naming and versioning scheme;
    - the record cache of the MSSQL variant (data.py): the module-level
      list [emission_records], the counter [record_id_counter] and the
      EmissionRecords table behind them;
    - the edit path of the file-backed variant (main.py);
    - the entry form of data.py with [submit_data_handler] and
      [upload_document], the user accounts of the administrator page
      and [login];
    - the record browser of main.py (filters, sort by date, delete) and
      its JSON file, and the generator of sample records.

    Python's dynamically raised exceptions are made explicit with a small
    error monad; the module-level globals become an explicit state record;
    the SQL table becomes a list of rows with an identity counter. *)

From Stdlib Require Import ZArith String Ascii List Bool Lia.
From Stdlib Require Import PrimFloat SpecFloat FloatOps Uint63.
From stdpp Require Import gmap strings list sorting pretty.

Local Open Scope string_scope.
Local Open Scope Z_scope.
Set Warnings "-inexact-float".

(* ================================================================== *)
(** * Exceptions *)
(* ================================================================== *)

(** The exception classes the modelled code can raise. *)
Inductive exn : Type :=
  | ValueError
  | OverflowError
  | IndexError
  | FileNotFoundError
  | FileExistsError
  | IsADirectoryError.

(** A computation either returns or raises. *)
Inductive result (A : Type) : Type :=
  | Ok (a : A)
  | Raise (e : exn).
Arguments Ok {A} a.
Arguments Raise {A} e.

Global Instance result_ret : MRet result := λ A a, Ok a.
Global Instance result_fmap : FMap result := λ A B f m,
  match m with
  | Ok a => Ok (f a)
  | Raise e => Raise e
  end.
Global Instance result_bind : MBind result := λ A B k m,
  match m with
  | Ok a => k a
  | Raise e => Raise e
  end.

(** Python's [try: m except: h] with a handler that catches every
    exception. *)
Definition try_except {A} (m : result A) (h : exn → result A) : result A :=
  match m with
  | Ok a => Ok a
  | Raise e => h e
  end.

(** [of_option e o] raises [e] where a builtin signals failure. *)
Definition of_option {A} (e : exn) (o : option A) : result A :=
  match o with
  | Some a => Ok a
  | None => Raise e
  end.

Definition is_ok {A} (r : result A) : bool :=
  match r with Ok _ => true | Raise _ => false end.

(* ================================================================== *)
(** * Strings *)
(* ================================================================== *)

(** ASCII white space, the characters [str.strip()] removes: the
    space, tab to carriage return, and the four separators. *)
Definition is_space (c : ascii) : bool :=
  let n := nat_of_ascii c in
  (Nat.eqb n 32 || (Nat.leb 9 n && Nat.leb n 13)
   || (Nat.leb 28 n && Nat.leb n 31))%bool.

Fixpoint lstrip (s : string) : string :=
  match s with
  | String c s' => if is_space c then lstrip s' else s
  | EmptyString => EmptyString
  end.

(** Drop trailing white space: a character stays when something that is
    not white space follows it or it is itself not white space. *)
Fixpoint rstrip (s : string) : string :=
  match s with
  | String c s' =>
      match rstrip s' with
      | EmptyString => if is_space c then EmptyString else String c EmptyString
      | t => String c t
      end
  | EmptyString => EmptyString
  end.

(** [s.strip()] *)
Definition strip (s : string) : string := rstrip (lstrip s).

(** Python truthiness of a string: [if s:]. *)
Definition truthy (s : string) : bool :=
  match s with EmptyString => false | _ => true end.

(* ================================================================== *)
(** * The numeric runtime *)
(* ================================================================== *)

(** What the code uses of Python's [float]: the builtin [float(s)], the
    conversion of an [int] operand, the product, the format [:.2f] and
    [str].  The development is parametric in these; [Binary64] below
    instantiates them with IEEE 754 double precision. *)
Class PyFloat := {
  flt : Type;
  (** [float(s)]; [None] when it raises [ValueError]. *)
  py_float : string → option flt;
  (** [float(z)] for an [int] operand; [None] when it raises
      [OverflowError]. *)
  float_of_int : Z → option flt;
  (** [x * y] *)
  fmul : flt → flt → flt;
  (** [f"{x:.2f}"] *)
  fmt2 : flt → string;
  (** [str(x)] *)
  str_float : flt → string;
}.

(** Two facts about [float(s)] that the form relies on: white space
    around the text is ignored, and the empty text is refused. *)
Class PyFloatLaws `{PyFloat} := {
  py_float_strip : ∀ s, py_float (strip s) = py_float s;
  py_float_empty : py_float "" = None;
}.

(** A number as it appears in the configuration (a JSON number): the
    factors of [system_config["scope_factors"]] are [2.54603] but also
    [1810]. *)
Inductive number `{PyFloat} : Type :=
  | Int (z : Z)
  | Float (x : flt).

Section Numbers.
Context `{PyFloat}.

(** [str(n)] *)
Definition str_number (n : number) : string :=
  match n with
  | Int z => pretty z
  | Float x => str_float x
  end.

(** The float a number stands for in a product. *)
Definition to_float (n : number) : option flt :=
  match n with
  | Int z => float_of_int z
  | Float x => Some x
  end.

(** A configured factor whose text [str(n)] is read back by [float] as
    the value the number has in a product. *)
Definition factor_ok (n : number) : Prop :=
  ∃ x, to_float n = Some x ∧ py_float (str_number n) = Some x.

(** [n * v] with [v] a float: an [int] left operand is converted
    first. *)
Definition mul_number (n : number) (v : flt) : result flt :=
  match n with
  | Float x => Ok (fmul x v)
  | Int z => x ← of_option OverflowError (float_of_int z); Ok (fmul x v)
  end.

(** data.py, [update_total_value] (main.py has the same body and only
    logs in the handler):
<<
    def update_total_value(factor, value_str):
        try:
            v = float(value_str)
            return f"{factor * v:.2f}"
        except:
            return "0.00"
>> *)
Definition update_total_value (factor : number) (value_str : string)
  : result string :=
  try_except
    (v ← of_option ValueError (py_float value_str);
     t ← mul_number factor v;
     Ok (fmt2 t))
    (λ _, Ok "0.00").

End Numbers.

(* ================================================================== *)
(** * Dates *)
(* ================================================================== *)

(** A [datetime] value as far as the code looks at it. *)
Record date := { d_year : Z; d_month : Z; d_day : Z }.

Definition digit (c : ascii) : option Z :=
  let n := Z.of_nat (nat_of_ascii c) in
  if (48 <=? n) && (n <=? 57) then Some (n - 48) else None.

Definition is_leap (y : Z) : bool :=
  (y mod 4 =? 0) && (negb (y mod 100 =? 0) || (y mod 400 =? 0)).

Definition days_in_month (y m : Z) : Z :=
  if m =? 2 then (if is_leap y then 29 else 28)
  else if (m =? 4) || (m =? 6) || (m =? 9) || (m =? 11) then 30
  else 31.

(** The directive [%m]: the alternatives [1[0-2]|0[1-9]|[1-9]]. *)
Definition strptime_m (s : string) : option Z :=
  match s with
  | String a (String b EmptyString) =>
      match digit a, digit b with
      | Some 1, Some d => if d <=? 2 then Some (10 + d) else None
      | Some 0, Some d => if 1 <=? d then Some d else None
      | _, _ => None
      end
  | String a EmptyString =>
      match digit a with
      | Some d => if 1 <=? d then Some d else None
      | None => None
      end
  | _ => None
  end.

(** The directive [%d]: the alternatives
    [3[0-1]|[1-2]\d|0[1-9]|[1-9]| [1-9]]. *)
Definition strptime_d (s : string) : option Z :=
  match s with
  | String a (String b EmptyString) =>
      match digit a, digit b with
      | Some 3, Some d => if d <=? 1 then Some (30 + d) else None
      | Some 0, Some d => if 1 <=? d then Some d else None
      | Some t, Some d => if t <=? 2 then Some (10 * t + d) else None
      | None, Some d =>
          if Ascii.eqb a " " && (1 <=? d) then Some d else None
      | _, _ => None
      end
  | String a EmptyString =>
      match digit a with
      | Some d => if 1 <=? d then Some d else None
      | None => None
      end
  | _ => None
  end.

(** Split at the first [-]. *)
Fixpoint split_dash (s : string) : option (string * string) :=
  match s with
  | String c s' =>
      if Ascii.eqb c "-" then Some (EmptyString, s')
      else match split_dash s' with
           | Some (a, b) => Some (String c a, b)
           | None => None
           end
  | EmptyString => None
  end.

(** [datetime.strptime(s, "%Y-%m-%d")] on ASCII input; [None] when it
    raises [ValueError].  The format compiles to four digits, a dash, a
    month, a dash and a day, which must cover the whole string; the
    fields must then name a day of the calendar (years from 1). *)
Definition strptime (s : string) : option date :=
  match s with
  | String y1 (String y2 (String y3 (String y4 (String "-" rest)))) =>
      match digit y1, digit y2, digit y3, digit y4, split_dash rest with
      | Some a, Some b, Some c, Some d, Some (ms, ds) =>
          match strptime_m ms, strptime_d ds with
          | Some m, Some dd =>
              let y := 1000 * a + 100 * b + 10 * c + d in
              if (1 <=? y) && (dd <=? days_in_month y m)
              then Some {| d_year := y; d_month := m; d_day := dd |}
              else None
          | _, _ => None
          end
      | _, _, _, _, _ => None
      end
  | _ => None
  end.

Definition pad2 (n : Z) : string :=
  if n <? 10 then "0" ++ pretty n else pretty n.

Definition pad4 (n : Z) : string :=
  if n <? 10 then "000" ++ pretty n
  else if n <? 100 then "00" ++ pretty n
  else if n <? 1000 then "0" ++ pretty n
  else pretty n.

(** [%B] *)
Definition month_name (m : Z) : string :=
  match m with
  | 1 => "January" | 2 => "February" | 3 => "March" | 4 => "April"
  | 5 => "May" | 6 => "June" | 7 => "July" | 8 => "August"
  | 9 => "September" | 10 => "October" | 11 => "November"
  | _ => "December"
  end.

(** [dt.strftime('%d_%m_%Y')] *)
Definition strftime_d_m_Y (dt : date) : string :=
  pad2 (d_day dt) ++ "_" ++ pad2 (d_month dt) ++ "_" ++ pad4 (d_year dt).

(** [dt.strftime("%Y")] *)
Definition strftime_Y (dt : date) : string := pad4 (d_year dt).

(** [dt.strftime("%m_%B")] *)
Definition strftime_m_B (dt : date) : string :=
  pad2 (d_month dt) ++ "_" ++ month_name (d_month dt).

(** [dt.strftime("%Y-%m-%d")] *)
Definition strftime_Y_m_d (dt : date) : string :=
  pad4 (d_year dt) ++ "-" ++ pad2 (d_month dt) ++ "-" ++ pad2 (d_day dt).

(** The year [y] prints as four digits that read back as [y]. *)
Definition year_digits (y : Z) : bool :=
  match pad4 y with
  | String y1 (String y2 (String y3 (String y4 EmptyString))) =>
      match digit y1, digit y2, digit y3, digit y4 with
      | Some a, Some b, Some c, Some d => 1000 * a + 100 * b + 10 * c + d =? y
      | _, _, _, _ => false
      end
  | _ => false
  end.

(** The month [m] and the day [d] print as two digits each that are
    split and read back. *)
Definition month_day_digits (m d : Z) : bool :=
  bool_decide (split_dash (pad2 m ++ "-" ++ pad2 d) = Some (pad2 m, pad2 d)
               ∧ strptime_m (pad2 m) = Some m ∧ strptime_d (pad2 d) = Some d).

(* ================================================================== *)
(** * Document management *)
(* ================================================================== *)

(** ** The file system *)

Inductive node : Type :=
  | File (content : string)
  | Dir.

(** Paths that exist, with what is there. *)
Abbreviation filesystem := (gmap string node).

Fixpoint ends_with_slash (s : string) : bool :=
  match s with
  | String c EmptyString => Ascii.eqb c "/"
  | String _ s' => ends_with_slash s'
  | EmptyString => false
  end.

Definition is_absolute (s : string) : bool :=
  match s with
  | String c _ => Ascii.eqb c "/"
  | EmptyString => false
  end.

(** [os.path.join(a, b)], as [posixpath] has it: an absolute [b]
    replaces [a]; otherwise the two are joined by one separator. *)
Definition path_join (a b : string) : string :=
  if is_absolute b then b
  else if negb (truthy a) || ends_with_slash a then a ++ b
  else a ++ "/" ++ b.

(** The extension found in a base name read backwards: [acc] is the
    tail already passed.  A dot counts when some character other than a
    dot comes before it in the base name. *)
Fixpoint has_stem (rev_s : list ascii) : bool :=
  match rev_s with
  | c :: r =>
      if Ascii.eqb c "/" then false
      else if Ascii.eqb c "." then has_stem r
      else true
  | [] => false
  end.

Fixpoint ext_scan (rev_s : list ascii) (acc : string) : string :=
  match rev_s with
  | c :: r =>
      if Ascii.eqb c "/" then ""
      else if Ascii.eqb c "." then
        (if has_stem r then String c acc else "")
      else ext_scan r (String c acc)
  | [] => ""
  end.

(** [os.path.splitext(fp)[1]] *)
Definition splitext_ext (fp : string) : string :=
  ext_scan (rev (list_ascii_of_string fp)) "".

(** [os.makedirs(p, exist_ok=True)] for the chain of directories
    [chain] leading to [p]: fails on a component that is a file. *)
Fixpoint makedirs (chain : list string) (fs : filesystem)
  : filesystem * result unit :=
  match chain with
  | [] => (fs, Ok tt)
  | p :: rest =>
      match fs !! p with
      | Some (File _) => (fs, Raise FileExistsError)
      | _ => makedirs rest (<[p := Dir]> fs)
      end
  end.

(** [shutil.copy(src, dst)] onto a path [dst] *)
Definition copy (src dst : string) (fs : filesystem)
  : filesystem * result unit :=
  match fs !! src with
  | Some (File c) => (<[dst := File c]> fs, Ok tt)
  | Some Dir => (fs, Raise IsADirectoryError)
  | None => (fs, Raise FileNotFoundError)
  end.

(** ** [DocumentManagementSystem] *)

(** One entry of [document_logs]. *)
Record metadata := {
  unique_code : string;
  file_path : string;
  upload_date_time : string;
  uploader : string;
  role : string;
  unit_name : string;
  upload_date : string;
  emission_name : string;
  emission_type : string;
  file_status : string;
  version : Z;
}.

Section DocumentManagementSystem.

(** [BASE_DIR = system_config["document_base"]] *)
Variable BASE_DIR : string.

(** <<
    dt = datetime.strptime(upload_date, "%Y-%m-%d")
    return f"{unit_name}_{dt.strftime('%d_%m_%Y')}_{emission_name}_{emission_type}"
>> *)
Definition generate_unique_code
  (unit_name upload_date emission_name emission_type : string)
  : result string :=
  dt ← of_option ValueError (strptime upload_date);
  Ok (unit_name ++ "_" ++ strftime_d_m_Y dt ++ "_" ++ emission_name
      ++ "_" ++ emission_type).

(** <<
    dt = datetime.strptime(upload_date, "%Y-%m-%d")
    folder_path = os.path.join(BASE_DIR, unit_name, dt.strftime("%Y"),
                               dt.strftime("%m_%B"))
    os.makedirs(folder_path, exist_ok=True)
    return folder_path
>> *)
Definition get_storage_path (unit_name upload_date : string)
  (fs : filesystem) : filesystem * result string :=
  match strptime upload_date with
  | None => (fs, Raise ValueError)
  | Some dt =>
      let p1 := path_join BASE_DIR unit_name in
      let p2 := path_join p1 (strftime_Y dt) in
      let folder_path := path_join p2 (strftime_m_B dt) in
      match makedirs [BASE_DIR; p1; p2; folder_path] fs with
      | (fs', Ok _) => (fs', Ok folder_path)
      | (fs', Raise e) => (fs', Raise e)
      end
  end.

(** [os.path.join(folder, f"{code}_v{version}{ext}")] *)
Definition versioned (folder code ext : string) (version : Z) : string :=
  path_join folder (code ++ "_v" ++ pretty version ++ ext).

(** The name tried for [version]: [dest], the base name, first. *)
Definition candidate (folder code ext dest : string) (version : Z) : string :=
  if version =? 1 then dest else versioned folder code ext version.

(** The loop of [save_document]:
<<
    while os.path.exists(final):
        version += 1
        final = os.path.join(folder, f"{code}_v{version}{ext}")
>>
    run for at most [fuel] iterations; [None] when they do not suffice. *)
Fixpoint probe (fs : filesystem) (folder code ext : string)
  (fuel : nat) (version : Z) (final : string) : option (Z * string) :=
  match fs !! final with
  | None => Some (version, final)
  | Some _ =>
      match fuel with
      | O => None
      | S fuel' =>
          probe fs folder code ext fuel' (version + 1)
            (versioned folder code ext (version + 1))
      end
  end.

(** [save_document]: the files and [document_logs] before, those after
    and what the call returns or raises; [now] is the clock reading for
    [upload_date_time].  The loop gets one iteration per existing path
    and one more ([save_document_returns] shows that this is enough).
<<
    code = DocumentManagementSystem.generate_unique_code(...)
    folder = DocumentManagementSystem.get_storage_path(unit_name, upload_date)
    ext = os.path.splitext(fp)[1]
    dest = os.path.join(folder, f"{code}{ext}")
    version = 1
    final = dest
    while os.path.exists(final): ...
    shutil.copy(fp, final)
    meta = {...}
    document_logs.append(meta)
    return meta
>> *)
Definition save_document
  (fp unit_name upload_date emission_name emission_type uploader role : string)
  (now : string) (fs : filesystem) (document_logs : list metadata)
  : option (filesystem * list metadata * result metadata) :=
  match generate_unique_code unit_name upload_date emission_name emission_type with
  | Raise e => Some (fs, document_logs, Raise e)
  | Ok code =>
      match get_storage_path unit_name upload_date fs with
      | (fs1, Raise e) => Some (fs1, document_logs, Raise e)
      | (fs1, Ok folder) =>
          let ext := splitext_ext fp in
          let dest := path_join folder (code ++ ext) in
          match probe fs1 folder code ext (S (size fs1)) 1 dest with
          | None => None
          | Some (version, final) =>
              match copy fp final fs1 with
              | (fs2, Raise e) => Some (fs2, document_logs, Raise e)
              | (fs2, Ok _) =>
                  let meta :=
                    {| unique_code := code;
                       file_path := final;
                       upload_date_time := now;
                       uploader := uploader;
                       role := role;
                       unit_name := unit_name;
                       upload_date := upload_date;
                       emission_name := emission_name;
                       emission_type := emission_type;
                       file_status := "Stored Locally";
                       version := version |} in
                  Some (fs2, (document_logs ++ [meta])%list, Ok meta)
              end
          end
      end
  end.

End DocumentManagementSystem.

(* ================================================================== *)
(** * The MSSQL variant (data.py) *)
(* ================================================================== *)

(** What the code sees of a [NUMERIC(18,4)] column through the driver:
    binding a float or a string parameter to it ([None] when the server
    rejects the value and [execute] raises) and [str] of the [Decimal]
    that a query returns. *)
Class SqlNumeric `{PyFloat} := {
  numeric : Type;
  bind_float : flt → option numeric;
  bind_text : string → option numeric;
  str_numeric : numeric → string;
}.

Module Data.

(** One element of [emission_records], in the order of the schema
    comment: Email, Entry Date, Month, Year, Unit, Emission Category,
    Emission Name, Emission Type, Factor, Value, Total, Remarks,
    Document, RecordID.  The identifier is kept as an integer; the code
    holds it as an [int] in new records and as [str(int)] in loaded
    ones and compares through [str] and [int]. *)
Record emission_record := {
  email : string;
  entry_date : string;
  month : string;
  year : string;
  company_unit : string;
  emission_category : string;
  emission_name : string;
  emission_type : string;
  factor : string;
  value : string;
  total : string;
  remarks : string;
  document : string;
  record_id : Z;
}.

(** The module-level globals [emission_records] and
    [record_id_counter]. *)
Record state := {
  emission_records : list emission_record;
  record_id_counter : Z;
}.

Definition initial : state :=
  {| emission_records := []; record_id_counter := 0 |}.

(** How a call to [connect_mssql] and the statements after it go. *)
Inductive connection : Type :=
  | Connected
  | Refused   (** [connect_mssql] returns [None] *)
  | Broken.   (** the connection opens and [execute] raises *)

(** What a handler tells the user before it returns. *)
Inductive outcome : Type :=
  | Success            (** [messagebox.showinfo("Success", ...)] *)
  | Submitted          (** [showinfo("Data Submitted", ...)] *)
  | RecordNotFound     (** [showerror("Error", "Record not found.")] *)
  | NoSelection        (** [showerror("Error", "Select a record ...")] *)
  | Cancelled          (** the confirmation was declined *)
  | NotConnected       (** [connect_mssql] returned [None] *)
  | Failed             (** [showerror("Error", "Failed to ...")] *)
  | MandatoryMissing   (** [showerror("Mandatory Fields Missing", ...)] *)
  | DocumentMissing    (** [showerror("Document Missing", ...)] *)
  | NoData.            (** [showwarning("No Data", ...)] *)

Section Store.
Context `{SqlNumeric}.

(** A row of the table EmissionRecords of [init_db]. *)
Record row := {
  row_id : Z;
  row_email : string;
  row_entry_date : date;
  row_month : string;
  row_year : string;
  row_company_unit : string;
  row_emission_category : string;
  row_emission_name : string;
  row_emission_type : string;
  row_factor : numeric;
  row_value : numeric;
  row_total : numeric;
  row_remarks : string;
  row_document : string;
}.

(** The table and the next value of its [IDENTITY(1,1)] column. *)
Record table := {
  rows : list row;
  identity : Z;
}.

Definition empty_table : table := {| rows := []; identity := 1 |}.

(** The [INSERT] of [save_emission_records] for one record [r]: the
    parameters are computed, then the row is added under the next
    identity value.  [None] when the body of the inner [try] raises
    ([strptime] or [float] on a field, or the server on a value). *)
Definition insert_row (r : emission_record) (id : Z) : option row :=
  dt ← strptime (entry_date r);
  f ← py_float (factor r);
  v ← py_float (value r);
  t ← py_float (total r);
  nf ← bind_float f;
  nv ← bind_float v;
  nt ← bind_float t;
  Some {| row_id := id;
          row_email := email r;
          row_entry_date := dt;
          row_month := month r;
          row_year := year r;
          row_company_unit := company_unit r;
          row_emission_category := emission_category r;
          row_emission_name := emission_name r;
          row_emission_type := emission_type r;
          row_factor := nf;
          row_value := nv;
          row_total := nt;
          row_remarks := remarks r;
          row_document := document r |}.

Definition insert (t : table) (r : emission_record) : table :=
  match insert_row r (identity t) with
  | Some w => {| rows := rows t ++ [w]; identity := identity t + 1 |}
  | None => t
  end.

(** Does the [INSERT] for [r] go through? *)
Definition insertable (r : emission_record) : bool :=
  match insert_row r 0 with
  | Some _ => true
  | None => false
  end.

(** <<
    def save_emission_records():
        conn = connect_mssql(...)
        if not conn:
            return
        try:
            cur = conn.cursor()
            for r in emission_records:
                try:
                    entry_date = datetime.strptime(r[1], "%Y-%m-%d").strftime("%Y-%m-%d")
                    params = (r[0], entry_date, ..., float(r[8]), float(r[9]),
                              float(r[10]), r[11], r[12])
                    cur.execute(insert_sql, params)
                except Exception as e:
                    continue
            conn.commit()
        except Exception as e: ...
>> *)
Definition save_emission_records (c : connection) (st : state) (t : table)
  : table :=
  match c with
  | Connected => foldl insert t (emission_records st)
  | Refused | Broken => t
  end.

(** [ORDER BY entry_date DESC, record_id DESC]: does [a] come before
    [b]? *)
Definition date_key (d : date) : Z :=
  (d_year d * 100 + d_month d) * 100 + d_day d.

Definition comes_before (a b : row) : bool :=
  (date_key (row_entry_date b) <? date_key (row_entry_date a))
  || ((date_key (row_entry_date b) =? date_key (row_entry_date a))
      && (row_id b <=? row_id a)).

(** The tuple [load_emission_records] builds from a fetched row; the
    remarks column holds a string here, so [row[11] or ""] is that
    string. *)
Definition of_row (w : row) : emission_record :=
  {| email := row_email w;
     entry_date := strftime_Y_m_d (row_entry_date w);
     month := row_month w;
     year := row_year w;
     company_unit := row_company_unit w;
     emission_category := row_emission_category w;
     emission_name := row_emission_name w;
     emission_type := row_emission_type w;
     factor := str_numeric (row_factor w);
     value := str_numeric (row_value w);
     total := str_numeric (row_total w);
     remarks := row_remarks w;
     document := row_document w;
     record_id := row_id w |}.

(** [max(int(r[13]) for r in emission_records)] over a list that is not
    empty. *)
Definition max_id (l : list emission_record) : Z :=
  match l with
  | [] => 0
  | r :: l' => foldl (λ m r', Z.max m (record_id r')) (record_id r) l'
  end.

(** <<
    def load_emission_records():
        global emission_records, record_id_counter
        conn = connect_mssql(...)
        if not conn:
            return
        try:
            cur = conn.cursor()
            cur.execute("SELECT ... FROM EmissionRecords
                         ORDER BY entry_date DESC, record_id DESC;")
            rows = cur.fetchall()
            emission_records.clear()
            for row in rows:
                emission_records.append((...))
            if emission_records:
                record_id_counter = max(int(r[13]) for r in emission_records) + 1
        except Exception as e: ...
>> *)
Definition load_emission_records (c : connection) (st : state) (t : table)
  : state :=
  match c with
  | Connected =>
      let loaded := of_row <$> merge_sort comes_before (rows t) in
      {| emission_records := loaded;
         record_id_counter :=
           match loaded with
           | [] => record_id_counter st
           | _ => max_id loaded + 1
           end |}
  | Refused | Broken => st
  end.

(** ** The record browser ([EmissionDataPage]) *)

(** <<
    def refresh_table(self, records=None):
        load_emission_records()
        if records is None:
            records = emission_records
        ... the tree shows [records] ...
>>
    The cache after the call and the records the tree shows. *)
Definition refresh_table (c : connection)
  (records : option (list emission_record)) (st : state) (t : table)
  : state * list emission_record :=
  let st' := load_emission_records c st t in
  (st', match records with
        | None => emission_records st'
        | Some l => l
        end).

(** The six [filter_vars]. *)
Record filter_vars := {
  flt_unit : string;
  flt_month : string;
  flt_year : string;
  flt_emission_category : string;
  flt_emission_name : string;
  flt_emission_type : string;
}.

(** [flt == "All" or field == flt] *)
Definition criterion (flt field : string) : bool :=
  String.eqb flt "All" || String.eqb field flt.

(** The condition of the loop of [apply_filters]. *)
Definition matches (flts : filter_vars) (rec : emission_record) : bool :=
  criterion (flt_unit flts) (company_unit rec)
  && criterion (flt_month flts) (month rec)
  && criterion (flt_year flts) (year rec)
  && criterion (flt_emission_category flts) (emission_category rec)
  && criterion (flt_emission_name flts) (emission_name rec)
  && criterion (flt_emission_type flts) (emission_type rec).

(** <<
    def apply_filters(self):
        flts = self.filter_vars
        filtered = []
        for rec in emission_records:
            if (...):
                filtered.append(rec)
        self.refresh_table(filtered)
>> *)
Definition apply_filters (flts : filter_vars) (c : connection)
  (st : state) (t : table) : state * list emission_record :=
  let filtered := List.filter (matches flts) (emission_records st) in
  refresh_table c (Some filtered) st t.

(** The loop of [edit_record]: the first record whose identifier is the
    selected one, with its index. *)
Fixpoint find_record (sel : Z) (l : list emission_record) (i : nat)
  : option (emission_record * nat) :=
  match l with
  | [] => None
  | r :: l' =>
      if record_id r =? sel then Some (r, i)
      else find_record sel l' (S i)
  end.

(** The ten [StringVar]s of the dialog, in the order of [self.vars]. *)
Record edit_vars := {
  var_unit : string;       (* vars[0] *)
  var_month : string;      (* vars[1] *)
  var_year : string;       (* vars[2] *)
  var_category : string;   (* vars[3] *)
  var_name : string;       (* vars[4] *)
  var_type : string;       (* vars[5] *)
  var_factor : string;     (* vars[6] *)
  var_value : string;      (* vars[7] *)
  var_remarks : string;    (* vars[8] *)
  var_document : string;   (* vars[9] *)
}.

Record EditDialog := {
  rec_index : nat;
  record : emission_record;
  vars : edit_vars;
}.

(** [EditDialog.__init__]: every variable starts at the record's
    field. *)
Definition open_dialog (r : emission_record) (idx : nat) : EditDialog :=
  {| rec_index := idx;
     record := r;
     vars := {| var_unit := company_unit r;
                var_month := month r;
                var_year := year r;
                var_category := emission_category r;
                var_name := emission_name r;
                var_type := emission_type r;
                var_factor := factor r;
                var_value := value r;
                var_remarks := remarks r;
                var_document := document r |} |}.

(** [edit_record]: no selection, no such record, or the dialog. *)
Definition edit_record (sel : option Z) (st : state)
  : outcome + EditDialog :=
  match sel with
  | None => inl NoSelection
  | Some record_id =>
      match find_record record_id (emission_records st) 0 with
      | None => inl RecordNotFound
      | Some (r, idx) => inr (open_dialog r idx)
      end
  end.

(** [DELETE FROM EmissionRecords WHERE record_id = ?] *)
Definition delete_rows (id : Z) (t : table) : table :=
  {| rows := List.filter (λ w, negb (row_id w =? id)) (rows t);
     identity := identity t |}.

(** <<
    def delete_record(self):
        sel = self.tree.selection()
        if not sel: ... return
        if not messagebox.askyesno(...): return
        record_id = sel[0]
        conn = connect_mssql(...)
        if not conn:
            return
        try:
            cur.execute("DELETE FROM EmissionRecords WHERE record_id = ?", (record_id,))
            conn.commit()
            emission_records[:] = [r for r in emission_records if str(r[13]) != record_id]
            messagebox.showinfo("Success", "Record deleted successfully.")
            self.refresh_table()
        except Exception as e:
            messagebox.showerror("Error", ...)
>>
    [c] is the connection of the handler, [c'] that of the reload in
    [refresh_table]. *)
Definition delete_record (sel : option Z) (confirmed : bool)
  (c c' : connection) (st : state) (t : table)
  : state * table * outcome :=
  match sel with
  | None => (st, t, NoSelection)
  | Some record_id =>
      if negb confirmed then (st, t, Cancelled)
      else match c with
           | Refused => (st, t, NotConnected)
           | Broken => (st, t, Failed)
           | Connected =>
               let t' := delete_rows record_id t in
               let st' :=
                 {| emission_records :=
                      List.filter (λ r, negb (Data.record_id r =? record_id))
                        (emission_records st);
                    record_id_counter := record_id_counter st |} in
               ((refresh_table c' None st' t').1, t', Success)
           end
  end.

(** The tuple [updated] of [save_changes]:
<<
    factor = float(self.vars[6].get())
    value = self.vars[7].get()
    total = update_total_value(factor, value)
    updated = (self.record[0], self.record[1], self.vars[1].get(), ...,
               str(factor), value, total, self.vars[8].get(),
               self.vars[9].get(), self.record[13])
>> *)
Definition updated_record (d : EditDialog) : result emission_record :=
  f ← of_option ValueError (py_float (var_factor (vars d)));
  tot ← update_total_value (Float f) (var_value (vars d));
  Ok {| email := email (record d);
        entry_date := entry_date (record d);
        month := var_month (vars d);
        year := var_year (vars d);
        company_unit := var_unit (vars d);
        emission_category := var_category (vars d);
        emission_name := var_name (vars d);
        emission_type := var_type (vars d);
        factor := str_float f;
        value := var_value (vars d);
        total := tot;
        remarks := var_remarks (vars d);
        document := var_document (vars d);
        record_id := record_id (record d) |}.

(** [UPDATE EmissionRecords SET month = ?, ... WHERE record_id = ?] with
    the fields of [u]; factor, value and total are passed as strings. *)
Definition update_row (u : emission_record) (nf nv nt : numeric) (w : row)
  : row :=
  if row_id w =? record_id u then
    {| row_id := row_id w;
       row_email := row_email w;
       row_entry_date := row_entry_date w;
       row_month := month u;
       row_year := year u;
       row_company_unit := company_unit u;
       row_emission_category := emission_category u;
       row_emission_name := emission_name u;
       row_emission_type := emission_type u;
       row_factor := nf;
       row_value := nv;
       row_total := nt;
       row_remarks := remarks u;
       row_document := document u |}
  else w.

Definition update_rows (u : emission_record) (t : table) : option table :=
  nf ← bind_text (factor u);
  nv ← bind_text (value u);
  nt ← bind_text (total u);
  Some {| rows := update_row u nf nv nt <$> rows t;
          identity := identity t |}.

(** <<
    def save_changes(self):
        try:
            ... updated = (...)
            conn = connect_mssql(...)
            if not conn:
                return
            try:
                cur.execute(update_sql, params)
                conn.commit()
                emission_records[self.rec_index] = updated
                messagebox.showinfo("Success", "Record updated successfully.")
                self.parent_page.refresh_table()
                self.destroy()
            except Exception as e:
                messagebox.showerror("Error", f"Failed to update record: ...")
            finally:
                conn.close()
        except Exception as e:
            messagebox.showerror("Error", f"Failed to save changes: ...")
>> *)
Definition save_changes (d : EditDialog) (c c' : connection)
  (st : state) (t : table) : state * table * outcome :=
  match updated_record d with
  | Raise _ => (st, t, Failed)
  | Ok updated =>
      match c with
      | Refused => (st, t, NotConnected)
      | Broken => (st, t, Failed)
      | Connected =>
          match update_rows updated t with
          | None => (st, t, Failed)
          | Some t' =>
              if decide (rec_index d < length (emission_records st))%nat then
                let st' :=
                  {| emission_records :=
                       <[rec_index d := updated]> (emission_records st);
                     record_id_counter := record_id_counter st |} in
                ((refresh_table c' None st' t').1, t', Success)
              else (st, t', Failed)
          end
      end
  end.

(** ** The entry form ([DataEntryPage]) *)

(** One line of the fuel or of the refrigerant frame: the type with its
    configured factor, and the widgets of the line. *)
Record entry_row := {
  type_name : string;     (* ft["name"] *)
  type_factor : number;   (* ft["factor"] *)
  amount_var : string;    (* the StringVar of the NumericEntry *)
  total_label : string;   (* the text of the total Label *)
  remarks_var : string;
  file_var : string;
}.

Record DataEntryPage := {
  controller_email : string;
  unit_var : string;
  month_var : string;
  year_var : string;
  current_date_label : string;
  fuel : list entry_row;
  refrig : list entry_row;
  elec_factor : number;
  elec_amount_var : string;
  elec_remarks_var : string;
  elec_file_var : string;
}.

Definition new_row (ft : string * number) : entry_row :=
  {| type_name := ft.1;
     type_factor := ft.2;
     amount_var := "";
     total_label := "0.00";
     remarks_var := "";
     file_var := "" |}.

(** [DataEntryPage.__init__] over the configured factors. *)
Definition new_page (email unit month year today : string)
  (fuel_types refrig_types : list (string * number)) (elec : number)
  : DataEntryPage :=
  {| controller_email := email;
     unit_var := unit;
     month_var := month;
     year_var := year;
     current_date_label := today;
     fuel := new_row <$> fuel_types;
     refrig := new_row <$> refrig_types;
     elec_factor := elec;
     elec_amount_var := "";
     elec_remarks_var := "";
     elec_file_var := "" |}.

(** [NumericEntry._val]: the edit is accepted when the text it leaves
    is empty or [float] reads it. *)
Definition _val (P : string) : bool :=
  negb (truthy P) || bool_decide (is_Some (py_float P)).

(** A callback that raises leaves the label as it was. *)
Definition set_label (r : entry_row) (text : result string) : entry_row :=
  match text with
  | Ok s =>
      {| type_name := type_name r; type_factor := type_factor r;
         amount_var := amount_var r; total_label := s;
         remarks_var := remarks_var r; file_var := file_var r |}
  | Raise _ => r
  end.

(** [cb_fuel], with [fac=ft["factor"]] bound at construction. *)
Definition cb_fuel (r : entry_row) : entry_row :=
  set_label r (update_total_value (type_factor r) (amount_var r)).

(** [cb_refrig], with [fac_var] holding [str(rt["factor"])]:
<<
    fac = float(fac_var.get()) if fac_var.get() else 0
    self.refrig_total_labels[name].config(
        text=update_total_value(fac, self.refrig_amount_vars[name].get()))
>> *)
Definition cb_refrig (r : entry_row) : entry_row :=
  let fac_var := str_number (type_factor r) in
  set_label r
    (fac ← (if truthy fac_var
            then Float <$> of_option ValueError (py_float fac_var)
            else Ok (Int 0));
     update_total_value fac (amount_var r)).

Definition write_amount (P : string) (r : entry_row) : entry_row :=
  {| type_name := type_name r; type_factor := type_factor r;
     amount_var := P; total_label := total_label r;
     remarks_var := remarks_var r; file_var := file_var r |}.

Definition write_remarks (s : string) (r : entry_row) : entry_row :=
  {| type_name := type_name r; type_factor := type_factor r;
     amount_var := amount_var r; total_label := total_label r;
     remarks_var := s; file_var := file_var r |}.

Definition write_file (s : string) (r : entry_row) : entry_row :=
  {| type_name := type_name r; type_factor := type_factor r;
     amount_var := amount_var r; total_label := total_label r;
     remarks_var := remarks_var r; file_var := s |}.

(** One line of [reset_input_fields]: the file, the amount (whose trace
    runs [cb]), the label and the remarks. *)
Definition reset_row (cb : entry_row → entry_row) (r : entry_row)
  : entry_row :=
  write_remarks "" (set_label (cb (write_amount "" (write_file "" r)))
                      (Ok "0.00")).

(** [reset_input_fields] *)
Definition reset_input_fields (p : DataEntryPage) : DataEntryPage :=
  {| controller_email := controller_email p;
     unit_var := unit_var p;
     month_var := month_var p;
     year_var := year_var p;
     current_date_label := current_date_label p;
     fuel := reset_row cb_fuel <$> fuel p;
     refrig := reset_row cb_refrig <$> refrig p;
     elec_factor := elec_factor p;
     elec_amount_var := "";
     elec_remarks_var := "";
     elec_file_var := "" |}.

Definition with_fuel (f : list entry_row → list entry_row)
  (p : DataEntryPage) : DataEntryPage :=
  {| controller_email := controller_email p; unit_var := unit_var p;
     month_var := month_var p; year_var := year_var p;
     current_date_label := current_date_label p;
     fuel := f (fuel p); refrig := refrig p;
     elec_factor := elec_factor p; elec_amount_var := elec_amount_var p;
     elec_remarks_var := elec_remarks_var p;
     elec_file_var := elec_file_var p |}.

Definition with_refrig (f : list entry_row → list entry_row)
  (p : DataEntryPage) : DataEntryPage :=
  {| controller_email := controller_email p; unit_var := unit_var p;
     month_var := month_var p; year_var := year_var p;
     current_date_label := current_date_label p;
     fuel := fuel p; refrig := f (refrig p);
     elec_factor := elec_factor p; elec_amount_var := elec_amount_var p;
     elec_remarks_var := elec_remarks_var p;
     elec_file_var := elec_file_var p |}.

(** What the user does on the form between two submissions. *)
Inductive event : Type :=
  | FuelAmount (i : nat) (P : string)     (* an edit leaving [P] *)
  | FuelRemarks (i : nat) (s : string)
  | FuelUpload (i : nat) (path : string)  (* [upload_document] *)
  | RefrigAmount (i : nat) (P : string)
  | RefrigRemarks (i : nat) (s : string)
  | RefrigUpload (i : nat) (path : string)
  | ElecAmount (P : string)
  | ElecRemarks (s : string)
  | ElecUpload (path : string)
  | SelectUnit (u : string)               (* its trace resets the form *)
  | SelectMonth (m : string)
  | SelectYear (y : string).

Definition handle (p : DataEntryPage) (e : event) : DataEntryPage :=
  match e with
  | FuelAmount i P =>
      if _val P then with_fuel (alter (λ r, cb_fuel (write_amount P r)) i) p
      else p
  | FuelRemarks i s => with_fuel (alter (write_remarks s) i) p
  | FuelUpload i path => with_fuel (alter (write_file path) i) p
  | RefrigAmount i P =>
      if _val P
      then with_refrig (alter (λ r, cb_refrig (write_amount P r)) i) p
      else p
  | RefrigRemarks i s => with_refrig (alter (write_remarks s) i) p
  | RefrigUpload i path => with_refrig (alter (write_file path) i) p
  | ElecAmount P =>
      if _val P then
        {| controller_email := controller_email p; unit_var := unit_var p;
           month_var := month_var p; year_var := year_var p;
           current_date_label := current_date_label p;
           fuel := fuel p; refrig := refrig p;
           elec_factor := elec_factor p; elec_amount_var := P;
           elec_remarks_var := elec_remarks_var p;
           elec_file_var := elec_file_var p |}
      else p
  | ElecRemarks s =>
      {| controller_email := controller_email p; unit_var := unit_var p;
         month_var := month_var p; year_var := year_var p;
         current_date_label := current_date_label p;
         fuel := fuel p; refrig := refrig p;
         elec_factor := elec_factor p; elec_amount_var := elec_amount_var p;
         elec_remarks_var := s; elec_file_var := elec_file_var p |}
  | ElecUpload path =>
      {| controller_email := controller_email p; unit_var := unit_var p;
         month_var := month_var p; year_var := year_var p;
         current_date_label := current_date_label p;
         fuel := fuel p; refrig := refrig p;
         elec_factor := elec_factor p; elec_amount_var := elec_amount_var p;
         elec_remarks_var := elec_remarks_var p; elec_file_var := path |}
  | SelectUnit u =>
      reset_input_fields
        {| controller_email := controller_email p; unit_var := u;
           month_var := month_var p; year_var := year_var p;
           current_date_label := current_date_label p;
           fuel := fuel p; refrig := refrig p;
           elec_factor := elec_factor p;
           elec_amount_var := elec_amount_var p;
           elec_remarks_var := elec_remarks_var p;
           elec_file_var := elec_file_var p |}
  | SelectMonth m =>
      {| controller_email := controller_email p; unit_var := unit_var p;
         month_var := m; year_var := year_var p;
         current_date_label := current_date_label p;
         fuel := fuel p; refrig := refrig p;
         elec_factor := elec_factor p; elec_amount_var := elec_amount_var p;
         elec_remarks_var := elec_remarks_var p;
         elec_file_var := elec_file_var p |}
  | SelectYear y =>
      {| controller_email := controller_email p; unit_var := unit_var p;
         month_var := month_var p; year_var := y;
         current_date_label := current_date_label p;
         fuel := fuel p; refrig := refrig p;
         elec_factor := elec_factor p; elec_amount_var := elec_amount_var p;
         elec_remarks_var := elec_remarks_var p;
         elec_file_var := elec_file_var p |}
  end.

(** The tuple [rec] that [submit_data_handler] builds for a line [r]
    of the frame of [category] and [name], under identifier [id]. *)
Definition line_record (p : DataEntryPage) (category name : string)
  (r : entry_row) (id : Z) : emission_record :=
  {| email := controller_email p;
     entry_date := current_date_label p;
     month := strip (month_var p);
     year := strip (year_var p);
     company_unit := strip (unit_var p);
     emission_category := category;
     emission_name := name;
     emission_type := type_name r;
     factor := str_number (type_factor r);
     value := strip (amount_var r);
     total := total_label r;
     remarks := strip (remarks_var r);
     document := file_var r;
     record_id := id |}.

(** One of the two loops over the lines of a frame:
<<
    for ft in self.fuel_types:
        val = self.fuel_amount_vars[ft["name"]].get().strip()
        if val:
            tot = self.fuel_total_labels[ft["name"]].cget("text")
            ...
            rec = (..., str(ft["factor"]), val, tot, rem, fp, record_id_counter)
            record_id_counter += 1
            new_records.append(rec)
>>
    The records and the counter after the loop. *)
Fixpoint collect (p : DataEntryPage) (category name : string)
  (lines : list entry_row) (counter : Z) : list emission_record * Z :=
  match lines with
  | [] => ([], counter)
  | r :: lines' =>
      if truthy (strip (amount_var r)) then
        let '(l, n) := collect p category name lines' (counter + 1) in
        (line_record p category name r counter :: l, n)
      else collect p category name lines' counter
  end.

(** The electricity line:
<<
    val = self.elec_amount_var.get().strip()
    if val:
        tot = update_total_value(self.elec_factor, val)
        ...
>> *)
Definition collect_elec (p : DataEntryPage) (counter : Z)
  : result (list emission_record * Z) :=
  let val := strip (elec_amount_var p) in
  if truthy val then
    tot ← update_total_value (elec_factor p) val;
    Ok ([ {| email := controller_email p;
             entry_date := current_date_label p;
             month := strip (month_var p);
             year := strip (year_var p);
             company_unit := strip (unit_var p);
             emission_category := "Scope2";
             emission_name := "Electricity";
             emission_type := "Electricity";
             factor := str_number (elec_factor p);
             value := val;
             total := tot;
             remarks := strip (elec_remarks_var p);
             document := elec_file_var p;
             record_id := counter |} ], counter + 1)
  else Ok ([], counter).

(** [new_records] and [record_id_counter] once the three parts have
    run from [counter]. *)
Definition new_records (p : DataEntryPage) (counter : Z)
  : result (list emission_record * Z) :=
  let '(l1, n1) := collect p "Scope1" "Fuel" (fuel p) counter in
  let '(l2, n2) := collect p "Scope1" "Refrigerants" (refrig p) n1 in
  '(l3, n3) ← collect_elec p n2;
  Ok (l1 ++ l2 ++ l3, n3)%list.

(** [var.get().strip() and not file_var.get()] *)
Definition lacks_document (r : entry_row) : bool :=
  truthy (strip (amount_var r)) && negb (truthy (file_var r)).

(** [submit_data_handler]; [c] is the connection of
    [save_emission_records], [c'] that of [load_emission_records] and
    [c''] that of the reload when the record browser is refreshed.
<<
    emission_records.extend(new_records)
    save_emission_records()
    load_emission_records()
    messagebox.showinfo("Data Submitted", ...)
    self.reset_input_fields()
    if "EmissionDataPage" in self.controller.frames:
        self.controller.frames["EmissionDataPage"].refresh_table()
>> *)
Definition submit_data_handler (p : DataEntryPage) (c c' c'' : connection)
  (st : state) (t : table) : state * table * DataEntryPage * outcome :=
  if negb (truthy (strip (unit_var p)) && truthy (strip (month_var p))
           && truthy (strip (year_var p)) && truthy (current_date_label p))
  then (st, t, p, MandatoryMissing)
  else if existsb lacks_document (fuel p)
          || existsb lacks_document (refrig p)
          || (truthy (strip (elec_amount_var p))
              && negb (truthy (elec_file_var p)))
  then (st, t, p, DocumentMissing)
  else
    match new_records p (record_id_counter st) with
    | Raise _ => (st, t, p, Failed)
    | Ok ([], _) => (st, t, p, NoData)
    | Ok (l, n) =>
        let st1 := {| emission_records := emission_records st ++ l;
                      record_id_counter := n |} in
        let t1 := save_emission_records c st1 t in
        let st2 := load_emission_records c' st1 t1 in
        ((refresh_table c'' None st2 t1).1, t1, reset_input_fields p,
         Submitted)
    end.

(** ** The record cache as a transition system *)

(** The operations of the cache: a reload, a submission of the form, a
    deletion of the selected record and an edit (the dialog is opened on
    the selected record, its variables are set to [v] and the changes
    are saved). *)
Inductive action : Type :=
  | Load (c : connection)
  | Submit (p : DataEntryPage) (c c' c'' : connection)
  | Delete (sel : Z) (c c' : connection)
  | Edit (sel : Z) (v : edit_vars) (c c' : connection).

Definition step (a : action) (s : state * table) : state * table :=
  let '(st, t) := s in
  match a with
  | Load c => (load_emission_records c st t, t)
  | Submit p c c' c'' =>
      let '(st', t', _, _) := submit_data_handler p c c' c'' st t in (st', t')
  | Delete sel c c' =>
      let '(st', t', _) := delete_record (Some sel) true c c' st t in (st', t')
  | Edit sel v c c' =>
      match edit_record (Some sel) st with
      | inl _ => (st, t)
      | inr d =>
          let d' := {| rec_index := rec_index d; record := record d;
                       vars := v |} in
          let '(st', t', _) := save_changes d' c c' st t in (st', t')
      end
  end.

(** The key of the table: identifiers are distinct and below the next
    identity value. *)
Definition table_ok (t : table) : Prop :=
  NoDup (row_id <$> rows t) ∧ ∀ w, w ∈ rows t → row_id w < identity t.

(** The states a session reaches from the start of the process over a
    table that satisfies its key. *)
Inductive reachable : state * table → Prop :=
  | reachable_initial t : table_ok t → reachable (initial, t)
  | reachable_step a s : reachable s → reachable (step a s).

(** The cache holds no identifier twice and none that the counter has
    not passed. *)
Definition cache_ok (st : state) : Prop :=
  NoDup (record_id <$> emission_records st)
  ∧ ∀ r, r ∈ emission_records st → record_id r < record_id_counter st.

(** [r'] is what a reload returns for a stored [r]: the text fields as
    they were, the date as [strptime] read it, factor, value and total
    as the column returns what [float] read, under whatever identifier
    the table gave. *)
Definition stored_as (r r' : emission_record) : Prop :=
  email r' = email r ∧ month r' = month r ∧ year r' = year r
  ∧ company_unit r' = company_unit r
  ∧ emission_category r' = emission_category r
  ∧ emission_name r' = emission_name r
  ∧ emission_type r' = emission_type r
  ∧ remarks r' = remarks r ∧ document r' = document r
  ∧ (∃ dt, strptime (entry_date r) = Some dt
           ∧ entry_date r' = strftime_Y_m_d dt)
  ∧ (∃ x n, py_float (factor r) = Some x ∧ bind_float x = Some n
            ∧ factor r' = str_numeric n)
  ∧ (∃ x n, py_float (value r) = Some x ∧ bind_float x = Some n
            ∧ value r' = str_numeric n)
  ∧ (∃ x n, py_float (total r) = Some x ∧ bind_float x = Some n
            ∧ total r' = str_numeric n).

(** The total of [r] is the product of its factor and its value as
    [float] reads them, formatted with [:.2f]. *)
Definition total_derived (r : emission_record) : Prop :=
  ∃ x v, py_float (factor r) = Some x ∧ py_float (value r) = Some v
         ∧ total r = fmt2 (fmul x v).

(** A line of the form is consistent: its amount passed the entry's
    validation and its label is the total of its factor and that
    amount. *)
Definition row_ok (r : entry_row) : Prop :=
  _val (amount_var r) = true
  ∧ ∃ x, to_float (type_factor r) = Some x
         ∧ py_float (str_number (type_factor r)) = Some x
         ∧ update_total_value (Float x) (amount_var r) = Ok (total_label r).

Definition page_ok (p : DataEntryPage) : Prop :=
  Forall row_ok (fuel p) ∧ Forall row_ok (refrig p)
  ∧ _val (elec_amount_var p) = true ∧ factor_ok (elec_factor p).

End Store.
End Data.

(* ================================================================== *)
(** * The file-backed variant (main.py) *)
(* ================================================================== *)

Module Main.

(** One element of [emission_records]: Email, Entry Date, Month, Unit,
    Emission Category, Emission Name, Factor, Amount, Total, Document,
    RecordID. *)
Record emission_record := {
  email : string;
  entry_date : string;
  month : string;
  unit : string;
  emission_category : string;
  emission_name : string;
  factor : string;
  amount : string;
  total : string;
  document : string;
  record_id : Z;
}.

Record state := {
  emission_records : list emission_record;
  record_id_counter : Z;
}.

(** What [DATA_FILE] holds, if it exists. *)
Abbreviation disk := (option (list emission_record)).

(** Whether [open(DATA_FILE, "w")] succeeds. *)
Inductive medium : Type :=
  | Writable
  | ReadOnly.

(** <<
    def save_emission_records():
        try:
            with open(DATA_FILE, "w") as f:
                json.dump(emission_records, f)
        except Exception as e:
            logging.error(...)
>> *)
Definition save_emission_records (m : medium) (st : state) (d : disk)
  : disk :=
  match m with
  | Writable => Some (emission_records st)
  | ReadOnly => d
  end.

(** The variables of the dialog. *)
Record EditDialog := {
  rec_index : nat;
  unit_var : string;
  month_var : string;
  cat_var : string;
  name_var : string;
  factor_var : string;
  amount_var : string;
  doc_var : string;
}.

Section Edit.
Context `{PyFloat}.

(** <<
    def save_changes(self):
        total = update_total_value(float(self.factor_var.get()), self.amount_var.get())
        original = emission_records[self.rec_index]
        updated = (original[0], original[1], self.month_var.get(), self.unit_var.get(),
                   self.cat_var.get(), self.name_var.get(), self.factor_var.get(),
                   self.amount_var.get(), total, self.doc_var.get(), original[10])
>> *)
Definition updated_record (d : EditDialog) (st : state)
  : result emission_record :=
  f ← of_option ValueError (py_float (factor_var d));
  tot ← update_total_value (Float f) (amount_var d);
  original ← of_option IndexError (emission_records st !! rec_index d);
  Ok {| email := email original;
        entry_date := entry_date original;
        month := month_var d;
        unit := unit_var d;
        emission_category := cat_var d;
        emission_name := name_var d;
        factor := factor_var d;
        amount := amount_var d;
        total := tot;
        document := doc_var d;
        record_id := record_id original |}.

(** <<
        emission_records[self.rec_index] = updated
        save_emission_records()
        self.parent_page.refresh_table()
        messagebox.showinfo("Updated", "Record updated successfully!")
>>
    [refresh_table] of this variant does not reload. *)
Definition save_changes (d : EditDialog) (m : medium) (st : state)
  (dk : disk) : state * disk * result () :=
  match updated_record d st with
  | Raise e => (st, dk, Raise e)
  | Ok updated =>
      let st' :=
        {| emission_records := <[rec_index d := updated]> (emission_records st);
           record_id_counter := record_id_counter st |} in
      (st', save_emission_records m st' dk, Ok tt)
  end.

End Edit.
End Main.

(* ================================================================== *)
(** * IEEE 754 double precision *)
(* ================================================================== *)

(** The instance of [PyFloat] the examples are evaluated with: Rocq's
    primitive binary64 numbers, read and printed by exact integer
    arithmetic. *)

Module Binary64.

(** Nearest integer to [num / den] for [0 < den], ties to even. *)
Definition div_half_even (num den : Z) : Z :=
  let q := num / den in
  let r := num mod den in
  if 2 * r <? den then q
  else if den <? 2 * r then q + 1
  else if Z.even q then q else q + 1.

(** The binary64 value nearest to [p / q] for [0 < p] and [0 < q], ties
    to even; infinity beyond the largest finite value. *)
Definition nearest (p q : Z) : float :=
  let l := Z.log2 p - Z.log2 q in
  let above := if 0 <=? l then q * 2 ^ l <=? p else q <=? p * 2 ^ (- l) in
  let e := Z.max ((if above then l else l - 1) - 52) (-1074) in
  let m := if 0 <=? e then div_half_even p (q * 2 ^ e)
           else div_half_even (p * 2 ^ (- e)) q in
  Z.ldexp (of_uint63 (Uint63.of_Z m)) e.

(** [mant * 10 ^ k] as a binary64 value, [0 <= mant]. *)
Definition of_decimal (mant k : Z) : float :=
  if mant =? 0 then 0%float
  else
    let nd := Z.of_nat (String.length (pretty mant)) in
    if 400 <? k + nd then infinity
    else if k + nd <? -400 then 0%float
    else if 0 <=? k then nearest (mant * 10 ^ k) 1
    else nearest mant (10 ^ (- k)).

Definition signed (neg : bool) (x : float) : float :=
  if neg then (- x)%float else x.

(** Leading decimal digits of [s]: their value on top of [acc], how many
    there are, and the rest of the string. *)
Fixpoint digits (s : string) (acc : Z) (n : Z) : Z * Z * string :=
  match s with
  | String c s' =>
      match digit c with
      | Some d => digits s' (10 * acc + d) (n + 1)
      | None => (acc, n, s)
      end
  | EmptyString => (acc, n, s)
  end.

Definition lower (c : ascii) : ascii :=
  let n := nat_of_ascii c in
  if (Nat.leb 65 n && Nat.leb n 90)%bool then ascii_of_nat (n + 32) else c.

Fixpoint lowercase (s : string) : string :=
  match s with
  | String c s' => String (lower c) (lowercase s')
  | EmptyString => EmptyString
  end.

(** An optional sign. *)
Definition sign (s : string) : bool * string :=
  match s with
  | String "-" s' => (true, s')
  | String "+" s' => (false, s')
  | _ => (false, s)
  end.

(** The exponent part: empty, or [e] or [E], an optional sign and at
    least one digit, up to the end of the string. *)
Definition exponent (s : string) : option Z :=
  match s with
  | EmptyString => Some 0
  | String c s' =>
      if (Ascii.eqb c "e" || Ascii.eqb c "E")%bool then
        let '(neg, s'') := sign s' in
        match digits s'' 0 0 with
        | (ex, n, EmptyString) =>
            if 0 <? n then Some (if neg then - ex else ex) else None
        | _ => None
        end
      else None
  end.

(** [float(s)] for the ASCII literals without underscores: white space
    is stripped, then a sign, then [inf], [infinity], [nan] in any case
    or a decimal literal with at least one digit, an optional point and
    an optional exponent. *)
Definition parse (s : string) : option float :=
  let '(neg, body) := sign (strip s) in
  let low := lowercase body in
  if (String.eqb low "inf" || String.eqb low "infinity")%bool
  then Some (signed neg infinity)
  else if String.eqb low "nan" then Some nan
  else
    let '(ip, ni, rest) := digits body 0 0 in
    let '(mant, nf, rest') :=
      match rest with
      | String "." r => let '(m, n, r') := digits r ip 0 in (m, n, r')
      | _ => (ip, 0, rest)
      end in
    if 0 <? ni + nf then
      match exponent rest' with
      | Some ex => Some (signed neg (of_decimal mant (ex - nf)))
      | None => None
      end
    else None.

(** [float(z)]: the nearest value, [None] for [OverflowError]. *)
Definition of_int (z : Z) : option float :=
  if z =? 0 then Some 0%float
  else
    let x := if Z.log2 (Z.abs z) <? 1100 then nearest (Z.abs z) 1 else infinity in
    if PrimFloat.eqb x infinity then None else Some (signed (z <? 0) x).

(** [f"{x:.2f}"]: the exact binary value rounded to hundredths, ties to
    even. *)
Definition format_2f (x : float) : string :=
  match Prim2SF x with
  | S754_nan => "nan"
  | S754_infinity s => if s then "-inf" else "inf"
  | S754_zero s => if s then "-0.00" else "0.00"
  | S754_finite s m e =>
      let n := if 0 <=? e then Zpos m * 2 ^ e * 100
               else div_half_even (Zpos m * 100) (2 ^ (- e)) in
      (if s then "-" else "") ++ pretty (n / 100) ++ "." ++ pad2 (n mod 100)
  end.

(** Is [10 ^ t <= num / den]? *)
Definition pow10_le (t num den : Z) : bool :=
  if 0 <=? t then 10 ^ t * den <=? num else den <=? num * 10 ^ (- t).

(** The [t] with [10 ^ t <= num / den < 10 ^ (t + 1)], from an estimate
    by the binary logarithm. *)
Definition floor_log10 (num den : Z) : Z :=
  let t := (Z.log2 num - Z.log2 den) * 1233 / 4096 in
  let t := if pow10_le (t + 2) num den then t + 2
           else if pow10_le (t + 1) num den then t + 1 else t in
  if pow10_le t num den then t
  else if pow10_le (t - 1) num den then t - 1 else t - 2.

Fixpoint rstrip_zeros (s : string) : string :=
  match s with
  | String c s' =>
      match rstrip_zeros s' with
      | EmptyString => if Ascii.eqb c "0" then EmptyString else String c EmptyString
      | t => String c t
      end
  | EmptyString => EmptyString
  end.

Fixpoint zeros (n : nat) : string :=
  match n with O => "" | S n' => String "0" (zeros n') end.

Fixpoint take (n : nat) (s : string) : string :=
  match n, s with
  | S n', String c s' => String c (take n' s')
  | _, _ => ""
  end.

Fixpoint drop (n : nat) (s : string) : string :=
  match n, s with
  | S n', String c s' => drop n' s'
  | _, _ => s
  end.

(** Lay out the significant digits [ds] with the decimal point after
    [decpt] of them, as [repr] does. *)
Definition layout (ds : string) (decpt : Z) : string :=
  let n := Z.of_nat (String.length ds) in
  if (-4 <? decpt) && (decpt <=? 16) then
    if decpt <=? 0 then "0." ++ zeros (Z.to_nat (- decpt)) ++ ds
    else if n <=? decpt then ds ++ zeros (Z.to_nat (decpt - n)) ++ ".0"
    else take (Z.to_nat decpt) ds ++ "." ++ drop (Z.to_nat decpt) ds
  else
    let ex := decpt - 1 in
    take 1 ds ++ (if 1 <? n then "." ++ drop 1 ds else "")
    ++ "e" ++ (if ex <? 0 then "-" else "+") ++ pad2 (Z.abs ex).

(** The shortest decimal that reads back as [x = num / den]: for
    1, 2, ... significant digits, the decimals next to [x]. *)
Fixpoint shortest (x : float) (num den t : Z) (p : Z) (fuel : nat) : string :=
  let k := t - (p - 1) in
  let '(n, d) := if 0 <=? k then (num, den * 10 ^ k) else (num * 10 ^ (- k), den) in
  let near := div_half_even n d in
  let other := if near =? n / d then n / d + 1 else n / d in
  let back c := PrimFloat.eqb (of_decimal c k) x in
  let show c := layout (rstrip_zeros (pretty c)) (Z.of_nat (String.length (pretty c)) + k) in
  match fuel with
  | O => show near
  | S fuel' =>
      if back near then show near
      else if back other then show other
      else shortest x num den t (p + 1) fuel'
  end.

(** [str(x)] *)
Definition repr (x : float) : string :=
  match Prim2SF x with
  | S754_nan => "nan"
  | S754_infinity s => if s then "-inf" else "inf"
  | S754_zero s => if s then "-0.0" else "0.0"
  | S754_finite s m e =>
      let '(num, den) := if 0 <=? e then (Zpos m * 2 ^ e, 1) else (Zpos m, 2 ^ (- e)) in
      (if s then "-" else "")
      ++ shortest (abs x) num den (floor_log10 num den) 1 16
  end.

Global Instance binary64 : PyFloat := {|
  flt := float;
  py_float := parse;
  float_of_int := of_int;
  fmul := PrimFloat.mul;
  fmt2 := format_2f;
  str_float := repr;
|}.

(** A [NUMERIC(18,4)] column as a number of ten-thousandths. *)

(** A float parameter: the nearest multiple of [0.0001], refused when
    it is not finite or has more than eighteen digits. *)
Definition numeric_of_float (x : float) : option Z :=
  match Prim2SF x with
  | S754_nan | S754_infinity _ => None
  | S754_zero _ => Some 0
  | S754_finite s m e =>
      let n := if 0 <=? e then Zpos m * 2 ^ e * 10000
               else div_half_even (Zpos m * 10000) (2 ^ (- e)) in
      if n <? 10 ^ 18 then Some (if s then - n else n) else None
  end.

(** A string parameter: a sign, digits and an optional point. *)
Definition numeric_of_string (s : string) : option Z :=
  let '(neg, body) := sign (strip s) in
  let '(ip, ni, rest) := digits body 0 0 in
  let '(mant, nf, rest') :=
    match rest with
    | String "." r => let '(m, n, r') := digits r ip 0 in (m, n, r')
    | _ => (ip, 0, rest)
    end in
  match rest' with
  | EmptyString =>
      if 0 <? ni + nf then
        let n := if nf <=? 4 then mant * 10 ^ (4 - nf)
                 else div_half_even mant (10 ^ (nf - 4)) in
        if n <? 10 ^ 18 then Some (if neg then - n else n) else None
      else None
  | _ => None
  end.

(** [str] of the [Decimal] read back: four decimal places. *)
Definition str_fixed4 (n : Z) : string :=
  (if n <? 0 then "-" else "")
  ++ pretty (Z.abs n / 10000) ++ "." ++ pad4 (Z.abs n mod 10000).

Global Instance fixed4 : SqlNumeric := {|
  numeric := Z;
  bind_float := numeric_of_float;
  bind_text := numeric_of_string;
  str_numeric := str_fixed4;
|}.

End Binary64.

(* ================================================================== *)
(** * Values for the examples *)
(* ================================================================== *)

(** A file system that holds one receipt. *)
Definition receipt_only : filesystem :=
  {[ "/home/user/receipt.pdf" := File "%PDF-1.4" ]}.

(** The configuration of data.py, a form and the states the examples
    run on, over binary64 numbers and four-place decimals. *)
Module Example.
Import Data.

Definition fuel_types : list (string * @number Binary64.binary64) :=
  [("Diesel", Float 2.54603%float); ("Petrol", Float 2.296%float);
   ("PNG", Float 2.02266%float); ("LPG", Float 1.55537%float)].

Definition refrig_types : list (string * @number Binary64.binary64) :=
  [("R-22", Int 1810); ("R-410A", Int 2088)].

(** The form as it opens for a manager of unit C-49 on 7 March 2025. *)
Definition blank_page : @DataEntryPage Binary64.binary64 :=
  new_page "manager@gmail.com" "C-49" "March" "2025" "2025-03-07"
    fuel_types refrig_types (Float 0.6727%float).

Definition diesel_receipt : string :=
  "CarbonData/C-49/2025/03_March/C-49_07_03_2025_Fuel_Diesel.pdf".

(** The receipt is uploaded for Diesel and [100] is typed. *)
Definition diesel_page : @DataEntryPage Binary64.binary64 :=
  foldl handle blank_page
    [FuelUpload 0 diesel_receipt;
     FuelAmount 0 "1"; FuelAmount 0 "10"; FuelAmount 0 "100"].

(** The record the form yields under the identifier [0]. *)
Definition diesel_record : emission_record :=
  {| email := "manager@gmail.com";
     entry_date := "2025-03-07";
     month := "March";
     year := "2025";
     company_unit := "C-49";
     emission_category := "Scope1";
     emission_name := "Fuel";
     emission_type := "Diesel";
     factor := "2.54603";
     value := "100";
     total := "254.60";
     remarks := "";
     document := diesel_receipt;
     record_id := 0 |}.

(** The cache after a submission that found the server unreachable. *)
Definition unsaved : state :=
  {| emission_records := [diesel_record]; record_id_counter := 1 |}.

(** The table with that record stored, and the cache loaded from it. *)
Definition one_row : @table Binary64.binary64 Binary64.fixed4 :=
  insert empty_table diesel_record.

Definition loaded : state :=
  load_emission_records Connected initial one_row.

Definition no_filter : filter_vars :=
  {| flt_unit := "All"; flt_month := "All"; flt_year := "All";
     flt_emission_category := "All"; flt_emission_name := "All";
     flt_emission_type := "All" |}.

(** The dialog on the first cached record with the value changed to
    [120]. *)
Definition raise_value (v : edit_vars) : edit_vars :=
  {| var_unit := var_unit v; var_month := var_month v;
     var_year := var_year v; var_category := var_category v;
     var_name := var_name v; var_type := var_type v;
     var_factor := var_factor v; var_value := "120";
     var_remarks := var_remarks v; var_document := var_document v |}.

Definition dialog_120 (st : state) : option EditDialog :=
  match emission_records st with
  | r :: _ =>
      Some {| rec_index := 0; record := r;
              vars := raise_value (vars (open_dialog r 0)) |}
  | [] => None
  end.

(** A session: the form is submitted twice, then the record stored
    last is deleted. *)
Definition submit_diesel : action :=
  Submit diesel_page Connected Connected Connected.

Definition session : list action :=
  [submit_diesel; submit_diesel; Delete 3 Connected Connected].

Definition run (l : list action)
  : state * @table Binary64.binary64 Binary64.fixed4 :=
  foldl (λ s a, step a s) (initial, empty_table) l.

(** The same record, state and dialog in main.py. *)
Definition main_record : Main.emission_record :=
  {| Main.email := "manager@gmail.com";
     Main.entry_date := "2025-03-07";
     Main.month := "March";
     Main.unit := "C-49";
     Main.emission_category := "Fuel";
     Main.emission_name := "Diesel";
     Main.factor := "2.54603";
     Main.amount := "100";
     Main.total := "254.60";
     Main.document := diesel_receipt;
     Main.record_id := 0 |}.

Definition main_state : Main.state :=
  {| Main.emission_records := [main_record];
     Main.record_id_counter := 1 |}.

Definition main_dialog : Main.EditDialog :=
  {| Main.rec_index := 0;
     Main.unit_var := "C-49";
     Main.month_var := "March";
     Main.cat_var := "Fuel";
     Main.name_var := "Diesel";
     Main.factor_var := "2.54603";
     Main.amount_var := "120";
     Main.doc_var := diesel_receipt |}.

Definition main_updated : Main.emission_record :=
  {| Main.email := "manager@gmail.com";
     Main.entry_date := "2025-03-07";
     Main.month := "March";
     Main.unit := "C-49";
     Main.emission_category := "Fuel";
     Main.emission_name := "Diesel";
     Main.factor := "2.54603";
     Main.amount := "120";
     Main.total := "305.52";
     Main.document := diesel_receipt;
     Main.record_id := 0 |}.

End Example.

(* ================================================================== *)
(** * Further parts of the application *)
(* ================================================================== *)

(** ** Notions for the entry form *)

Section FormNotions.
Import Data.
Context `{PyFloat}.

(** The amount of a line is not blank: [var.get().strip()] is true. *)
Definition has_amount (r : entry_row) : bool :=
  truthy (strip (amount_var r)).

(** The fields every record of one submission has in common, and a
    value that is not empty. *)
Definition common_fields (p : DataEntryPage) (r : emission_record) : Prop :=
  email r = controller_email p ∧ entry_date r = current_date_label p
  ∧ month r = strip (month_var p) ∧ year r = strip (year_var p)
  ∧ company_unit r = strip (unit_var p) ∧ value r ≠ "".

End FormNotions.

(** ** Notions for the cache *)

Section CacheNotions.
Import Data.
Context `{SqlNumeric}.

(** What a reload makes of a table: its rows in the order of the
    query, as records. *)
Definition view (t : table) : list emission_record :=
  of_row <$> merge_sort comes_before (rows t).

(** The four common fields of the form are filled in. *)
Definition mandatory_filled (p : DataEntryPage) : Prop :=
  strip (unit_var p) ≠ "" ∧ strip (month_var p) ≠ ""
  ∧ strip (year_var p) ≠ "" ∧ current_date_label p ≠ "".

(** Every line with an amount names a document. *)
Definition documents_present (p : DataEntryPage) : Prop :=
  (∀ r, r ∈ (fuel p ++ refrig p)%list → has_amount r = true →
        file_var r ≠ "")
  ∧ (strip (elec_amount_var p) ≠ "" → elec_file_var p ≠ "").

(** Some line of the form has an amount. *)
Definition some_amount (p : DataEntryPage) : Prop :=
  (∃ r, r ∈ (fuel p ++ refrig p)%list ∧ has_amount r = true)
  ∨ strip (elec_amount_var p) ≠ "".

End CacheNotions.

(** ** Uploads *)

Section Uploads.

Variable BASE_DIR : string.

(** data.py, [upload_document]; [fp] is what the file dialog returned
    (empty when it was cancelled), [var] the value of the line's file
    variable and [admin] the address
    [system_config["users"]["admin"]["email"]].  The variable after the
    call comes first in the result.
<<
    def upload_document(var, unit, date_str, name, etype, uploader):
        fp = filedialog.askopenfilename(...)
        if not fp:
            return
        role = "Admin" if uploader == system_config["users"]["admin"]["email"] else "User"
        meta = DocumentManagementSystem.save_document(fp, unit, date_str, name, etype, uploader, role)
        var.set(meta["file_path"])
>> *)
Definition upload_document
  (fp var unit_name date_str name etype uploader : string)
  (admin now : string) (fs : filesystem) (document_logs : list metadata)
  : option (string * filesystem * list metadata * result unit) :=
  if negb (truthy fp) then Some (var, fs, document_logs, Ok tt)
  else
    let role := if String.eqb uploader admin then "Admin" else "User" in
    match save_document BASE_DIR fp unit_name date_str name etype uploader
            role now fs document_logs with
    | None => None
    | Some (fs', logs', Raise e) => Some (var, fs', logs', Raise e)
    | Some (fs', logs', Ok meta) => Some (file_path meta, fs', logs', Ok tt)
    end.

(** The files [fps] are saved one after the other for the same unit,
    date, emission name and emission type, as long as no call raises;
    the entries of the calls that returned are collected. *)
Fixpoint save_documents (fps : list string)
  (unit_name upload_date emission_name emission_type uploader role now
     : string)
  (fs : filesystem) (document_logs : list metadata)
  : option (filesystem * list metadata * result (list metadata)) :=
  match fps with
  | [] => Some (fs, document_logs, Ok [])
  | fp :: rest =>
      match save_document BASE_DIR fp unit_name upload_date emission_name
              emission_type uploader role now fs document_logs with
      | None => None
      | Some (fs', logs', Raise e) => Some (fs', logs', Raise e)
      | Some (fs', logs', Ok meta) =>
          match save_documents rest unit_name upload_date emission_name
                  emission_type uploader role now fs' logs' with
          | Some (fs'', logs'', Ok metas) =>
              Some (fs'', logs'', Ok (meta :: metas))
          | other => other
          end
      end
  end.

End Uploads.

(* ================================================================== *)
(** * Users and roles (data.py) *)
(* ================================================================== *)

Module Users.

(** One entry of [system_config["users"]["manager"]] or
    [...["employee"]]. *)
Record user := {
  email : string;
  password : string;
  role : string;
}.

Global Instance user_eq_dec : EqDecision user.
Proof. solve_decision. Defined.

(** [system_config["users"]] *)
Record users := {
  admin : user;
  manager : list user;
  employee : list user;
}.

(** <<
    def get_user_role(email):
        if email == system_config["users"]["admin"]["email"]:
            return "Admin"
        for u in system_config["users"]["manager"]:
            if u["email"] == email:
                return "Manager"
        return "Employee"
>> *)
Definition get_user_role (cfg : users) (address : string) : string :=
  if String.eqb address (email (admin cfg)) then "Admin"
  else if existsb (λ u, String.eqb (email u) address) (manager cfg)
  then "Manager"
  else "Employee".

(** [EmissionDataPage.update_edit_delete_buttons]: is the delete button
    enabled for the user logged in under [address]?
<<
    role = get_user_role(self.controller.email)
    if role in ["Admin", "Manager"]:
        self.btn_delete.config(state="normal")
    else:
        self.btn_delete.config(state="disabled")
>> *)
Definition delete_enabled (cfg : users) (address : string) : bool :=
  let role := get_user_role cfg address in
  String.eqb role "Admin" || String.eqb role "Manager".

(** The list [allu] that [delete_user] and [edit_user] build: the
    managers, then the employees, each with the label of its list. *)
Definition allu (cfg : users) : list (string * user) :=
  ((λ u, ("Manager", u)) <$> manager cfg)
  ++ ((λ u, ("Employee", u)) <$> employee cfg).

(** [lst.append(u)] on the list ["manager" if role=="Manager" else
    "employee"]. *)
Definition append_user (target : string) (u : user) (cfg : users) : users :=
  if String.eqb target "Manager"
  then {| admin := admin cfg; manager := manager cfg ++ [u];
          employee := employee cfg |}
  else {| admin := admin cfg; manager := manager cfg;
          employee := employee cfg ++ [u] |}.

(** <<
    def add_user(self):
        role, email, pwd = self.new_role_var.get(), self.new_email_var.get().strip(), self.new_pass_var.get().strip()
        if not email or not pwd:
            messagebox.showerror("Error", "Enter email & password.")
            return
        lst = system_config["users"]["manager" if role=="Manager" else "employee"]
        lst.append({"email": email, "password": pwd, "role": role})
>>
    [None] when the error is shown. *)
Definition add_user (new_role new_email new_pass : string) (cfg : users)
  : option users :=
  let address := strip new_email in
  let pwd := strip new_pass in
  if negb (truthy address) || negb (truthy pwd) then None
  else Some (append_user new_role
               {| email := address; password := pwd; role := new_role |}
               cfg).

(** [lst.remove(data)]: the first element equal to [data] goes; when
    there is none the call raises [ValueError]. *)
Fixpoint remove (data : user) (lst : list user) : option (list user) :=
  match lst with
  | [] => None
  | u :: rest =>
      if decide (u = data) then Some rest
      else cons u <$> remove data rest
  end.

(** <<
    def delete_user(self):
        sel = self.users_tree.selection()
        if not sel:
            messagebox.showerror("Error", "No user selected.")
            return
        idx = int(sel[0])
        allu = [...]
        role, data = allu[idx]
        system_config["users"]["manager" if role=="Manager" else "employee"].remove(data)
>>
    [sel] is the index the selected item carries. *)
Definition delete_user (sel : option nat) (cfg : users) : result users :=
  match sel with
  | None => Ok cfg
  | Some idx =>
      '(label, data) ← of_option IndexError (allu cfg !! idx);
      if String.eqb label "Manager" then
        lst ← of_option ValueError (remove data (manager cfg));
        Ok {| admin := admin cfg; manager := lst; employee := employee cfg |}
      else
        lst ← of_option ValueError (remove data (employee cfg));
        Ok {| admin := admin cfg; manager := manager cfg; employee := lst |}
  end.

(** The loop of [save_edit] over one list: the first entry with the
    address [old] is removed.
<<
    for u in lst:
        if u["email"] == data["email"]:
            lst.remove(u)
            break
>> *)
Fixpoint remove_email (old : string) (lst : list user) : list user :=
  match lst with
  | [] => []
  | u :: rest =>
      if String.eqb (email u) old then rest
      else u :: remove_email old rest
  end.

(** [save_edit] of [edit_user] for the entry [data] the dialog was
    opened on and the role, address and password of the dialog:
<<
    nr, ne, npw = rv.get(), ev.get().strip(), pv.get().strip()
    for lst in (system_config["users"]["manager"], system_config["users"]["employee"]):
        ...
    system_config["users"]["manager" if nr=="Manager" else "employee"].append(
        {"email": ne, "password": npw, "role": nr})
>> *)
Definition save_edit (data : user) (rv ev pv : string) (cfg : users)
  : users :=
  append_user rv
    {| email := strip ev; password := strip pv; role := rv |}
    {| admin := admin cfg;
       manager := remove_email (email data) (manager cfg);
       employee := remove_email (email data) (employee cfg) |}.

(** [edit_user] up to the dialog: the entry it is opened on. *)
Definition edit_user (sel : option nat) (cfg : users)
  : result (option (string * user)) :=
  match sel with
  | None => Ok None
  | Some idx => Some <$> of_option IndexError (allu cfg !! idx)
  end.

(** <<
    def login(self):
        email = self.email_entry.get().strip()
        pwd   = self.password_entry.get().strip()
        if email == system_config["users"]["admin"]["email"] and pwd == system_config["users"]["admin"]["password"]:
            self.controller.email = email
            ...
            return
        for role in ("manager","employee"):
            for u in system_config["users"].get(role, []):
                if u["email"]==email and u["password"]==pwd:
                    self.controller.email = email
                    ...
                    return
        messagebox.showerror("Login Failed","Invalid credentials.")
>>
    The address under which the user is logged in, if any. *)
Definition credentials (address pwd : string) (u : user) : bool :=
  String.eqb (email u) address && String.eqb (password u) pwd.

Definition login (email_entry password_entry : string) (cfg : users)
  : option string :=
  let address := strip email_entry in
  let pwd := strip password_entry in
  if credentials address pwd (admin cfg) then Some address
  else if existsb (credentials address pwd) (manager cfg ++ employee cfg)
  then Some address
  else None.

End Users.

(* ================================================================== *)
(** * The record browser of the file-backed variant (main.py) *)
(* ================================================================== *)

Module MainPage.
Import Main.

(** [max(int(r[10]) for r in emission_records)] over a list that is not
    empty. *)
Definition max_id (l : list emission_record) : Z :=
  match l with
  | [] => 0
  | r :: l' => foldl (λ m r', Z.max m (record_id r')) (record_id r) l'
  end.

(** main.py, [load_emission_records]; [dk] is what [DATA_FILE] holds,
    if it exists.
<<
    def load_emission_records():
        global emission_records, record_id_counter
        try:
            if os.path.exists(DATA_FILE):
                with open(DATA_FILE, "r") as f:
                    emission_records[:] = json.load(f)
                if emission_records:
                    record_id_counter = max(int(r[10]) for r in emission_records) + 1
        except Exception as e: ...
>> *)
Definition load_emission_records (st : state) (dk : disk) : state :=
  match dk with
  | None => st
  | Some l =>
      {| emission_records := l;
         record_id_counter :=
           match l with
           | [] => record_id_counter st
           | _ => max_id l + 1
           end |}
  end.

(** What a handler of the record browser tells the user. *)
Inductive message : Type :=
  | NoSelection      (** [showerror("No Selection", ...)] *)
  | Cancelled        (** the confirmation was declined *)
  | NotFound         (** [showerror("Error", "Record not found.")] *)
  | Deleted.         (** [showinfo("Deleted", ...)] *)

(** The four filter variables. *)
Record filter_vars := {
  filter_unit : string;
  filter_month : string;
  filter_year : string;
  filter_emission_type : string;
}.

(** The condition of the loops of [apply_filters] and [sort_by_date]:
<<
    (unit_filter == "All" or record[3] == unit_filter) and
    (month_filter == "All" or record[2] == month_filter) and
    (year_filter == "All" or record[1][:4] == year_filter) and
    (type_filter == "All" or record[4] == type_filter)
>> *)
Definition matches (flts : filter_vars) (rec : emission_record) : bool :=
  (String.eqb (filter_unit flts) "All"
   || String.eqb (unit rec) (filter_unit flts))
  && (String.eqb (filter_month flts) "All"
      || String.eqb (month rec) (filter_month flts))
  && (String.eqb (filter_year flts) "All"
      || String.eqb (String.substring 0 4 (entry_date rec))
           (filter_year flts))
  && (String.eqb (filter_emission_type flts) "All"
      || String.eqb (emission_category rec) (filter_emission_type flts)).

(** [apply_filters]: the records [refresh_table] is given to show. *)
Definition apply_filters (flts : filter_vars) (st : state)
  : list emission_record :=
  List.filter (matches flts) (emission_records st).

(** [list.sort(key=lambda x: x[1], reverse=...)]: strings are compared
    character by character ([String.leb]); the sort is stable, also
    when reversed, so an element is put behind the elements its key
    does not precede. *)
Fixpoint insert_by_date (descending : bool) (x : emission_record)
  (l : list emission_record) : list emission_record :=
  match l with
  | [] => [x]
  | y :: l' =>
      if (if descending then String.leb (entry_date x) (entry_date y)
          else String.leb (entry_date y) (entry_date x))
      then y :: insert_by_date descending x l'
      else x :: l
  end.

(** [a] may stand before [b] in the order asked for. *)
Definition before (descending : bool) (a b : emission_record) : Prop :=
  if descending then String.leb (entry_date b) (entry_date a) = true
  else String.leb (entry_date a) (entry_date b) = true.

Definition sort_records (descending : bool) (l : list emission_record)
  : list emission_record :=
  foldl (λ acc x, insert_by_date descending x acc) [] l.

(** [sort_by_date]: the records shown and the flag [sort_ascending]
    after the call.
<<
    filtered.sort(key=lambda x: x[1], reverse=not self.sort_ascending)
    self.sort_ascending = not self.sort_ascending
    self.refresh_table(filtered)
>> *)
Definition sort_by_date (flts : filter_vars) (sort_ascending : bool)
  (st : state) : list emission_record * bool :=
  (sort_records (negb sort_ascending) (apply_filters flts st),
   negb sort_ascending).

(** The loop of [edit_record] and of [delete_record]: the first record
    under the selected identifier, with its position. *)
Fixpoint find_record (sel : Z) (l : list emission_record) (i : nat)
  : option (emission_record * nat) :=
  match l with
  | [] => None
  | r :: l' =>
      if record_id r =? sel then Some (r, i)
      else find_record sel l' (S i)
  end.

(** [EditDialog.__init__]: the variables start at the fields of the
    record. *)
Definition open_dialog (record : emission_record) (idx : nat) : EditDialog :=
  {| rec_index := idx;
     unit_var := unit record;
     month_var := month record;
     cat_var := emission_category record;
     name_var := emission_name record;
     factor_var := factor record;
     amount_var := amount record;
     doc_var := document record |}.

(** [edit_record] *)
Definition edit_record (sel : option Z) (st : state)
  : message + EditDialog :=
  match sel with
  | None => inl NoSelection
  | Some record_id =>
      match find_record record_id (emission_records st) 0 with
      | None => inl NotFound
      | Some (r, idx) => inr (open_dialog r idx)
      end
  end.

(** [os.remove(file_path)] inside [try ... except]: a file goes, on a
    directory the call raises and the error is logged. *)
Definition os_remove (path : string) (fs : filesystem) : filesystem :=
  match fs !! path with
  | Some (File _) => delete path fs
  | _ => fs
  end.

(** <<
    def delete_record(self):
        selected = self.tree.selection()
        if not selected: ... return
        record_id = selected[0]
        if not messagebox.askyesno(...): return
        for i, rec in enumerate(emission_records):
            if str(rec[10]) == record_id:
                file_path = rec[9]
                if file_path != "No File" and os.path.exists(file_path):
                    try:
                        os.remove(file_path)
                    except Exception as e: ...
                del emission_records[i]
                break
        save_emission_records()
        self.refresh_table()
        messagebox.showinfo("Deleted", "Record deleted successfully.")
>> *)
Definition delete_record (sel : option Z) (confirmed : bool) (m : medium)
  (st : state) (fs : filesystem) (dk : disk)
  : state * filesystem * disk * message :=
  match sel with
  | None => (st, fs, dk, NoSelection)
  | Some record_id =>
      if negb confirmed then (st, fs, dk, Cancelled)
      else
        let '(st', fs') :=
          match find_record record_id (emission_records st) 0 with
          | Some (rec, i) =>
              ({| emission_records := delete i (emission_records st);
                  record_id_counter := record_id_counter st |},
               if negb (String.eqb (document rec) "No File")
               then os_remove (document rec) fs else fs)
          | None => (st, fs)
          end in
        (st', fs', save_emission_records m st' dk, Deleted)
  end.

End MainPage.

(* ================================================================== *)
(** * The generator of sample data (data.py, first part) *)
(* ================================================================== *)

Module Generator.
Import Main.

Definition units : list string := ["C-49"; "B-37"; "C-91"; "2B-4"].

Definition months : list (string * string) :=
  [("January", "01"); ("February", "02"); ("March", "03"); ("April", "04");
   ("May", "05"); ("June", "06"); ("July", "07"); ("August", "08");
   ("September", "09"); ("October", "10"); ("November", "11");
   ("December", "12")].

(** An entry of [fuel_types], or [electricity]. *)
Record source := {
  name : string;
  factor : float;
  amount_range : Z * Z;
  doc_ext : string;
}.

Definition fuel_types : list source :=
  [{| name := "Diesel"; factor := 2.54603; amount_range := (80, 120);
      doc_ext := ".pdf" |};
   {| name := "Petrol"; factor := 2.296; amount_range := (80, 120);
      doc_ext := ".pdf" |};
   {| name := "PNG"; factor := 2.02266; amount_range := (100, 150);
      doc_ext := ".pdf" |};
   {| name := "LPG"; factor := 1.55537; amount_range := (120, 180);
      doc_ext := ".pdf" |}].

Definition electricity : source :=
  {| name := "Electricity"; factor := 0.6727; amount_range := (40, 80);
     doc_ext := ".jpeg" |}.

(** The five sources of the generator. *)
Definition sources : list source := (fuel_types ++ [electricity])%list.

Definition years : list string := ["2025"; "2026"].

Definition email : string := "manager@gmail.com".

(** The separator of the document paths, a backslash. *)
Definition sep : string := String (ascii_of_nat 92) EmptyString.

(** <<
    def compute_total(factor, amount):
        total = factor * amount
        return f"{total:.2f}"
>>
    with a [float] factor and an [int] amount. *)
Definition compute_total (factor : float) (amount : Z) : result string :=
  a ← of_option OverflowError (Binary64.of_int amount);
  Ok (Binary64.format_2f (factor * a)%float).

(** [random.randint(a, b)]: some integer from [a] to [b]; [raw] is what
    the generator draws. *)
Definition randint (range : Z * Z) (raw : Z) : Z :=
  range.1 + raw mod (range.2 - range.1 + 1).

(** [records] and [record_id], and the number of draws so far. *)
Record progress := {
  records : list emission_record;
  next_id : Z;
  draws : nat;
}.

(** One record: the fuel records are filed under [kind = "Fuel"] and
    the electricity records under [kind = "Electricity"].
<<
    amount = random.randint(lo, hi)       # fuel["amount_range"]
    total = compute_total(fuel["factor"], amount)
    doc = f"CarbonData<sep>{unit}<sep>{year}<sep>{month_num}_{month_name}<sep>{unit}_07_{month_num}_{year}_{fuel['name']}_Fuel{fuel['doc_ext']}"
    record = [email, entry_date, month_name, unit, "Fuel", fuel["name"], f"{fuel['factor']}", str(amount), total, doc, record_id]
    record_id += 1
    records.append(record)
>> *)
Definition make_record (year unit_name month_name month_num kind : string)
  (src : source) (amount : Z) (total : string) (id : Z) : emission_record :=
  {| Main.email := email;
     entry_date := year ++ "-" ++ month_num ++ "-07";
     month := month_name;
     unit := unit_name;
     emission_category := kind;
     emission_name := name src;
     Main.factor := Binary64.repr (factor src);
     amount := pretty amount;
     total := total;
     document :=
       "CarbonData" ++ sep ++ unit_name ++ sep ++ year ++ sep ++ month_num
       ++ "_" ++ month_name ++ sep ++ unit_name ++ "_07_" ++ month_num
       ++ "_" ++ year ++ "_" ++ name src ++ "_" ++ kind ++ doc_ext src;
     record_id := id |}.

Definition emit (random : nat → Z)
  (year unit_name month_name month_num kind : string) (src : source)
  (p : progress) : result progress :=
  let amount := randint (amount_range src) (random (draws p)) in
  total ← compute_total (factor src) amount;
  Ok {| records :=
          records p
          ++ [make_record year unit_name month_name month_num kind src
                amount total (next_id p)];
        next_id := next_id p + 1;
        draws := S (draws p) |}.

(** [for x in l: body], with a body that may raise. *)
Fixpoint for_each {A S : Type} (l : list A) (body : A → S → result S)
  (s : S) : result S :=
  match l with
  | [] => Ok s
  | x :: l' => s' ← body x s; for_each l' body s'
  end.

(** The three nested loops; what is dumped to [emission_records.json]
    is [records] of the result. *)
Definition generate (random : nat → Z) : result progress :=
  for_each years (λ year,
    for_each units (λ unit_name,
      for_each months (λ m p,
        p' ← for_each fuel_types
               (emit random year unit_name m.1 m.2 "Fuel") p;
        emit random year unit_name m.1 m.2 "Electricity" electricity p')))
    {| records := []; next_id := 0; draws := 0 |}.

(** The total of a generated record is the one the edit dialog of
    main.py computes from the record's factor and amount. *)
Definition total_agrees (src : source) (amount : Z) : bool :=
  match Binary64.parse (Binary64.repr (factor src)),
        compute_total (factor src) amount with
  | Some f, Ok total =>
      match update_total_value (H := Binary64.binary64) (Float f)
              (pretty amount) with
      | Ok total' => String.eqb total' total
      | Raise _ => false
      end
  | _, _ => false
  end.

(** A record of the generator: built by [make_record] for a year, a
    unit and a month of the lists, from a fuel as a [Fuel] record or
    from [electricity] as an [Electricity] record, with an amount of
    the range of the source and the total of [compute_total]. *)
Definition generated (r : emission_record) : Prop :=
  ∃ year unit_name m kind src amount total id,
    r = make_record year unit_name m.1 m.2 kind src amount total id
    ∧ year ∈ years ∧ unit_name ∈ units ∧ m ∈ months
    ∧ (kind = "Fuel" ∧ src ∈ fuel_types
       ∨ kind = "Electricity" ∧ src = electricity)
    ∧ (amount_range src).1 <= amount <= (amount_range src).2
    ∧ compute_total (factor src) amount = Ok total.

(** The date of a generated record is the seventh of its month: it is
    read as such, and printed in the three forms the document store
    uses it gives the parts of the record's document path. *)
Definition date_parts_agree (year : string) (m : string * string) : bool :=
  match strptime (year ++ "-" ++ m.2 ++ "-07") with
  | Some dt =>
      bool_decide (d_day dt = 7 ∧ month_name (d_month dt) = m.1
                   ∧ strftime_Y dt = year
                   ∧ strftime_m_B dt = m.2 ++ "_" ++ m.1
                   ∧ strftime_d_m_Y dt = "07_" ++ m.2 ++ "_" ++ year)
  | None => false
  end.

(** What the loops maintain: the identifiers count the records, one
    draw was made for each, and every record is one of the
    generator. *)
Definition progress_ok (p : progress) : Prop :=
  next_id p = Z.of_nat (length (records p))
  ∧ draws p = length (records p)
  ∧ record_id <$> records p = seqZ 0 (Z.of_nat (length (records p)))
  ∧ Forall generated (records p).

End Generator.

(* ================================================================== *)
(** * More values for the examples *)
(* ================================================================== *)

Module Sample.

(** The dialog as it opens on the stored record. *)
Definition diesel_dialog : Data.EditDialog :=
  Data.open_dialog Example.diesel_record 0.

(** Two uploads of the same receipt. *)
Definition receipts : list string :=
  ["/home/user/receipt.pdf"; "/home/user/receipt.pdf"].

(** The accounts: the administrator, one manager and one employee. *)
Definition accounts : Users.users :=
  {| Users.admin :=
       {| Users.email := "admin@gmail.com"; Users.password := "admin123";
          Users.role := "Admin" |};
     Users.manager :=
       [{| Users.email := "lead@rmx.in"; Users.password := "lead-1";
           Users.role := "Manager" |}];
     Users.employee :=
       [{| Users.email := "staff@rmx.in"; Users.password := "staff-1";
           Users.role := "Employee" |}] |}.

(** A second record of main.py, entered a month later. *)
Definition april_record : Main.emission_record :=
  {| Main.email := "manager@gmail.com";
     Main.entry_date := "2025-04-07";
     Main.month := "April";
     Main.unit := "C-49";
     Main.emission_category := "Fuel";
     Main.emission_name := "Petrol";
     Main.factor := "2.296";
     Main.amount := "50";
     Main.total := "114.80";
     Main.document := "No File";
     Main.record_id := 1 |}.

Definition two_records : Main.state :=
  {| Main.emission_records := [april_record; Example.main_record];
     Main.record_id_counter := 2 |}.

Definition year_2025 : MainPage.filter_vars :=
  {| MainPage.filter_unit := "All"; MainPage.filter_month := "All";
     MainPage.filter_year := "2025";
     MainPage.filter_emission_type := "All" |}.

(** The first source of the generator and a record made from it. *)
Definition diesel : Generator.source :=
  {| Generator.name := "Diesel"; Generator.factor := 2.54603;
     Generator.amount_range := (80, 120); Generator.doc_ext := ".pdf" |}.

Definition january_record : Main.emission_record :=
  Generator.make_record "2025" "C-49" "January" "01" "Fuel" diesel 100
    "254.60" 0.

End Sample.
(* ================================================================== *)
(** * The embedding on concrete inputs *)
(* ================================================================== *)

Example strptime_lenient :
  strptime "2025-3-7" = Some {| d_year := 2025; d_month := 3; d_day := 7 |}.
Proof. vm_compute. reflexivity. Qed.

Example strptime_no_such_day : strptime "2025-02-30" = None.
Proof. vm_compute. reflexivity. Qed.

Example strptime_leap_day :
  strptime "2024-02-29"
  = Some {| d_year := 2024; d_month := 2; d_day := 29 |}.
Proof. vm_compute. reflexivity. Qed.

Example splitext_ext_pdf : splitext_ext "scans/bill.v1.pdf" = ".pdf".
Proof. vm_compute. reflexivity. Qed.

Example splitext_ext_hidden : splitext_ext "scans/.profile" = "".
Proof. vm_compute. reflexivity. Qed.

Example splitext_ext_dir_dot : splitext_ext "scans.d/bill" = "".
Proof. vm_compute. reflexivity. Qed.

Example path_join_relative : path_join "docs" "2025" = "docs/2025".
Proof. vm_compute. reflexivity. Qed.

Example path_join_absolute : path_join "docs" "/tmp" = "/tmp".
Proof. vm_compute. reflexivity. Qed.

Example generate_unique_code_example :
  generate_unique_code "Plant A" "2025-3-7" "Diesel" "Fuel"
  = Ok "Plant A_07_03_2025_Diesel_Fuel".
Proof. vm_compute. reflexivity. Qed.

Example update_total_value_example :
  update_total_value (H := Binary64.binary64) (Float 2.54603%float) "100"
  = Ok "254.60".
Proof. vm_compute. reflexivity. Qed.

Example update_total_value_int_factor :
  update_total_value (H := Binary64.binary64) (Int 3) " 1.005 "
  = Ok "3.01".
Proof. vm_compute. reflexivity. Qed.

Example update_total_value_overflow :
  update_total_value (H := Binary64.binary64) (Int (10 ^ 400)) "1"
  = Ok "0.00".
Proof. vm_compute. reflexivity. Qed.

Example update_total_value_letters :
  update_total_value (H := Binary64.binary64) (Float 2.54603%float) "abc"
  = Ok "0.00".
Proof. vm_compute. reflexivity. Qed.

Example repr_shortest : Binary64.repr 0.1%float = "0.1".
Proof. vm_compute. reflexivity. Qed.

Example format_2f_half_even : Binary64.format_2f 0.125%float = "0.12".
Proof. vm_compute. reflexivity. Qed.

(* ================================================================== *)
(** * Properties of [update_total_value] *)
(* ================================================================== *)

Section TotalValue.
Context `{PyFloat}.

Lemma update_total_value_returns (factor : number) (value_str : string) :
  ∃ t, update_total_value factor value_str = Ok t.
Proof.
  unfold update_total_value.
  destruct (py_float value_str) as [v|]; simpl; [|by eexists].
  destruct factor as [z|x]; simpl; [|by eexists].
  destruct (float_of_int z); simpl; by eexists.
Qed.

Lemma update_total_value_float (x v : flt) (value_str : string) :
  py_float value_str = Some v →
  update_total_value (Float x) value_str = Ok (fmt2 (fmul x v)).
Proof. intros Hv. unfold update_total_value. by rewrite Hv. Qed.

(** C10: whatever the factor, a value string that [float] does not read
    (the empty string included) makes [update_total_value] return
    ["0.00"]; and the helper returns a string on every input, it never
    raises. *)
Theorem update_total_value_unparsable (factor : number) (value_str : string) :
  (∃ t, update_total_value factor value_str = Ok t)
  ∧ (py_float value_str = None →
     update_total_value factor value_str = Ok "0.00").
Proof.
  split; [apply update_total_value_returns|].
  intros Hnone. unfold update_total_value. by rewrite Hnone.
Qed.

End TotalValue.

Lemma update_total_value_unparsable_witness :
  @py_float Binary64.binary64 "" = None
  ∧ @update_total_value Binary64.binary64 (Float 2.54603%float) ""
    = Ok "0.00".
Proof.
  split; [vm_compute; reflexivity|].
  apply (update_total_value_unparsable (H := Binary64.binary64)).
  vm_compute; reflexivity.
Defined.

(* ================================================================== *)
(** * The total of a record *)
(* ================================================================== *)

Section TotalDerivation.
Import Data.
Context `{SqlNumeric} `{!PyFloatLaws}.

Lemma update_total_value_to_float (n : number) (x : flt) (s : string) :
  to_float n = Some x →
  update_total_value n s = update_total_value (Float x) s.
Proof.
  intros Hx. unfold update_total_value.
  destruct (py_float s) as [v|]; [|done]. cbn [of_option mbind result_bind].
  destruct n as [z|y]; simpl in *; [by rewrite Hx|by injection Hx as ->].
Qed.

Lemma update_total_value_empty (n : number) :
  update_total_value n "" = Ok "0.00".
Proof. unfold update_total_value. by rewrite py_float_empty. Qed.

Lemma truthy_strip (s : string) : truthy (strip s) = true → s ≠ "".
Proof. by intros Hs ->. Qed.

(** An amount that passed validation and is not blank is read by
    [float], and so is its stripped text. *)
Lemma validated_amount (s : string) :
  _val s = true → truthy (strip s) = true →
  ∃ v, py_float s = Some v ∧ py_float (strip s) = Some v.
Proof.
  intros Hval Hs. apply truthy_strip in Hs.
  unfold _val in Hval. apply orb_true_iff in Hval as [Hval|Hval].
  - by destruct s.
  - apply bool_decide_eq_true in Hval as [v Hv].
    exists v. by rewrite py_float_strip.
Qed.

(** ** The callbacks keep the lines consistent *)

Lemma row_ok_cb_fuel (P : string) (r : entry_row) :
  _val P = true → row_ok r → row_ok (cb_fuel (write_amount P r)).
Proof.
  intros HP (_ & x & Hx & Hstr & _). unfold cb_fuel.
  cbn [write_amount type_factor amount_var].
  rewrite (update_total_value_to_float _ x) by done.
  destruct (update_total_value_returns (Float x) P) as [s Hs].
  rewrite Hs. split; [done|]. exists x. by cbn.
Qed.

Lemma row_ok_cb_refrig (P : string) (r : entry_row) :
  _val P = true → row_ok r → row_ok (cb_refrig (write_amount P r)).
Proof.
  intros HP (_ & x & Hx & Hstr & _). unfold cb_refrig.
  cbn [write_amount type_factor amount_var].
  assert (truthy (str_number (type_factor r)) = true) as ->.
  { destruct (str_number (type_factor r)); [|done].
    by rewrite py_float_empty in Hstr. }
  rewrite Hstr. cbn [of_option fmap result_fmap mbind result_bind].
  destruct (update_total_value_returns (Float x) P) as [s Hs].
  rewrite Hs. split; [done|]. exists x. by cbn.
Qed.

Lemma row_ok_write_remarks (s : string) (r : entry_row) :
  row_ok r → row_ok (write_remarks s r).
Proof. done. Qed.

Lemma row_ok_write_file (s : string) (r : entry_row) :
  row_ok r → row_ok (write_file s r).
Proof. done. Qed.

Lemma row_ok_reset (cb : entry_row → entry_row) (r : entry_row) :
  (∀ r', type_factor (cb r') = type_factor r'
         ∧ amount_var (cb r') = amount_var r') →
  row_ok r → row_ok (reset_row cb r).
Proof.
  intros Hcb (_ & x & Hx & Hstr & _). unfold reset_row.
  destruct (Hcb (write_amount "" (write_file "" r))) as [Hf Ha].
  split; cbn; rewrite ?Ha, ?Hf; cbn; [done|].
  exists x. rewrite update_total_value_empty. done.
Qed.

Lemma set_label_fields (r : entry_row) (text : result string) :
  type_factor (set_label r text) = type_factor r
  ∧ amount_var (set_label r text) = amount_var r.
Proof. by destruct text. Qed.

Lemma row_ok_new (ft : string * number) :
  factor_ok ft.2 → row_ok (new_row ft).
Proof.
  intros (x & Hx & Hstr). split; [done|]. exists x. cbn.
  by rewrite update_total_value_empty.
Qed.

Lemma page_ok_new (email unit month year today : string)
    (fuel_types refrig_types : list (string * number)) (elec : number) :
  Forall (λ ft, factor_ok ft.2) fuel_types →
  Forall (λ ft, factor_ok ft.2) refrig_types →
  factor_ok elec →
  page_ok (new_page email unit month year today fuel_types refrig_types elec).
Proof.
  intros Hf Hr He. unfold page_ok. cbn.
  split; [|split; [|done]]; apply Forall_fmap;
    (eapply Forall_impl; [done|]); intros ft; apply row_ok_new.
Qed.

Lemma page_ok_handle (p : DataEntryPage) (e : event) :
  page_ok p → page_ok (handle p e).
Proof.
  intros (Hf & Hr & Ha & He).
  destruct e; cbn [handle]; try (destruct (_val P) eqn:HP);
    unfold page_ok, with_fuel, with_refrig, reset_input_fields; cbn;
    repeat split; try done;
    try (apply Forall_alter; [done|]; intros r _;
         first [ by apply row_ok_cb_fuel
               | by apply row_ok_cb_refrig
               | apply row_ok_write_remarks
               | apply row_ok_write_file ]);
    try (apply Forall_fmap; (eapply Forall_impl; [done|]); intros r;
         apply row_ok_reset; intros r'; apply set_label_fields).
Qed.

Lemma page_ok_events (p : DataEntryPage) (events : list event) :
  page_ok p → page_ok (foldl handle p events).
Proof.
  revert p. induction events as [|e events IH]; intros p Hp; simpl; [done|].
  by apply IH, page_ok_handle.
Qed.

(** ** The records of a submission *)

Lemma line_record_total (p : DataEntryPage) (category name : string)
    (r : entry_row) (id : Z) :
  row_ok r → truthy (strip (amount_var r)) = true →
  total_derived (line_record p category name r id).
Proof.
  intros (Hval & x & Hx & Hstr & Hlabel) Hs.
  destruct (validated_amount _ Hval Hs) as (v & Hv & Hv').
  exists x, v. cbn. split; [done|]. split; [done|].
  rewrite (update_total_value_float x v) in Hlabel by done.
  by injection Hlabel.
Qed.

Lemma collect_total (p : DataEntryPage) (category name : string)
    (lines : list entry_row) (counter : Z) :
  Forall row_ok lines →
  Forall total_derived (collect p category name lines counter).1.
Proof.
  intros Hall. revert counter.
  induction Hall as [|r lines Hr _ IH]; intros counter; cbn [collect].
  - constructor.
  - destruct (truthy (strip (amount_var r))) eqn:Hs; [|apply IH].
    specialize (IH (counter + 1)).
    destruct (collect p category name lines (counter + 1)) as [l n].
    cbn [fst] in *. constructor; [|done]. by apply line_record_total.
Qed.

Lemma collect_elec_total (p : DataEntryPage) (counter : Z)
    (l : list emission_record) (n : Z) :
  page_ok p → collect_elec p counter = Ok (l, n) → Forall total_derived l.
Proof.
  intros (_ & _ & Hval & x & Hx & Hstr). unfold collect_elec.
  destruct (truthy (strip (elec_amount_var p))) eqn:Hs.
  - destruct (validated_amount _ Hval Hs) as (v & _ & Hv).
    rewrite (update_total_value_to_float _ x), (update_total_value_float x v)
      by done.
    intros [= <- <-]. constructor; [|constructor].
    exists x, v. by cbn.
  - intros [= <- <-]. constructor.
Qed.

Lemma new_records_total (p : DataEntryPage) (counter : Z)
    (l : list emission_record) (n : Z) :
  page_ok p → new_records p counter = Ok (l, n) → Forall total_derived l.
Proof.
  intros Hp. unfold new_records.
  pose proof (collect_total p "Scope1" "Fuel" (fuel p) counter
                (proj1 Hp)) as Hfuel.
  destruct (collect p "Scope1" "Fuel" (fuel p) counter) as [l1 n1].
  pose proof (collect_total p "Scope1" "Refrigerants" (refrig p) n1
                (proj1 (proj2 Hp))) as Hrefrig.
  destruct (collect p "Scope1" "Refrigerants" (refrig p) n1) as [l2 n2].
  destruct (collect_elec p n2) as [[l3 n3]|] eqn:Helec; [|done].
  apply collect_elec_total in Helec; [|done].
  intros [= <- <-]. cbn [fst] in *. by repeat apply Forall_app_2.
Qed.


End TotalDerivation.

(** ** The binary64 instance satisfies the laws *)

Lemma rstrip_idemp (s : string) : rstrip (rstrip s) = rstrip s.
Proof.
  induction s as [|c s IH]; [done|]. cbn [rstrip].
  destruct (rstrip s) as [|c' t] eqn:Hs.
  - destruct (is_space c) eqn:Hc; [done|]. cbn [rstrip]. by rewrite Hc.
  - cbn [rstrip]. cbn [rstrip] in IH. by rewrite IH.
Qed.

Lemma lstrip_head (s : string) :
  match lstrip s with
  | EmptyString => True
  | String c _ => is_space c = false
  end.
Proof.
  induction s as [|c s IH]; [done|]. cbn [lstrip].
  by destruct (is_space c) eqn:Hc.
Qed.

Lemma rstrip_head (c : ascii) (s : string) :
  is_space c = false → ∃ t, rstrip (String c s) = String c t.
Proof.
  intros Hc. cbn [rstrip]. destruct (rstrip s); rewrite ?Hc; eauto.
Qed.

Lemma strip_idemp (s : string) : strip (strip s) = strip s.
Proof.
  unfold strip. pose proof (lstrip_head s) as Hhead.
  destruct (lstrip s) as [|c u]; [done|].
  destruct (rstrip_head c u Hhead) as [t Ht]. rewrite Ht.
  cbn [lstrip]. rewrite Hhead, <- Ht. apply rstrip_idemp.
Qed.

Lemma binary64_laws : @PyFloatLaws Binary64.binary64.
Proof.
  split.
  - intros s. cbn [py_float Binary64.binary64]. unfold Binary64.parse.
    by rewrite strip_idemp.
  - reflexivity.
Qed.

Lemma factor_ok_float (c : float) :
  Binary64.parse (Binary64.repr c) = Some c →
  @factor_ok Binary64.binary64 (Float c).
Proof. intros Hc. by exists c. Qed.

Lemma factor_ok_int (z : Z) (c : float) :
  Binary64.of_int z = Some c → Binary64.parse (pretty z) = Some c →
  @factor_ok Binary64.binary64 (Int z).
Proof. intros Hz Hc. by exists c. Qed.


(* ================================================================== *)
(** * Properties of the document store *)
(* ================================================================== *)

(** ** Strings *)

Lemma append_cons x (a b : string) : String x a ++ b = String x (a ++ b).
Proof. reflexivity. Qed.
Lemma append_assoc (a b c : string) : (a ++ b) ++ c = a ++ b ++ c.
Proof. induction a as [|x a IH]; [done|]. rewrite !append_cons. by f_equal. Qed.
Lemma append_length (a b : string) :
  String.length (a ++ b) = (String.length a + String.length b)%nat.
Proof. induction a as [|x a IH]; [done|]. rewrite append_cons. simpl. by f_equal. Qed.
Lemma append_inv_head (a b c : string) : a ++ b = a ++ c → b = c.
Proof.
  induction a as [|x a IH]; [done|]. rewrite !append_cons. intros [=]. auto.
Qed.

Lemma append_inv_tail (a b c : string) : a ++ c = b ++ c → a = b.
Proof.
  revert b. induction a as [|x a IH]; intros [|y b]; intros Heq.
  - done.
  - apply (f_equal String.length) in Heq.
    rewrite !append_length in Heq. simpl in Heq. lia.
  - apply (f_equal String.length) in Heq.
    rewrite !append_length in Heq. simpl in Heq. lia.
  - rewrite !append_cons in Heq. injection Heq as -> Heq. f_equal. by apply IH.
Qed.

(** ** Dates *)

Lemma digit_range (c : ascii) (d : Z) : digit c = Some d → 0 <= d <= 9.
Proof.
  unfold digit. intros Hd.
  destruct (_ && _) eqn:Hb; [|done].
  injection Hd as <-. apply andb_prop in Hb as [H1 H2].
  apply Z.leb_le in H1, H2. lia.
Qed.

Lemma strptime_m_range (s : string) (m : Z) :
  strptime_m s = Some m → 1 <= m <= 12.
Proof.
  unfold strptime_m. intros Hm.
  destruct s as [|a [|b [|? ?]]]; try done.
  - destruct (digit a) as [d|] eqn:Ha; [|done].
    apply digit_range in Ha.
    destruct (1 <=? d) eqn:Hd; [|done]. apply Z.leb_le in Hd.
    injection Hm as <-. lia.
  - destruct (digit a) as [da|] eqn:Ha; [|done].
    destruct (digit b) as [db|] eqn:Hb;
      [|by destruct da as [|[| |]|]].
    apply digit_range in Hb.
    destruct da as [|[[| |]|[| |]|]|]; try done.
    + destruct (1 <=? db) eqn:Hd; [|done]. apply Z.leb_le in Hd.
      injection Hm as <-. lia.
    + destruct (db <=? 2) eqn:Hd; [|done]. apply Z.leb_le in Hd.
      injection Hm as <-. lia.
Qed.

Lemma strptime_d_range (s : string) (d : Z) :
  strptime_d s = Some d → 1 <= d <= 31.
Proof.
  unfold strptime_d. intros Hm.
  destruct s as [|a [|b [|? ?]]]; try done.
  - destruct (digit a) as [x|] eqn:Ha; [|done].
    apply digit_range in Ha.
    destruct (1 <=? x) eqn:Hd; [|done]. apply Z.leb_le in Hd.
    injection Hm as <-. lia.
  - destruct (digit b) as [db|] eqn:Hb; [|by destruct (digit a) as [[|[[| |]|[| |]|]|]|]].
    apply digit_range in Hb.
    destruct (digit a) as [da|] eqn:Ha.
    + apply digit_range in Ha.
      assert (da = 0 ∨ da = 3 ∨ (da ≠ 0 ∧ da ≠ 3)) as [->|[->|[H0 H3]]] by lia.
      * destruct (1 <=? db) eqn:Hd; [|done]. apply Z.leb_le in Hd.
        injection Hm as <-. lia.
      * destruct (db <=? 1) eqn:Hd; [|done]. apply Z.leb_le in Hd.
        injection Hm as <-. lia.
      * assert (Hgen :
          (if da <=? 2 then Some (10 * da + db) else None) = Some d).
        { destruct da as [|[[| |]|[| |]|]|]; try done. }
        destruct (da <=? 2) eqn:Hd; [|done]. apply Z.leb_le in Hd.
        injection Hgen as <-. lia.
    + destruct (_ && _) eqn:Hd; [|done].
      apply andb_prop in Hd as [_ Hd]. apply Z.leb_le in Hd.
      injection Hm as <-. lia.
Qed.

(** What [strptime] accepts names a day of the calendar. *)
Lemma strptime_calendar (s : string) (dt : date) :
  strptime s = Some dt →
  1 <= d_year dt <= 9999 ∧ 1 <= d_month dt <= 12
  ∧ 1 <= d_day dt <= days_in_month (d_year dt) (d_month dt).
Proof.
  unfold strptime. intros Hs.
  destruct s as [|y1 [|y2 [|y3 [|y4 [|dash rest]]]]]; try done.
  destruct (Ascii.eqb_spec dash "-") as [->|Hne];
    [|by destruct dash as [[] [] [] [] [] [] [] []]].
  destruct (digit y1) as [a|] eqn:H1; [|done].
  destruct (digit y2) as [b|] eqn:H2; [|done].
  destruct (digit y3) as [c|] eqn:H3; [|done].
  destruct (digit y4) as [d|] eqn:H4; [|done].
  destruct (split_dash rest) as [[ms ds]|]; [|done].
  destruct (strptime_m ms) as [m|] eqn:Hm; [|done].
  destruct (strptime_d ds) as [dd|] eqn:Hd; [|done].
  destruct (_ && _) eqn:Hb; [|done].
  injection Hs as <-. simpl.
  apply andb_prop in Hb as [Hy Hdim]. apply Z.leb_le in Hy, Hdim.
  apply digit_range in H1, H2, H3, H4.
  apply strptime_m_range in Hm. apply strptime_d_range in Hd. lia.
Qed.

Lemma forallb_seqZ (f : Z → bool) (lo len : Z) :
  forallb f (seqZ lo len) = true → ∀ x, lo <= x < lo + len → f x = true.
Proof.
  intros Hall x Hx. rewrite forallb_forall in Hall. apply Hall.
  apply list_elem_of_In, elem_of_seqZ. lia.
Qed.

Lemma year_digits_all (y : Z) : 1 <= y <= 9999 → year_digits y = true.
Proof.
  intros Hy. apply (forallb_seqZ year_digits 1 9999); [|lia].
  vm_compute. reflexivity.
Qed.

Lemma month_day_digits_all (m d : Z) :
  1 <= m <= 12 → 1 <= d <= 31 → month_day_digits m d = true.
Proof.
  intros Hm Hd.
  assert (forallb (month_day_digits m) (seqZ 1 31) = true) as Hall.
  { apply (forallb_seqZ (λ m, forallb (month_day_digits m) (seqZ 1 31)) 1 12);
      [vm_compute; reflexivity|lia]. }
  apply (forallb_seqZ _ 1 31); [done|lia].
Qed.

Lemma days_in_month_le (y m : Z) : days_in_month y m <= 31.
Proof. unfold days_in_month. repeat case_match; lia. Qed.

Lemma strptime_strftime (dt : date) :
  1 <= d_year dt <= 9999 → 1 <= d_month dt <= 12 →
  1 <= d_day dt <= days_in_month (d_year dt) (d_month dt) →
  strptime (strftime_Y_m_d dt) = Some dt.
Proof.
  destruct dt as [y m d]. cbn [d_year d_month d_day]. intros Hy Hm Hd.
  pose proof (days_in_month_le y m) as Hle.
  pose proof (year_digits_all y Hy) as Hyd.
  pose proof (month_day_digits_all m d Hm ltac:(lia)) as Hmd.
  unfold year_digits in Hyd. unfold month_day_digits in Hmd.
  apply bool_decide_eq_true in Hmd as (Hsplit & Hms & Hds).
  unfold strftime_Y_m_d. cbn [d_year d_month d_day].
  set (rest := pad2 m ++ "-" ++ pad2 d) in *.
  destruct (pad4 y) as [|y1 [|y2 [|y3 [|y4 [|? ?]]]]]; try done.
  change (strptime (String y1 (String y2 (String y3 (String y4
            (String "-" rest))))) = Some {| d_year := y; d_month := m; d_day := d |}).
  unfold strptime.
  destruct (digit y1) as [a|]; [|done].
  destruct (digit y2) as [b|]; [|done].
  destruct (digit y3) as [c|]; [|done].
  destruct (digit y4) as [e|]; [|done].
  apply Z.eqb_eq in Hyd.
  rewrite Hsplit, Hms, Hds, Hyd.
  assert ((1 <=? y) && (d <=? days_in_month y m) = true) as ->; [|done].
  apply andb_true_intro. split; apply Z.leb_le; lia.
Qed.



(** ** Paths *)

Lemma is_absolute_append (a b : string) :
  a ≠ "" → is_absolute (a ++ b) = is_absolute a.
Proof. by destruct a. Qed.

(** Joining keeps the name at the end. *)
Lemma path_join_prefix (a x y : string) :
  x ≠ "" → ∃ pre, ∀ z, path_join a (x ++ z) = pre ++ z.
Proof.
  intros Hx. unfold path_join.
  destruct (is_absolute x) eqn:Habs.
  - exists x. intros z. by rewrite is_absolute_append, Habs by done.
  - destruct (negb (truthy a) || ends_with_slash a) eqn:Ha.
    + exists (a ++ x). intros z.
      by rewrite is_absolute_append, Habs, append_assoc by done.
    + exists (a ++ "/" ++ x). intros z.
      by rewrite is_absolute_append, Habs, !append_assoc by done.
Qed.

Lemma versioned_inj (folder code ext : string) :
  code ≠ "" → Inj (=) (=) (versioned folder code ext).
Proof.
  intros Hcode v v' Heq. unfold versioned in Heq.
  destruct (path_join_prefix folder code "" Hcode) as [pre Hpre].
  rewrite !Hpre in Heq.
  apply append_inv_head in Heq. apply (append_inv_head "_v") in Heq.
  apply append_inv_tail in Heq. by apply (inj pretty).
Qed.

Lemma versioned_not_base (folder code ext : string) (v : Z) :
  code ≠ "" → versioned folder code ext v ≠ path_join folder (code ++ ext).
Proof.
  intros Hcode Heq. unfold versioned in Heq.
  destruct (path_join_prefix folder code "" Hcode) as [pre Hpre].
  rewrite !Hpre in Heq. apply append_inv_head in Heq.
  apply (f_equal String.length) in Heq.
  rewrite !append_length in Heq. simpl in Heq. lia.
Qed.

Lemma generate_unique_code_nonempty (u d n t code : string) :
  generate_unique_code u d n t = Ok code → code ≠ "".
Proof.
  unfold generate_unique_code. destruct (strptime d); [|done].
  intros [= <-]. destruct u; [done|done].
Qed.

(** ** The probing loop *)

Section Probe.
Variables (fs : filesystem) (folder code ext : string).

Lemma probe_None (fuel : nat) (version : Z) (final : string) :
  probe fs folder code ext fuel version final = None →
  ∀ k, 1 <= k <= Z.of_nat fuel →
       is_Some (fs !! versioned folder code ext (version + k)).
Proof.
  revert version final.
  induction fuel as [|fuel IH]; intros version final Hp k Hk; [lia|].
  simpl in Hp. destruct (fs !! final); [|done].
  destruct (decide (k = 1)) as [->|Hne].
  - destruct fuel; simpl in Hp;
      by destruct (fs !! versioned folder code ext (version + 1)).
  - replace (version + k) with (version + 1 + (k - 1)) by lia.
    apply (IH _ _ Hp). lia.
Qed.

Lemma probe_Some (fuel : nat) (dest : string) (version : Z)
    (v : Z) (final : string) :
  1 <= version →
  probe fs folder code ext fuel version (candidate folder code ext dest version)
  = Some (v, final) →
  version <= v ∧ final = candidate folder code ext dest v ∧ fs !! final = None
  ∧ ∀ k, version <= k < v → is_Some (fs !! candidate folder code ext dest k).
Proof.
  revert version.
  induction fuel as [|fuel IH]; intros version Hv Hp; simpl in Hp.
  - destruct (fs !! candidate folder code ext dest version) eqn:Hfree; [done|].
    injection Hp as <- <-. repeat split; [lia|done|]. intros k Hk. lia.
  - destruct (fs !! candidate folder code ext dest version) eqn:Hfree.
    + replace (versioned folder code ext (version + 1))
        with (candidate folder code ext dest (version + 1)) in Hp.
      2:{ unfold candidate. destruct (version + 1 =? 1) eqn:E; [|done].
          apply Z.eqb_eq in E. lia. }
      apply IH in Hp as (Hle & -> & Hnone & Hocc); [|lia].
      repeat split; [lia|done|].
      intros k Hk. destruct (decide (k = version)) as [->|Hne].
      * by rewrite Hfree.
      * apply Hocc. lia.
    + injection Hp as <- <-. repeat split; [lia|done|]. intros k Hk. lia.
Qed.

(** Distinct keys of a map are no more than its size. *)
Lemma keys_le_size (l : list string) :
  NoDup l → (∀ p, p ∈ l → is_Some (fs !! p)) → (length l ≤ size fs)%nat.
Proof.
  intros Hnd Hin.
  rewrite <- (size_list_to_set (C := gset string) l Hnd), <- size_dom.
  apply subseteq_size. intros p Hp.
  apply elem_of_dom, Hin. by apply elem_of_list_to_set in Hp.
Qed.

(** The loop ends within one iteration per existing path and one
    more. *)
Lemma probe_enough (version : Z) (final : string) :
  code ≠ "" →
  is_Some (probe fs folder code ext (S (size fs)) version final).
Proof.
  intros Hcode.
  destruct (probe _ _ _ _ _ _ _) as [r|] eqn:Hp; [done|exfalso].
  pose proof (probe_None _ _ _ Hp) as Hocc.
  set (l := versioned folder code ext
              <$> ((λ k, version + k) <$> seqZ 1 (Z.of_nat (S (size fs))))).
  assert (length l ≤ size fs)%nat as Hlen.
  { apply keys_le_size.
    - apply NoDup_fmap_2; [by apply versioned_inj|].
      apply NoDup_fmap_2; [intros ???; lia|]. apply NoDup_seqZ.
    - intros p (y & -> & (k & -> & Hk%elem_of_seqZ)%list_elem_of_fmap)%list_elem_of_fmap.
      apply Hocc. lia. }
  unfold l in Hlen. rewrite !length_fmap, length_seqZ in Hlen. lia.
Qed.

End Probe.

(** ** Directories and copies *)

Lemma makedirs_preserves (chain : list string) (fs fs' : filesystem)
    (r : result unit) :
  makedirs chain fs = (fs', r) → fs ⊆ fs'.
Proof.
  revert fs. induction chain as [|q chain IH]; intros fs Hm; simpl in Hm.
  - by injection Hm as <- _.
  - destruct (fs !! q) as [[c|]|] eqn:Hq.
    + by injection Hm as <- _.
    + apply IH in Hm. by rewrite insert_id in Hm.
    + apply IH in Hm. etrans; [|done]. by apply insert_subseteq.
Qed.

Lemma makedirs_present (chain : list string) (fs : filesystem) :
  (∀ q, q ∈ chain → fs !! q = Some Dir) → makedirs chain fs = (fs, Ok tt).
Proof.
  revert fs. induction chain as [|q chain IH]; intros fs Hall; simpl; [done|].
  rewrite (Hall q) by left. rewrite insert_id by (apply Hall; left).
  apply IH. intros q' Hq'. apply Hall. by right.
Qed.

Lemma makedirs_creates (chain : list string) (fs fs' : filesystem) :
  makedirs chain fs = (fs', Ok tt) → ∀ q, q ∈ chain → fs' !! q = Some Dir.
Proof.
  revert fs. induction chain as [|q chain IH]; intros fs Hm q' Hq'.
  - by apply elem_of_nil in Hq'.
  - simpl in Hm. apply elem_of_cons in Hq' as [->|Hq'].
    + assert (<[q:=Dir]> fs ⊆ fs') as Hsub.
      { destruct (fs !! q) as [[c|]|]; [done|..];
          by eapply makedirs_preserves. }
      eapply lookup_weaken; [|done]. apply lookup_insert_eq.
    + destruct (fs !! q) as [[c|]|]; [done|..]; by eapply IH.
Qed.

(** ** [save_document] *)

Section SaveDocument.
Variable BASE_DIR : string.

(** The directories [get_storage_path] ensures. *)
Lemma get_storage_path_Ok (unit_name upload_date folder : string)
    (fs fs1 : filesystem) :
  get_storage_path BASE_DIR unit_name upload_date fs = (fs1, Ok folder) →
  fs ⊆ fs1
  ∧ ∀ fs2, fs1 ⊆ fs2 → (∀ p, fs1 !! p = Some Dir → fs2 !! p = Some Dir) →
           get_storage_path BASE_DIR unit_name upload_date fs2
           = (fs2, Ok folder).
Proof.
  unfold get_storage_path. destruct (strptime upload_date) as [dt|]; [|done].
  destruct (makedirs _ fs) as [fs0 [[]|e]] eqn:Hm; [|done].
  intros [= <- <-]. split; [by eapply makedirs_preserves|].
  intros fs2 Hsub Hdirs. rewrite makedirs_present; [done|].
  intros q Hq. apply Hdirs. by eapply makedirs_creates.
Qed.

(** What a call that returns has done. *)
Lemma save_document_Ok
    (fp unit_name upload_date emission_name emission_type uploader role now
       : string)
    (fs fs' : filesystem) (logs logs' : list metadata) (meta : metadata) :
  save_document BASE_DIR fp unit_name upload_date emission_name emission_type
    uploader role now fs logs = Some (fs', logs', Ok meta) →
  ∃ code folder fs1 content,
    generate_unique_code unit_name upload_date emission_name emission_type
    = Ok code
    ∧ get_storage_path BASE_DIR unit_name upload_date fs = (fs1, Ok folder)
    ∧ fs1 !! fp = Some (File content)
    ∧ probe fs1 folder code (splitext_ext fp) (S (size fs1)) 1
        (path_join folder (code ++ splitext_ext fp))
      = Some (version meta, file_path meta)
    ∧ fs' = <[file_path meta := File content]> fs1
    ∧ logs' = (logs ++ [meta])%list
    ∧ unique_code meta = code.
Proof.
  unfold save_document.
  destruct (generate_unique_code _ _ _ _) as [code|] eqn:Hcode; [|done].
  destruct (get_storage_path _ _ _ _) as [fs1 [folder|]] eqn:Hpath; [|done].
  destruct (probe _ _ _ _ _ _ _) as [[v final]|] eqn:Hprobe; [|done].
  unfold copy. destruct (fs1 !! fp) as [[content|]|] eqn:Hfp; [|done..].
  intros [= <- <- <-]. by exists code, folder, fs1, content.
Qed.

Lemma save_document_returns
    (fp unit_name upload_date emission_name emission_type uploader role now
       : string)
    (fs : filesystem) (logs : list metadata) :
  is_Some (save_document BASE_DIR fp unit_name upload_date emission_name
             emission_type uploader role now fs logs).
Proof.
  unfold save_document.
  destruct (generate_unique_code _ _ _ _) as [code|] eqn:Hcode; [|done].
  destruct (get_storage_path _ _ _ _) as [fs1 [folder|]]; [|done].
  apply generate_unique_code_nonempty in Hcode.
  destruct (probe_enough fs1 folder code (splitext_ext fp) 1
              (path_join folder (code ++ splitext_ext fp)) Hcode)
    as [[v final] ->].
  by destruct (copy fp final fs1) as [fs2 [[]|]].
Qed.

(** C3: [save_document] returns or raises on every input, and when it
    returns it has not touched any path that existed: the source is
    copied to a path that was free.  That path is the base path
    [<storage_path>/<unique_code><ext>] with version 1 when the base
    path is free, and otherwise the first free one of the names with
    the suffixes [_v2], [_v3], ... in this order, the version being the
    suffix used.  A second save with the same unit, date, emission name,
    emission type and extension is stored at another path, under a
    larger version, and leaves the first copy in place; when the first
    save used the base path and no [_v2] name was there, the second is
    stored under version 2, at a path that ends in [_v2<ext>]. *)
Theorem save_document_versioning
    (fp unit_name upload_date emission_name emission_type uploader role now
       : string)
    (fs : filesystem) (logs : list metadata) :
  is_Some (save_document BASE_DIR fp unit_name upload_date emission_name
             emission_type uploader role now fs logs)
  ∧ ∀ fs' logs' meta,
      save_document BASE_DIR fp unit_name upload_date emission_name
        emission_type uploader role now fs logs = Some (fs', logs', Ok meta) →
      ∃ code folder fs1 content,
        let ext := splitext_ext fp in
        let dest := path_join folder (code ++ ext) in
        generate_unique_code unit_name upload_date emission_name emission_type
        = Ok code
        ∧ get_storage_path BASE_DIR unit_name upload_date fs = (fs1, Ok folder)
        ∧ (∀ p, is_Some (fs !! p) → fs' !! p = fs !! p)
        ∧ fs1 !! fp = Some (File content)
        ∧ fs1 !! file_path meta = None
        ∧ fs' = <[file_path meta := File content]> fs1
        ∧ logs' = (logs ++ [meta])%list
        ∧ unique_code meta = code
        ∧ 1 <= version meta
        ∧ file_path meta = candidate folder code ext dest (version meta)
        ∧ (∀ k, 1 <= k < version meta →
                is_Some (fs1 !! candidate folder code ext dest k))
        ∧ (fs1 !! dest = None → version meta = 1 ∧ file_path meta = dest)
        ∧ ∀ fp2 uploader2 role2 now2 fs'' logs'' meta2,
            splitext_ext fp2 = ext →
            save_document BASE_DIR fp2 unit_name upload_date emission_name
              emission_type uploader2 role2 now2 fs' logs'
            = Some (fs'', logs'', Ok meta2) →
            file_path meta2 ≠ file_path meta
            ∧ version meta < version meta2
            ∧ fs'' !! file_path meta = Some (File content)
            ∧ (version meta = 1 →
               fs1 !! versioned folder code ext 2 = None →
               version meta2 = 2
               ∧ file_path meta2 = path_join folder (code ++ "_v2" ++ ext)
               ∧ ∃ pre, file_path meta2 = pre ++ "_v2" ++ ext).
Proof.
  split; [apply save_document_returns|].
  intros fs' logs' meta Hsave.
  apply save_document_Ok in Hsave
    as (code & folder & fs1 & content & Hcode & Hpath & Hfp & Hprobe & -> & ->
        & Hmeta).
  exists code, folder, fs1, content. intros ext dest.
  pose proof (generate_unique_code_nonempty _ _ _ _ _ Hcode) as Hne.
  destruct (get_storage_path_Ok _ _ _ _ _ Hpath) as [Hsub Hagain].
  apply (probe_Some fs1 folder code ext _ dest 1) in Hprobe
    as (Hv & Hfinal & Hfree & Hocc); [|lia].
  assert (∀ p, is_Some (fs !! p) →
               <[file_path meta := File content]> fs1 !! p = fs !! p) as Hkeep.
  { intros p [x Hp]. rewrite Hp.
    pose proof (lookup_weaken _ _ _ _ Hp Hsub) as Hp1.
    rewrite lookup_insert_ne; [done|]. intros <-. congruence. }
  assert (fs1 !! dest = None → version meta = 1 ∧ file_path meta = dest)
    as Hbase.
  { intros Hdest.
    destruct (decide (version meta = 1)) as [E|E].
    - split; [done|]. by rewrite Hfinal, E.
    - destruct (Hocc 1) as [x Hx]; [lia|]. unfold candidate in Hx.
      simpl in Hx. congruence. }
  do 11 (split; [done|]). split; [done|].
  intros fp2 uploader2 role2 now2 fs'' logs'' meta2 Hext Hsave2.
  apply save_document_Ok in Hsave2
    as (code2 & folder2 & fs2 & content2 & Hcode2 & Hpath2 & Hfp2 & Hprobe2
        & -> & _ & _).
  rewrite Hcode in Hcode2. injection Hcode2 as <-.
  rewrite Hext in Hprobe2.
  rewrite Hagain in Hpath2.
  2:{ by apply insert_subseteq. }
  2:{ intros p Hp. eapply lookup_weaken; [done|]. by apply insert_subseteq. }
  injection Hpath2 as <- <-.
  apply (probe_Some _ folder code ext _ dest 1) in Hprobe2
    as (Hv2 & Hfinal2 & Hfree2 & Hocc2); [|lia].
  assert (file_path meta2 ≠ file_path meta) as Hdiff.
  { intros E. rewrite E, lookup_insert_eq in Hfree2. done. }
  assert (∀ k, 1 <= k <= version meta →
            is_Some (<[file_path meta := File content]> fs1
                     !! candidate folder code ext dest k)) as Hocc1.
  { intros k Hk. destruct (decide (k = version meta)) as [->|Hlt].
    - rewrite <- Hfinal, lookup_insert_eq. done.
    - destruct (Hocc k) as [x Hx]; [lia|].
      exists x. eapply lookup_weaken; [done|]. by apply insert_subseteq. }
  assert (version meta < version meta2) as Hlt.
  { destruct (decide (version meta < version meta2)); [done|].
    destruct (Hocc1 (version meta2)) as [x Hx]; [lia|].
    rewrite <- Hfinal2 in Hx. congruence. }
  split; [done|]. split; [done|]. split.
  { rewrite lookup_insert_ne by done. apply lookup_insert_eq. }
  intros Hone Hv2free.
  assert (version meta2 = 2) as E2.
  { destruct (decide (version meta2 = 2)); [done|].
    destruct (Hocc2 2) as [x Hx]; [lia|].
    unfold candidate in Hx. simpl in Hx.
    rewrite lookup_insert_ne in Hx; [congruence|].
    rewrite Hfinal, Hone. unfold candidate. simpl.
    intros E. symmetry in E. by apply versioned_not_base in E. }
  split; [done|].
  assert (file_path meta2 = path_join folder (code ++ "_v2" ++ ext)) as Hp2.
  { by rewrite Hfinal2, E2. }
  split; [done|]. rewrite Hp2.
  destruct (path_join_prefix folder code "" Hne) as [pre Hpre].
  exists (pre). by rewrite Hpre.
Qed.

End SaveDocument.

Lemma save_document_versioning_witness :
  ∃ fs' logs' meta fs'' logs'' meta2,
    save_document "CarbonData" "/home/user/receipt.pdf" "C-49" "2025-03-07"
      "Fuel" "Diesel" "manager@gmail.com" "User" "2025-03-07 10:15:00"
      receipt_only [] = Some (fs', logs', Ok meta)
    ∧ save_document "CarbonData" "/home/user/receipt.pdf" "C-49" "2025-03-07"
        "Fuel" "Diesel" "manager@gmail.com" "User" "2025-03-07 10:16:00"
        fs' logs' = Some (fs'', logs'', Ok meta2)
    ∧ file_path meta
      = "CarbonData/C-49/2025/03_March/C-49_07_03_2025_Fuel_Diesel.pdf"
    ∧ version meta = 1
    ∧ file_path meta2
      = "CarbonData/C-49/2025/03_March/C-49_07_03_2025_Fuel_Diesel_v2.pdf"
    ∧ version meta2 = 2
    ∧ file_path meta2 ≠ file_path meta
    ∧ ∀ p, is_Some (receipt_only !! p) → fs' !! p = receipt_only !! p.
Proof.
  assert (match save_document "CarbonData" "/home/user/receipt.pdf" "C-49"
                  "2025-03-07" "Fuel" "Diesel" "manager@gmail.com" "User"
                  "2025-03-07 10:15:00" receipt_only [] with
          | Some (fs', logs', Ok m) =>
              match save_document "CarbonData" "/home/user/receipt.pdf"
                      "C-49" "2025-03-07" "Fuel" "Diesel" "manager@gmail.com"
                      "User" "2025-03-07 10:16:00" fs' logs' with
              | Some (_, _, Ok m2) =>
                  Some (file_path m, version m, file_path m2, version m2)
              | _ => None
              end
          | _ => None
          end
          = Some ("CarbonData/C-49/2025/03_March/C-49_07_03_2025_Fuel_Diesel.pdf",
                  1,
                  "CarbonData/C-49/2025/03_March/C-49_07_03_2025_Fuel_Diesel_v2.pdf",
                  2)) as Hrun by (vm_compute; reflexivity).
  destruct (save_document "CarbonData" "/home/user/receipt.pdf" "C-49"
              "2025-03-07" "Fuel" "Diesel" "manager@gmail.com" "User"
              "2025-03-07 10:15:00" receipt_only [])
    as [[[fs' logs'] [meta|e]]|] eqn:Hsave; [|discriminate Hrun..].
  destruct (save_document "CarbonData" "/home/user/receipt.pdf" "C-49"
              "2025-03-07" "Fuel" "Diesel" "manager@gmail.com" "User"
              "2025-03-07 10:16:00" fs' logs')
    as [[[fs'' logs''] [meta2|e]]|] eqn:Hsave2; [|discriminate Hrun..].
  injection Hrun as Hpath Hversion Hpath2 Hversion2.
  exists fs', logs', meta, fs'', logs'', meta2. do 6 (split; [done|]).
  destruct (save_document_versioning "CarbonData" "/home/user/receipt.pdf"
              "C-49" "2025-03-07" "Fuel" "Diesel" "manager@gmail.com" "User"
              "2025-03-07 10:15:00" receipt_only []) as [_ Hspec].
  destruct (Hspec fs' logs' meta Hsave)
    as (code & folder & fs1 & content & _ & _ & Hkeep & Hrest).
  split; [|exact Hkeep].
  destruct Hrest as (_ & _ & _ & _ & _ & _ & _ & _ & _ & Htwo).
  by destruct (Htwo _ _ _ _ _ _ _ eq_refl Hsave2) as [Hdiff _].
Defined.

(* ================================================================== *)
(** * Properties of the record cache (data.py) *)
(* ================================================================== *)

Section Cache.
Import Data.
Context `{SqlNumeric}.

(** ** Reloading *)

(** C6: when the connection cannot be opened, or the query raises, the
    list of records and the counter are left as they were;
    [load_emission_records] clears and refills the list only with the
    rows of a query that succeeded. *)
Theorem load_emission_records_atomic (c : connection) (st : state)
    (t : table) :
  (c ≠ Connected → load_emission_records c st t = st)
  ∧ (load_emission_records c st t ≠ st →
     c = Connected
     ∧ emission_records (load_emission_records c st t)
       = of_row <$> merge_sort comes_before (rows t)).
Proof.
  split.
  - by destruct c.
  - by destruct c.
Qed.

(** ** Filtering *)

Lemma criterion_spec (flt field : string) :
  criterion flt field = true ↔ flt = "All" ∨ field = flt.
Proof.
  unfold criterion. rewrite orb_true_iff, !String.eqb_eq. done.
Qed.

Lemma criterion_All (field : string) : criterion "All" field = true.
Proof. done. Qed.

Lemma filter_sublist {A} (f : A → bool) (l : list A) :
  List.filter f l `sublist_of` l.
Proof.
  induction l as [|x l IH]; simpl; [done|].
  destruct (f x); by constructor.
Qed.

Lemma filter_all {A} (f : A → bool) (l : list A) :
  (∀ x, f x = true) → List.filter f l = l.
Proof.
  intros Hf. induction l as [|x l IH]; simpl; [done|].
  by rewrite Hf, IH.
Qed.

(** C9, as the code has it: what [apply_filters] shows is computed from
    the cached list alone.  It is the sublist, in the order of the
    cache, of the records that agree with every criterion that is not
    ["All"] on unit, month, year, category, name and type; a criterion
    that is ["All"] admits every record, and with six of them the
    whole cache is shown.  The handler then refreshes the table, which
    reloads the cache from the store. *)
Theorem apply_filters_spec (flts : filter_vars) (c : connection)
    (st : state) (t : table) :
  let shown := (apply_filters flts c st t).2 in
  (∀ rec, rec ∈ shown ↔
      rec ∈ emission_records st
      ∧ (flt_unit flts = "All" ∨ company_unit rec = flt_unit flts)
      ∧ (flt_month flts = "All" ∨ month rec = flt_month flts)
      ∧ (flt_year flts = "All" ∨ year rec = flt_year flts)
      ∧ (flt_emission_category flts = "All"
         ∨ emission_category rec = flt_emission_category flts)
      ∧ (flt_emission_name flts = "All"
         ∨ emission_name rec = flt_emission_name flts)
      ∧ (flt_emission_type flts = "All"
         ∨ emission_type rec = flt_emission_type flts))
  ∧ shown `sublist_of` emission_records st
  ∧ (flts = {| flt_unit := "All"; flt_month := "All"; flt_year := "All";
               flt_emission_category := "All"; flt_emission_name := "All";
               flt_emission_type := "All" |} →
     shown = emission_records st)
  ∧ (apply_filters flts c st t).1 = load_emission_records c st t.
Proof.
  simpl. split; [|split; [|split]].
  - intros rec. rewrite list_elem_of_In, filter_In, <- list_elem_of_In.
    unfold matches. rewrite !andb_true_iff, !criterion_spec. tauto.
  - apply filter_sublist.
  - intros ->. by apply filter_all.
  - done.
Qed.


(** ** Editing *)

(** C7, as the code has it: the two variants order the steps of an
    update differently.  In data.py the record in the list is replaced
    only after the [UPDATE] has been committed: when the connection
    cannot be opened, a statement raises or the server refuses a value,
    the list, the counter and the table are as before the call, so the
    cached record keeps its old field values.  In main.py the record is
    replaced first and the file is written afterwards: when the write
    fails the list holds the new field values and the file its old
    content. *)
Theorem save_changes_store_failure :
  (∀ (d : EditDialog) (c c' : connection) (st : state) (t : table),
     c ≠ Connected → (save_changes d c c' st t).1 = (st, t))
  ∧ (∀ (d : EditDialog) (c' : connection) (st : state) (t : table) updated,
       updated_record d = Ok updated → update_rows updated t = None →
       (save_changes d Connected c' st t).1 = (st, t))
  ∧ (∀ (d : Main.EditDialog) (st : Main.state) (dk : Main.disk) updated,
       Main.updated_record d st = Ok updated →
       Main.save_changes d Main.ReadOnly st dk
       = ({| Main.emission_records :=
               <[Main.rec_index d := updated]> (Main.emission_records st);
             Main.record_id_counter := Main.record_id_counter st |},
          dk, Ok tt)
       ∧ <[Main.rec_index d := updated]> (Main.emission_records st)
           !! Main.rec_index d = Some updated).
Proof.
  split; [|split].
  - intros d c c' st t Hc. unfold save_changes.
    destruct (updated_record d); [|done]. by destruct c.
  - intros d c' st t updated Hu Hrows. unfold save_changes.
    by rewrite Hu, Hrows.
  - intros d st dk updated Hu. unfold Main.save_changes. rewrite Hu.
    split; [done|]. apply list_lookup_insert_eq.
    unfold Main.updated_record in Hu.
    destruct (py_float _); [|done]. simpl in Hu.
    destruct (update_total_value _ _); [|done]. simpl in Hu.
    destruct (Main.emission_records st !! Main.rec_index d) eqn:Hi; [|done].
    by apply lookup_lt_Some in Hi.
Qed.

(** ** Deleting *)

Lemma find_record_None (sel : Z) (l : list emission_record) (i : nat) :
  find_record sel l i = None ↔ ∀ r, r ∈ l → record_id r ≠ sel.
Proof.
  revert i. induction l as [|x l IH]; intros i; simpl.
  - split; [|done]. intros _ r Hr. by apply elem_of_nil in Hr.
  - destruct (Z.eqb_spec (record_id x) sel) as [E|E].
    + split; [done|]. intros Hall. destruct (Hall x); [left|done].
    + rewrite IH. split.
      * intros Hall r [->|Hr]%elem_of_cons; auto.
      * intros Hall r Hr. apply Hall. by right.
Qed.

Lemma find_record_Some (sel : Z) (l : list emission_record) (i : nat) r j :
  find_record sel l i = Some (r, j) →
  (i ≤ j)%nat ∧ l !! (j - i)%nat = Some r ∧ record_id r = sel.
Proof.
  revert i. induction l as [|x l IH]; intros i; simpl; [done|].
  destruct (Z.eqb_spec (record_id x) sel) as [E|E].
  - intros [= <- <-]. by rewrite Nat.sub_diag.
  - intros (Hle & Hl & Hid)%IH. split; [lia|]. split; [|done].
    replace (j - i)%nat with (S (j - S i)) by lia. done.
Qed.

(** The records of a reload are the rows of the table. *)
Lemma elem_of_loaded (st : state) (t : table) (r : emission_record) :
  r ∈ emission_records (load_emission_records Connected st t) ↔
  ∃ w, w ∈ rows t ∧ r = of_row w.
Proof.
  simpl. rewrite list_elem_of_fmap.
  split; intros (w & Hr & Hw); exists w; split; try done.
  - by rewrite merge_sort_Permutation in Hw.
  - by rewrite merge_sort_Permutation.
Qed.

Lemma elem_of_refreshed (c : connection) (st : state) (t : table)
    (r : emission_record) :
  r ∈ emission_records (refresh_table c None st t).1 →
  r ∈ emission_records st ∨ ∃ w, w ∈ rows t ∧ r = of_row w.
Proof.
  unfold refresh_table. simpl. destruct c; [|by left..].
  intros Hr. right. by apply elem_of_loaded in Hr.
Qed.

Lemma delete_rows_absent (sel : Z) (t : table) (w : row) :
  w ∈ rows (delete_rows sel t) → row_id w ≠ sel.
Proof.
  simpl. rewrite list_elem_of_In, filter_In. intros [_ Hw] E.
  rewrite E, Z.eqb_refl in Hw. done.
Qed.

Lemma delete_rows_idemp (sel : Z) (t : table) :
  delete_rows sel (delete_rows sel t) = delete_rows sel t.
Proof.
  unfold delete_rows. simpl. f_equal.
  induction (rows t) as [|w l IH]; simpl; [done|].
  destruct (negb (row_id w =? sel)) eqn:E; simpl; [|done].
  by rewrite E, IH.
Qed.

(** C5, as the code has it: [delete_record] has no failure for a
    missing record.  Whatever identifier is selected, it does not
    report [RecordNotFound]; with a working connection it issues the
    [DELETE], filters the list and reports success, also when no record
    carries the identifier.  After a deletion that succeeded no cached
    record carries the identifier: [edit_record] on it reports
    [RecordNotFound], and a second [delete_record] on it reports
    success again and leaves the table as it is. *)
Theorem delete_record_absent (sel : Z) (c c' : connection) (st : state)
    (t : table) :
  (delete_record (Some sel) true c c' st t).2 ≠ RecordNotFound
  ∧ (c = Connected → (delete_record (Some sel) true c c' st t).2 = Success)
  ∧ ∀ st' t',
      delete_record (Some sel) true c c' st t = (st', t', Success) →
      (∀ r, r ∈ emission_records st' → record_id r ≠ sel)
      ∧ edit_record (Some sel) st' = inl RecordNotFound
      ∧ ∀ c2 c2',
          (delete_record (Some sel) true c2 c2' st' t').2 ≠ RecordNotFound
          ∧ (c2 = Connected →
             ∃ st'', delete_record (Some sel) true c2 c2' st' t'
                     = (st'', t', Success)
                     ∧ ∀ r, r ∈ emission_records st'' → record_id r ≠ sel).
Proof.
  assert (∀ c c' st t,
            (delete_record (Some sel) true c c' st t).2 ≠ RecordNotFound)
    as Hnever.
  { intros. by destruct c0. }
  assert (∀ c' st t st' t',
            delete_record (Some sel) true Connected c' st t
            = (st', t', Success) →
            t' = delete_rows sel t
            ∧ ∀ r, r ∈ emission_records st' → record_id r ≠ sel) as Hgone.
  { intros k st0 t0 st' t' [= <- <-]. split; [done|].
    intros r [Hr|(w & Hw & ->)]%elem_of_refreshed.
    - simpl in Hr. apply list_elem_of_In, filter_In in Hr as [_ Hr].
      intros E. by rewrite E, Z.eqb_refl in Hr.
    - by apply delete_rows_absent in Hw. }
  split; [apply Hnever|]. split; [by intros ->|].
  intros st' t' Hdel.
  assert (c = Connected) as -> by (by destruct c).
  apply Hgone in Hdel as [-> Habsent].
  split; [done|]. split.
  { unfold edit_record.
    by rewrite (proj2 (find_record_None sel (emission_records st') 0)). }
  intros c2 c2'. split; [apply Hnever|]. intros ->.
  eexists. split.
  - unfold delete_record. simpl. rewrite delete_rows_idemp. reflexivity.
  - intros r [Hr|(w & Hw & ->)]%elem_of_refreshed.
    + simpl in Hr. apply list_elem_of_In, filter_In in Hr as [Hr _].
      apply Habsent. by apply list_elem_of_In.
    + by apply delete_rows_absent in Hw.
Qed.

End Cache.

Lemma load_emission_records_atomic_witness :
  Data.Refused ≠ Data.Connected
  ∧ Data.load_emission_records Data.Refused Example.unsaved Example.one_row
    = Example.unsaved.
Proof.
  split; [done|].
  by apply (load_emission_records_atomic (H0 := Binary64.fixed4)).
Defined.

(** Against C9 as stated: with every criterion ["All"] the handler
    shows the cached record, and the cache it leaves is not the one it
    found; it has been reloaded from the (empty) table. *)
Lemma apply_filters_reloads :
  (Data.apply_filters Example.no_filter Data.Connected Example.unsaved
     Data.empty_table).2 = [Example.diesel_record]
  ∧ (Data.apply_filters Example.no_filter Data.Connected Example.unsaved
       Data.empty_table).1
    = {| Data.emission_records := []; Data.record_id_counter := 1 |}
  ∧ (Data.apply_filters Example.no_filter Data.Connected Example.unsaved
       Data.empty_table).1 ≠ Example.unsaved.
Proof. split; [|split]; [vm_compute; reflexivity..|discriminate]. Qed.

Lemma apply_filters_spec_witness :
  (Data.apply_filters Example.no_filter Data.Refused Example.unsaved
     Example.one_row).2 = Data.emission_records Example.unsaved.
Proof.
  by apply (apply_filters_spec (H0 := Binary64.fixed4) Example.no_filter
              Data.Refused Example.unsaved Example.one_row).
Defined.

(** Against C7 as stated: in data.py an update whose statement fails
    leaves the cached record with its old value. *)
Lemma save_changes_keeps_old_record :
  ∃ d new_record old_record,
    Example.dialog_120 Example.loaded = Some d
    ∧ Data.updated_record d = Ok new_record
    ∧ Data.value new_record = "120"
    ∧ Data.emission_records
        (Data.save_changes d Data.Broken Data.Connected Example.loaded
           Example.one_row).1.1 !! Data.rec_index d = Some old_record
    ∧ Data.value old_record = "100.0000".
Proof.
  eexists _, _, _. split; [vm_compute; reflexivity|].
  split; [vm_compute; reflexivity|].
  split; [reflexivity|]. split; [vm_compute; reflexivity|]. reflexivity.
Qed.

Lemma save_changes_store_failure_witness :
  Main.updated_record Example.main_dialog Example.main_state
  = Ok Example.main_updated
  ∧ Main.emission_records
      (Main.save_changes Example.main_dialog Main.ReadOnly Example.main_state
         None).1.1 !! 0%nat = Some Example.main_updated
  ∧ (Main.save_changes Example.main_dialog Main.ReadOnly Example.main_state
       None).1.2 = None.
Proof.
  assert (Main.updated_record Example.main_dialog Example.main_state
          = Ok Example.main_updated) as Hu by (vm_compute; reflexivity).
  split; [exact Hu|].
  destruct (proj2 (proj2 (save_changes_store_failure (H0 := Binary64.fixed4)))
              Example.main_dialog Example.main_state None
              Example.main_updated Hu) as [-> _].
  split; reflexivity.
Defined.

(** Against C5 as stated: no cached record carries the identifier 7,
    and deleting it succeeds. *)
Lemma delete_record_missing_succeeds :
  Data.record_id <$> Data.emission_records Example.loaded = [1]
  ∧ (Data.delete_record (Some 7) true Data.Connected Data.Connected
       Example.loaded Example.one_row).2 = Data.Success.
Proof. split; vm_compute; reflexivity. Qed.

Lemma delete_record_absent_witness :
  (Data.delete_record (Some 1) true Data.Connected Data.Connected
     Example.loaded Example.one_row).2 = Data.Success
  ∧ Data.edit_record (Some 1)
      (Data.delete_record (Some 1) true Data.Connected Data.Connected
         Example.loaded Example.one_row).1.1
    = inl Data.RecordNotFound.
Proof.
  assert ((Data.delete_record (Some 1) true Data.Connected Data.Connected
             Example.loaded Example.one_row).2 = Data.Success)
    as Hout by (vm_compute; reflexivity).
  split; [exact Hout|].
  destruct (Data.delete_record (Some 1) true Data.Connected Data.Connected
              Example.loaded Example.one_row) as [[st' t'] o] eqn:Hdel.
  cbn [fst snd] in *. rewrite Hout in Hdel.
  destruct (proj2 (proj2 (delete_record_absent (H0 := Binary64.fixed4) 1
              Data.Connected Data.Connected Example.loaded
              Example.one_row)) st' t' Hdel) as (_ & Hedit & _).
  exact Hedit.
Defined.

(** ** Identifiers *)

Section Identifiers.
Import Data.
Context `{SqlNumeric}.

Lemma insert_row_id (r : emission_record) (id : Z) (w : row) :
  insert_row r id = Some w → row_id w = id.
Proof.
  unfold insert_row. intros Hw.
  repeat (match type of Hw with
          | context [mbind _ ?o] => destruct o; simpl in Hw; [|done]
          end).
  by injection Hw as <-.
Qed.

Lemma table_ok_insert (t : table) (r : emission_record) :
  table_ok t → table_ok (insert t r) ∧ identity t <= identity (insert t r).
Proof.
  intros [Hnd Hlt]. unfold insert.
  destruct (insert_row r (identity t)) as [w|] eqn:Hw; [|split; [done|lia]].
  apply insert_row_id in Hw. unfold table_ok. cbn [rows identity].
  split; [split|lia].
  - rewrite fmap_app. apply NoDup_app. split; [done|]. split.
    + intros id (w' & Hid & Hw')%list_elem_of_fmap Hin.
      apply list_elem_of_singleton in Hin. apply Hlt in Hw'. lia.
    + simpl. apply NoDup_singleton.
  - intros w' [Hw'|Hw']%elem_of_app.
    + apply Hlt in Hw'. lia.
    + apply list_elem_of_singleton in Hw'. subst w'. lia.
Qed.

Lemma table_ok_save (c : connection) (st : state) (t : table) :
  table_ok t → table_ok (save_emission_records c st t).
Proof.
  destruct c; [|done..]. simpl. generalize (emission_records st).
  intros l. revert t. induction l as [|r l IH]; intros t Hok; simpl; [done|].
  apply IH. by apply table_ok_insert.
Qed.

Lemma table_ok_delete (sel : Z) (t : table) :
  table_ok t → table_ok (delete_rows sel t).
Proof.
  intros [Hnd Hlt]. split; simpl.
  - clear Hlt. revert Hnd.
    induction (rows t) as [|w l IH]; simpl; [done|].
    intros [Hw Hnd]%NoDup_cons.
    destruct (negb (row_id w =? sel)); [|by apply IH].
    simpl. apply NoDup_cons. split; [|by apply IH].
    intros (w' & Hid & Hw')%list_elem_of_fmap. apply Hw.
    apply list_elem_of_fmap. exists w'. split; [done|].
    by apply list_elem_of_In, filter_In in Hw' as [?%list_elem_of_In _].
  - intros w Hw. apply Hlt.
    by apply list_elem_of_In, filter_In in Hw as [?%list_elem_of_In _].
Qed.

Lemma update_row_id (u : emission_record) (nf nv nt : numeric) (w : row) :
  row_id (update_row u nf nv nt w) = row_id w.
Proof. unfold update_row. by destruct (row_id w =? record_id u). Qed.

Lemma table_ok_update (u : emission_record) (t t' : table) :
  table_ok t → update_rows u t = Some t' → table_ok t'.
Proof.
  intros [Hnd Hlt]. unfold update_rows.
  destruct (bind_text (factor u)) as [nf|]; [|done]. simpl.
  destruct (bind_text (value u)) as [nv|]; [|done]. simpl.
  destruct (bind_text (total u)) as [nt|]; [|done]. simpl.
  intros [= <-]. split; simpl.
  - rewrite <- list_fmap_compose.
    erewrite list_fmap_ext; [exact Hnd|].
    intros i w _. apply update_row_id.
  - intros w' (w & -> & Hw)%list_elem_of_fmap.
    rewrite update_row_id. by apply Hlt.
Qed.

Lemma max_id_ge (l : list emission_record) (r : emission_record) :
  r ∈ l → record_id r <= max_id l.
Proof.
  destruct l as [|r0 l]; [by intros ?%elem_of_nil|]. simpl.
  assert (∀ m, m <= foldl (λ m r', Z.max m (record_id r')) m l
               ∧ ∀ x, x ∈ l →
                   record_id x <= foldl (λ m r', Z.max m (record_id r')) m l)
    as Hfold.
  { induction l as [|y l IH]; intros m; simpl.
    - split; [lia|]. by intros x ?%elem_of_nil.
    - destruct (IH (Z.max m (record_id y))) as [Hm Hall]. split; [lia|].
      intros x [->|Hx]%elem_of_cons; [lia|]. by apply Hall. }
  destruct (Hfold (record_id r0)) as [Hm Hall].
  intros [->|Hr]%elem_of_cons; [done|]. by apply Hall.
Qed.

Lemma cache_ok_load (c : connection) (st : state) (t : table) :
  table_ok t → cache_ok st → cache_ok (load_emission_records c st t).
Proof.
  intros [Hnd Hlt] Hst. destruct c; [|done..]. simpl.
  set (loaded := of_row <$> merge_sort comes_before (rows t)).
  assert (record_id <$> loaded ≡ₚ row_id <$> rows t) as Hperm.
  { unfold loaded. rewrite <- list_fmap_compose.
    by rewrite merge_sort_Permutation. }
  split; simpl.
  - by rewrite Hperm.
  - intros r Hr. pose proof (max_id_ge loaded r Hr) as Hmax.
    destruct loaded; [by apply elem_of_nil in Hr|]. lia.
Qed.

(** The identifiers a loop of the submission assigns are the next ones
    of the counter, in order. *)
Lemma collect_ids (p : DataEntryPage) (category name : string)
    (lines : list entry_row) (counter : Z) :
  let '(l, n) := collect p category name lines counter in
  record_id <$> l = seqZ counter (Z.of_nat (length l))
  ∧ n = counter + Z.of_nat (length l).
Proof.
  revert counter.
  induction lines as [|r lines IH]; intros counter; cbn [collect].
  - split; [done|simpl; lia].
  - destruct (truthy (strip (amount_var r))); [|apply IH].
    specialize (IH (counter + 1)).
    destruct (collect p category name lines (counter + 1)) as [l n].
    destruct IH as [Hids ->]. rewrite fmap_cons, length_cons, Hids.
    split; [|lia].
    rewrite (seqZ_cons counter) by lia. cbn [record_id line_record].
    f_equal. f_equal; lia.
Qed.

Lemma new_records_ids (p : DataEntryPage) (counter : Z)
    (l : list emission_record) (n : Z) :
  new_records p counter = Ok (l, n) →
  record_id <$> l = seqZ counter (Z.of_nat (length l))
  ∧ n = counter + Z.of_nat (length l).
Proof.
  unfold new_records.
  pose proof (collect_ids p "Scope1" "Fuel" (fuel p) counter) as H1.
  destruct (collect p "Scope1" "Fuel" (fuel p) counter) as [l1 n1].
  pose proof (collect_ids p "Scope1" "Refrigerants" (refrig p) n1) as H2.
  destruct (collect p "Scope1" "Refrigerants" (refrig p) n1) as [l2 n2].
  destruct H1 as [Hl1 ->], H2 as [Hl2 ->].
  unfold collect_elec.
  assert (∀ l3 : list emission_record,
            record_id <$> l3 = seqZ (counter + Z.of_nat (length l1)
                                     + Z.of_nat (length l2))
                                 (Z.of_nat (length l3)) →
            record_id <$> (l1 ++ l2 ++ l3)%list
            = seqZ counter (Z.of_nat (length (l1 ++ l2 ++ l3)%list))) as Hall.
  { intros l3 Hl3. rewrite !fmap_app, !length_app, Hl1, Hl2, Hl3.
    rewrite !Nat2Z.inj_add.
    rewrite (seqZ_app counter) by lia.
    by rewrite (seqZ_app (counter + _)) by lia. }
  destruct (truthy (strip (elec_amount_var p))).
  - destruct (update_total_value _ _) as [tot|]; [|done].
    intros [= <- <-]. split; [apply Hall; reflexivity|].
    rewrite !length_app. simpl. lia.
  - intros [= <- <-]. split; [apply Hall; reflexivity|].
    rewrite !length_app. simpl. lia.
Qed.

Lemma cache_ok_extend (p : DataEntryPage) (st : state)
    (l : list emission_record) (n : Z) :
  cache_ok st → new_records p (record_id_counter st) = Ok (l, n) →
  cache_ok {| emission_records := emission_records st ++ l;
              record_id_counter := n |}.
Proof.
  intros [Hnd Hlt] [Hids ->]%new_records_ids. split; simpl.
  - rewrite fmap_app. apply NoDup_app. split; [done|]. split.
    + intros id (r & -> & Hr%Hlt)%list_elem_of_fmap Hin.
      rewrite Hids in Hin. apply elem_of_seqZ in Hin. lia.
    + rewrite Hids. apply NoDup_seqZ.
  - intros r [Hr|Hr]%elem_of_app.
    + apply Hlt in Hr. lia.
    + assert (record_id r ∈ record_id <$> l) as Hin
        by (apply list_elem_of_fmap; eauto).
      rewrite Hids in Hin. apply elem_of_seqZ in Hin. lia.
Qed.

Lemma cache_ok_filter (f : emission_record → bool) (st : state) :
  cache_ok st →
  cache_ok {| emission_records := List.filter f (emission_records st);
              record_id_counter := record_id_counter st |}.
Proof.
  intros [Hnd Hlt]. split; simpl.
  - clear Hlt. revert Hnd.
    induction (emission_records st) as [|r l IH]; simpl; [done|].
    intros [Hr Hnd]%NoDup_cons.
    destruct (f r); [|by apply IH].
    simpl. apply NoDup_cons. split; [|by apply IH].
    intros (r' & Hid & Hr')%list_elem_of_fmap. apply Hr.
    apply list_elem_of_fmap. exists r'. split; [done|].
    by apply list_elem_of_In, filter_In in Hr' as [?%list_elem_of_In _].
  - intros r Hr. apply Hlt.
    by apply list_elem_of_In, filter_In in Hr as [?%list_elem_of_In _].
Qed.

Lemma cache_ok_replace (st : state) (idx : nat) (r u : emission_record) :
  cache_ok st → emission_records st !! idx = Some r →
  record_id u = record_id r →
  cache_ok {| emission_records := <[idx := u]> (emission_records st);
              record_id_counter := record_id_counter st |}.
Proof.
  intros [Hnd Hlt] Hidx Hid.
  assert (record_id <$> <[idx := u]> (emission_records st)
          = record_id <$> emission_records st) as Hsame.
  { rewrite list_fmap_insert, Hid. apply list_insert_id.
    by rewrite list_lookup_fmap, Hidx. }
  split; simpl.
  - by rewrite Hsame.
  - intros r' Hr'.
    assert (record_id r' ∈ record_id <$> emission_records st) as Hin.
    { rewrite <- Hsame. apply list_elem_of_fmap. eauto. }
    apply list_elem_of_fmap in Hin as (r'' & -> & Hr''). by apply Hlt.
Qed.

Lemma updated_record_id (d : EditDialog) (u : emission_record) :
  updated_record d = Ok u → record_id u = record_id (record d).
Proof.
  unfold updated_record. destruct (py_float _); [|done]. simpl.
  destruct (update_total_value _ _); [|done]. simpl. by intros [= <-].
Qed.

(** Every operation keeps the key of the table and the order between
    the cached identifiers and the counter. *)
Lemma step_preserves (a : action) (st : state) (t : table) :
  table_ok t → cache_ok st →
  table_ok (step a (st, t)).2 ∧ cache_ok (step a (st, t)).1.
Proof.
  intros Ht Hst.
  destruct a as [c|p c c' c''|sel c c'|sel v c c']; cbn [step].
  - split; [done|]. by apply cache_ok_load.
  - unfold submit_data_handler.
    destruct (negb _); [done|]. destruct (_ || _); [done|].
    destruct (new_records p (record_id_counter st)) as [[l n]|] eqn:Hnew;
      [|done].
    pose proof (cache_ok_extend p st l n Hst Hnew) as Hext.
    pose proof (table_ok_save c
                  {| emission_records := emission_records st ++ l;
                     record_id_counter := n |} t Ht) as Hsave.
    destruct l as [|r l]; [done|]. cbn [fst snd]. split; [done|].
    unfold refresh_table. cbn [fst].
    apply cache_ok_load; [done|]. by apply cache_ok_load.
  - unfold delete_record, refresh_table. cbn [negb].
    destruct c; cbn [fst snd]; [|done..].
    split; [by apply table_ok_delete|].
    apply cache_ok_load; [by apply table_ok_delete|].
    by apply (cache_ok_filter (λ r, negb (record_id r =? sel))).
  - unfold edit_record.
    destruct (find_record sel (emission_records st) 0) as [[r idx]|] eqn:Hfind;
      [|done].
    apply find_record_Some in Hfind as (_ & Hidx & _).
    rewrite Nat.sub_0_r in Hidx.
    unfold save_changes, refresh_table.
    destruct (updated_record _) as [u|] eqn:Hu; [|done].
    apply updated_record_id in Hu. cbn [record open_dialog] in Hu.
    destruct c; [|done..].
    destruct (update_rows u t) as [t'|] eqn:Hup; [|done].
    apply table_ok_update in Hup; [|done]. cbn [rec_index open_dialog].
    case_decide; cbn [fst snd]; [|done]. split; [done|].
    apply cache_ok_load; [done|]. by eapply cache_ok_replace.
Qed.

Lemma reachable_ok (s : state * table) :
  reachable s → table_ok s.2 ∧ cache_ok s.1.
Proof.
  induction 1 as [t Ht|a [st t] _ [Ht Hst]].
  - split; [done|]. split; simpl; [constructor|].
    by intros r ?%elem_of_nil.
  - by apply step_preserves.
Qed.



(** ** Submission and reload *)

Lemma insert_row_stored (r : emission_record) (id : Z) (w : row) :
  insert_row r id = Some w →
  stored_as r (of_row w) ∧ record_id (of_row w) = id.
Proof.
  unfold insert_row, stored_as. intros Hw.
  destruct (strptime (entry_date r)) as [dt|]; [|done].
  destruct (py_float (factor r)) as [f|]; [|done].
  destruct (py_float (value r)) as [v|]; [|done].
  destruct (py_float (total r)) as [x|]; [|done].
  cbn [mbind option_bind] in Hw.
  destruct (bind_float f) as [nf|] eqn:Hf; [|done].
  destruct (bind_float v) as [nv|] eqn:Hv; [|done].
  destruct (bind_float x) as [nt|] eqn:Hx; [|done].
  injection Hw as <-. cbn.
  repeat split; eauto 10.
Qed.

Lemma insertable_any (r : emission_record) (id : Z) :
  insertable r = true → is_Some (insert_row r id).
Proof.
  unfold insertable, insert_row.
  destruct (strptime (entry_date r)) as [dt|]; [|done].
  destruct (py_float (factor r)) as [f|]; [|done].
  destruct (py_float (value r)) as [v|]; [|done].
  destruct (py_float (total r)) as [x|]; [|done].
  cbn [mbind option_bind].
  destruct (bind_float f) as [nf|]; [|done].
  destruct (bind_float v) as [nv|]; [|done].
  destruct (bind_float x) as [nt|]; [|done]. done.
Qed.

Lemma insert_grows (t : table) (r : emission_record) :
  rows t ⊆ rows (insert t r) ∧ identity t <= identity (insert t r).
Proof.
  unfold insert. destruct (insert_row r (identity t)); [|split; [done|lia]].
  simpl. split; [|lia]. intros w Hw. apply elem_of_app. by left.
Qed.

Lemma foldl_insert_grows (l : list emission_record) (t : table) :
  rows t ⊆ rows (foldl insert t l)
  ∧ identity t <= identity (foldl insert t l).
Proof.
  revert t. induction l as [|r l IH]; intros t; simpl; [split; [done|lia]|].
  destruct (IH (insert t r)) as [Hsub Hle].
  destruct (insert_grows t r) as [Hsub' Hle'].
  split; [by etrans|lia].
Qed.

(** Every record of the list that the table accepts is a row after
    [save_emission_records], under an identity value of the table. *)
Lemma foldl_insert_stores (l : list emission_record) (t : table)
    (r : emission_record) :
  r ∈ l → insertable r = true →
  ∃ w, insert_row r (row_id w) = Some w ∧ w ∈ rows (foldl insert t l)
       ∧ identity t <= row_id w < identity (foldl insert t l).
Proof.
  intros Hr Hins. revert t.
  induction l as [|x l IH]; intros t; [by apply elem_of_nil in Hr|].
  simpl. apply elem_of_cons in Hr as [->|Hr].
  - destruct (insertable_any x (identity t) Hins) as [w Hw].
    pose proof (insert_row_id _ _ _ Hw) as Hid.
    destruct (foldl_insert_grows l (insert t x)) as [Hsub Hle].
    exists w. rewrite Hid. split; [done|]. split.
    + apply Hsub. unfold insert. rewrite Hw. simpl.
      apply elem_of_app. right. by left.
    + unfold insert in Hle at 1. rewrite Hw in Hle. simpl in Hle. lia.
  - destruct (IH Hr (insert t x)) as (w & Hw & Hin & Hle).
    exists w. split; [done|]. split; [done|].
    pose proof (proj2 (insert_grows t x)). lia.
Qed.


End Identifiers.





(** The re-insertion of the whole cache at every submission: two
    submissions of one record leave three records. *)
Lemma second_submission_duplicates :
  length (Data.emission_records
            (Example.run [Example.submit_diesel; Example.submit_diesel]).1)
  = 3%nat.
Proof. vm_compute; reflexivity. Qed.
(* ================================================================== *)
(** * Further properties of the record cache (data.py) *)
(* ================================================================== *)

Section CacheOperations.
Import Data.
Context `{SqlNumeric}.

(** ** What [save_emission_records] writes *)

Lemma insert_row_insertable (r : emission_record) (id : Z) :
  is_Some (insert_row r id) ↔ insertable r = true.
Proof.
  split; [|apply insertable_any].
  unfold insertable, insert_row.
  destruct (strptime (entry_date r)) as [dt|]; [|by intros [? ?]].
  destruct (py_float (factor r)) as [f|]; [|by intros [? ?]].
  destruct (py_float (value r)) as [v|]; [|by intros [? ?]].
  destruct (py_float (total r)) as [x|]; [|by intros [? ?]].
  cbn [mbind option_bind].
  destruct (bind_float f) as [nf|]; [|by intros [? ?]].
  destruct (bind_float v) as [nv|]; [|by intros [? ?]].
  destruct (bind_float x) as [nt|]; [|by intros [? ?]]. done.
Qed.

Lemma foldl_insert_appends (l : list emission_record) (t : table) :
  ∃ new,
    rows (foldl insert t l) = (rows t ++ new)%list
    ∧ identity (foldl insert t l) = identity t + Z.of_nat (length new)
    ∧ row_id <$> new = seqZ (identity t) (Z.of_nat (length new))
    ∧ Forall2 (λ r w, insert_row r (row_id w) = Some w)
        (List.filter insertable l) new.
Proof.
  revert t. induction l as [|r l IH]; intros t; cbn [foldl List.filter].
  - exists []. rewrite app_nil_r. split; [done|]. split; [simpl; lia|].
    split; [done|constructor].
  - destruct (IH (insert t r)) as (new & Hrows & Hid & Hids & Hall).
    destruct (insert_row r (identity t)) as [w|] eqn:Hw.
    + assert (insert t r
              = {| rows := rows t ++ [w]; identity := identity t + 1 |})
        as Hins by (unfold insert; by rewrite Hw).
      rewrite Hins in *. cbn [rows identity] in Hrows, Hid, Hids.
      assert (insertable r = true) as ->
        by (apply (insert_row_insertable r (identity t)); by rewrite Hw).
      pose proof (insert_row_id _ _ _ Hw) as Hwid.
      exists (w :: new). split; [by rewrite Hrows, <- app_assoc|].
      split; [rewrite Hid; simpl length; lia|]. split.
      * simpl length. rewrite Nat2Z.inj_succ, seqZ_cons by lia.
        rewrite fmap_cons, Hwid, Hids. do 2 f_equal; lia.
      * constructor; [by rewrite Hwid|done].
    + assert (insert t r = t) as Hins by (unfold insert; by rewrite Hw).
      rewrite Hins in *.
      assert (insertable r = false) as ->.
      { destruct (insertable r) eqn:E; [|done].
        apply (insert_row_insertable r (identity t)) in E.
        rewrite Hw in E. by destruct E. }
      by exists new.
Qed.

(** X1: [save_emission_records] never removes or changes a row.  With
    a working connection it appends, in the order of the cache, one row
    for every cached record whose [INSERT] goes through, those that
    were loaded from the table included, under the next identity
    values; the other records are skipped.  Without one the table is as
    it was. *)
Theorem save_emission_records_appends (c : connection) (st : state)
    (t : table) :
  ∃ new,
    rows (save_emission_records c st t) = (rows t ++ new)%list
    ∧ identity (save_emission_records c st t)
      = identity t + Z.of_nat (length new)
    ∧ row_id <$> new = seqZ (identity t) (Z.of_nat (length new))
    ∧ Forall2 (λ r w, insert_row r (row_id w) = Some w)
        match c with
        | Connected => List.filter insertable (emission_records st)
        | Refused | Broken => []
        end new.
Proof.
  destruct c; cbn [save_emission_records].
  - apply foldl_insert_appends.
  - exists []. rewrite app_nil_r. split; [done|]. split; [simpl; lia|].
    split; [done|constructor].
  - exists []. rewrite app_nil_r. split; [done|]. split; [simpl; lia|].
    split; [done|constructor].
Qed.

(** ** The order of a reload *)

Lemma comes_before_spec (a b : row) :
  comes_before a b ↔
  date_key (row_entry_date b) < date_key (row_entry_date a)
  ∨ (date_key (row_entry_date b) = date_key (row_entry_date a)
     ∧ row_id b <= row_id a).
Proof.
  unfold comes_before.
  rewrite orb_True, andb_True, !Is_true_true, Z.ltb_lt, Z.eqb_eq, Z.leb_le.
  done.
Qed.

#[local] Instance comes_before_total : Total (λ a b : row, comes_before a b).
Proof. intros a b. rewrite !comes_before_spec. lia. Qed.

#[local] Instance comes_before_trans :
  Transitive (λ a b : row, comes_before a b).
Proof. intros a b c. rewrite !comes_before_spec. lia. Qed.

Lemma StronglySorted_lookup {A} (R : relation A) (l : list A)
    (i j : nat) (a b : A) :
  StronglySorted R l → (i < j)%nat → l !! i = Some a → l !! j = Some b →
  R a b.
Proof.
  intros Hs. revert i j.
  induction Hs as [|x l Hs IH Hall]; intros i j Hij Ha Hb; [done|].
  destruct j as [|j]; [lia|]. destruct i as [|i].
  - injection Ha as <-. simpl in Hb.
    rewrite Forall_forall in Hall. apply Hall.
    by eapply list_elem_of_lookup_2.
  - simpl in Ha, Hb. apply (IH i j); [lia|done..].
Qed.

(** X2: a reload over a working connection leaves in the cache the
    rows of the table, each one once, the latest entry date first and,
    within a date, the larger identifier first.  Over an empty table
    the cache becomes empty and the counter keeps its value; otherwise
    the counter becomes the largest identifier plus one and exceeds
    every cached identifier. *)
Theorem load_emission_records_order (st : state) (t : table) :
  ∃ l,
    emission_records (load_emission_records Connected st t) = of_row <$> l
    ∧ l ≡ₚ rows t
    ∧ (∀ i j a b,
         (i < j)%nat → l !! i = Some a → l !! j = Some b →
         date_key (row_entry_date b) < date_key (row_entry_date a)
         ∨ (date_key (row_entry_date b) = date_key (row_entry_date a)
            ∧ row_id b <= row_id a))
    ∧ (rows t = [] →
       load_emission_records Connected st t
       = {| emission_records := [];
            record_id_counter := record_id_counter st |})
    ∧ (rows t ≠ [] →
       record_id_counter (load_emission_records Connected st t)
       = max_id (emission_records (load_emission_records Connected st t)) + 1
       ∧ ∀ r, r ∈ emission_records (load_emission_records Connected st t) →
              record_id r < record_id_counter
                              (load_emission_records Connected st t)).
Proof.
  exists (merge_sort comes_before (rows t)).
  split; [done|]. split; [apply merge_sort_Permutation|]. split.
  { intros i j a b Hij Ha Hb. apply comes_before_spec.
    eapply (StronglySorted_lookup (λ a b : row, comes_before a b));
      [|done..].
    apply (StronglySorted_merge_sort _). }
  split.
  { intros Ht. cbn [load_emission_records]. by rewrite Ht. }
  intros Ht.
  assert (of_row <$> merge_sort comes_before (rows t) ≠ []) as Hne.
  { intros E. apply fmap_nil_inv in E. apply Ht.
    apply Permutation_nil_r. by rewrite <- E, merge_sort_Permutation. }
  cbn [load_emission_records emission_records record_id_counter].
  destruct (of_row <$> merge_sort comes_before (rows t)) as [|r0 l0] eqn:E;
    [done|].
  split; [done|]. intros r Hr. apply max_id_ge in Hr. lia.
Qed.

End CacheOperations.

Section CacheHandlers.
Import Data.
Context `{SqlNumeric}.

(** ** Deleting *)

Lemma filter_length_NoDup_key {A} (key : A → Z) (id : Z) (l : list A) :
  NoDup (key <$> l) →
  length (List.filter (λ w, negb (key w =? id)) l)
  = if bool_decide (id ∈ key <$> l) then pred (length l) else length l.
Proof.
  induction l as [|w l IH]; [done|].
  rewrite fmap_cons. intros [Hw Hnd]%NoDup_cons. specialize (IH Hnd).
  cbn [List.filter]. destruct (Z.eqb_spec (key w) id) as [E|E]; cbn [negb].
  - rewrite bool_decide_true by (rewrite E; left).
    rewrite IH, bool_decide_false by (by rewrite <- E). done.
  - cbn [length]. rewrite IH.
    destruct (decide (id ∈ key <$> l)) as [Hin|Hin].
    + rewrite !bool_decide_true; [|by right|done].
      destruct l; [by apply elem_of_nil in Hin|done].
    + rewrite !bool_decide_false; [done| |done].
      intros [?|?]%elem_of_cons; congruence.
Qed.

(** X3: [delete_record] changes nothing unless it reports success: with
    no selection, a declined confirmation, a connection that cannot be
    opened or a statement that raises, the cache and the table are as
    before.  When it reports success the table has lost the rows that
    carry the selected identifier and no other: the remaining rows keep
    their content and order and the identity counter its value; over a
    table whose identifiers are distinct at most one row goes. *)
Theorem delete_record_frame (sel : option Z) (confirmed : bool)
    (c c' : connection) (st st' : state) (t t' : table) (o : outcome) :
  delete_record sel confirmed c c' st t = (st', t', o) →
  (o ≠ Success → st' = st ∧ t' = t)
  ∧ (o = Success →
     ∃ id, sel = Some id
       ∧ identity t' = identity t
       ∧ rows t' `sublist_of` rows t
       ∧ (∀ w, w ∈ rows t' ↔ w ∈ rows t ∧ row_id w ≠ id)
       ∧ (NoDup (row_id <$> rows t) →
          length (rows t')
          = if bool_decide (id ∈ row_id <$> rows t)
            then pred (length (rows t)) else length (rows t))).
Proof.
  unfold delete_record. destruct sel as [id|].
  2:{ intros [= <- <- <-]. split; [done|done]. }
  destruct confirmed; cbn [negb].
  2:{ intros [= <- <- <-]. split; [done|done]. }
  destruct c.
  2,3: intros [= <- <- <-]; split; [done|done].
  intros [= <- <- <-]. split; [done|]. intros _. exists id.
  split; [done|]. split; [done|]. cbn [delete_rows rows].
  split; [apply filter_sublist|]. split.
  - intros w. rewrite list_elem_of_In, filter_In, <- list_elem_of_In.
    rewrite negb_true_iff, Z.eqb_neq. done.
  - apply filter_length_NoDup_key.
Qed.

(** ** Editing *)

Lemma updated_record_fields (d : EditDialog) (u : emission_record) :
  updated_record d = Ok u →
  email u = email (record d) ∧ entry_date u = entry_date (record d)
  ∧ record_id u = record_id (record d)
  ∧ month u = var_month (vars d) ∧ year u = var_year (vars d)
  ∧ company_unit u = var_unit (vars d)
  ∧ emission_category u = var_category (vars d)
  ∧ emission_name u = var_name (vars d)
  ∧ emission_type u = var_type (vars d)
  ∧ value u = var_value (vars d)
  ∧ remarks u = var_remarks (vars d)
  ∧ document u = var_document (vars d).
Proof.
  unfold updated_record.
  destruct (py_float _) as [f|]; [|done]. cbn [of_option mbind result_bind].
  destruct (update_total_value _ _) as [tot|]; [|done].
  by intros [= <-].
Qed.

(** X4: whatever the dialog holds and however the call ends,
    [save_changes] leaves the number of rows, their order and the
    identifier, e-mail address and entry date of every row as they
    were, and it does not touch a row whose identifier is not that of
    the record the dialog was opened on.  The statement is keyed by
    that identifier and not by the position [rec_index]: when the call
    reports success every row under that identifier holds the month,
    year, unit, category, name, type, remarks and document of the
    dialog.  Unless it reports success the cache is as before. *)
Theorem save_changes_table_effect (d : EditDialog) (c c' : connection)
    (st st' : state) (t t' : table) (o : outcome) :
  save_changes d c c' st t = (st', t', o) →
  identity t' = identity t
  ∧ row_id <$> rows t' = row_id <$> rows t
  ∧ row_email <$> rows t' = row_email <$> rows t
  ∧ row_entry_date <$> rows t' = row_entry_date <$> rows t
  ∧ (∀ i w, rows t !! i = Some w → row_id w ≠ record_id (record d) →
            rows t' !! i = Some w)
  ∧ (o = Success →
     ∀ w, w ∈ rows t' → row_id w = record_id (record d) →
          row_month w = var_month (vars d)
          ∧ row_year w = var_year (vars d)
          ∧ row_company_unit w = var_unit (vars d)
          ∧ row_emission_category w = var_category (vars d)
          ∧ row_emission_name w = var_name (vars d)
          ∧ row_emission_type w = var_type (vars d)
          ∧ row_remarks w = var_remarks (vars d)
          ∧ row_document w = var_document (vars d))
  ∧ (o ≠ Success → st' = st).
Proof.
  unfold save_changes.
  destruct (updated_record d) as [u|] eqn:Hu;
    [|intros [= <- <- <-]; repeat split; done].
  destruct c; [|intros [= <- <- <-]; repeat split; done..].
  destruct (update_rows u t) as [t1|] eqn:Hrows;
    [|intros [= <- <- <-]; repeat split; done].
  apply updated_record_fields in Hu
    as (_ & _ & Hid & Hm & Hy & Hcu & Hcat & Hn & Hty & _ & Hrem & Hdoc).
  revert Hrows. unfold update_rows.
  destruct (bind_text (factor u)) as [nf|]; [|done].
  destruct (bind_text (value u)) as [nv|]; [|done].
  destruct (bind_text (total u)) as [nt|]; [|done].
  cbn [mbind option_bind]. intros [= <-].
  assert (∀ w, row_id (update_row u nf nv nt w) = row_id w
               ∧ row_email (update_row u nf nv nt w) = row_email w
               ∧ row_entry_date (update_row u nf nv nt w) = row_entry_date w)
    as Hkeep.
  { intros w. unfold update_row. by destruct (row_id w =? record_id u). }
  intros Hsave.
  assert (t' = {| rows := update_row u nf nv nt <$> rows t;
                  identity := identity t |}) as ->
    by (destruct (decide _); revert Hsave; by intros [= _ <- _]).
  cbn [rows identity]. split; [done|].
  split; [rewrite <- list_fmap_compose; apply list_fmap_ext;
          intros i w _; apply Hkeep|].
  split; [rewrite <- list_fmap_compose; apply list_fmap_ext;
          intros i w _; apply Hkeep|].
  split; [rewrite <- list_fmap_compose; apply list_fmap_ext;
          intros i w _; apply Hkeep|].
  split.
  { intros i w Hi Hne. rewrite list_lookup_fmap, Hi. cbn.
    unfold update_row. rewrite Hid.
    by destruct (Z.eqb_spec (row_id w) (record_id (record d))). }
  split.
  { intros _ w Hw Hwid.
    apply list_elem_of_fmap in Hw as (w0 & -> & Hw0).
    rewrite (proj1 (Hkeep w0)) in Hwid. unfold update_row.
    rewrite Hid, Hwid, Z.eqb_refl. cbn.
    by rewrite Hm, Hy, Hcu, Hcat, Hn, Hty, Hrem, Hdoc. }
  destruct (decide _); revert Hsave; by intros [= <- <-].
Qed.

(** ** Opening the dialog *)

Lemma find_record_first (sel : Z) (l : list emission_record) (i : nat) r j :
  find_record sel l i = Some (r, j) →
  ∀ k r', (k < j - i)%nat → l !! k = Some r' → record_id r' ≠ sel.
Proof.
  revert i. induction l as [|x l IH]; intros i; simpl; [done|].
  destruct (Z.eqb_spec (record_id x) sel) as [E|E].
  - intros [= <- <-] k r' Hk. lia.
  - intros Hf k r' Hk Hr'. destruct k as [|k].
    + by injection Hr' as <-.
    + apply (IH _ Hf k); [|done].
      apply find_record_Some in Hf as [Hle _]. lia.
Qed.

(** X5: [edit_record] opens the dialog on the first cached record that
    carries the selected identifier: [rec_index] is its position, no
    record before it carries the identifier, and every variable of the
    dialog starts at the field of that record.  It reports
    [RecordNotFound] exactly when no cached record carries the
    identifier, and [NoSelection] exactly when nothing is selected. *)
Theorem edit_record_first (sel : option Z) (st : state) :
  match edit_record sel st with
  | inr d =>
      ∃ id, sel = Some id
        ∧ emission_records st !! rec_index d = Some (record d)
        ∧ record_id (record d) = id
        ∧ (∀ k r, (k < rec_index d)%nat → emission_records st !! k = Some r →
                  record_id r ≠ id)
        ∧ d = open_dialog (record d) (rec_index d)
  | inl o =>
      (o = NoSelection ∧ sel = None)
      ∨ (o = RecordNotFound
         ∧ ∃ id, sel = Some id
             ∧ ∀ r, r ∈ emission_records st → record_id r ≠ id)
  end.
Proof.
  unfold edit_record. destruct sel as [id|]; [|by left].
  destruct (find_record id (emission_records st) 0) as [[r idx]|] eqn:Hf.
  - exists id. split; [done|].
    pose proof (find_record_Some _ _ _ _ _ Hf) as (_ & Hl & Hid).
    pose proof (find_record_first _ _ _ _ _ Hf) as Hfirst.
    rewrite Nat.sub_0_r in Hl, Hfirst. cbn [rec_index record open_dialog].
    done.
  - right. split; [done|]. exists id. split; [done|].
    exact (proj1 (find_record_None _ _ _) Hf).
Qed.

End CacheHandlers.

Section EntryForm.
Import Data.
Context `{SqlNumeric}.

(** ** The records of a submission *)

Lemma truthy_ne (s : string) : truthy s = true ↔ s ≠ "".
Proof. by destruct s. Qed.

Lemma collect_lines (p : DataEntryPage) (category name : string)
    (lines : list entry_row) (counter : Z) :
  ∃ l,
    collect p category name lines counter
    = (l, counter + Z.of_nat (length l))
    ∧ emission_type <$> l
      = type_name <$> List.filter has_amount lines
    ∧ Forall (λ r, common_fields p r ∧ emission_category r = category
                   ∧ emission_name r = name) l.
Proof.
  revert counter. induction lines as [|r lines IH]; intros counter.
  - exists []. cbn. split; [f_equal; lia|]. split; [done|constructor].
  - cbn [collect List.filter]. unfold has_amount at 1.
    destruct (truthy (strip (amount_var r))) eqn:Hamount.
    + destruct (IH (counter + 1)) as (l & -> & Htypes & Hall).
      exists (line_record p category name r counter :: l).
      split; [f_equal; simpl length; lia|].
      split; [by rewrite !fmap_cons, Htypes|].
      constructor; [|done]. unfold common_fields. cbn.
      by apply truthy_ne in Hamount.
    + apply IH.
Qed.

(* The records of a submission, line by line. *)
Lemma new_records_per_line (p : DataEntryPage) (counter : Z) :
  ∃ l,
    new_records p counter = Ok (l, counter + Z.of_nat (length l))
    ∧ emission_type <$> l
      = ((type_name <$> List.filter has_amount (fuel p))
         ++ (type_name <$> List.filter has_amount (refrig p))
         ++ (if truthy (strip (elec_amount_var p))
             then ["Electricity"] else []))%list
    ∧ record_id <$> l = seqZ counter (Z.of_nat (length l))
    ∧ Forall (λ r, common_fields p r
                   ∧ (emission_category r, emission_name r)
                     ∈ [("Scope1", "Fuel"); ("Scope1", "Refrigerants");
                        ("Scope2", "Electricity")]) l.
Proof.
  unfold new_records.
  destruct (collect_lines p "Scope1" "Fuel" (fuel p) counter)
    as (l1 & E1 & T1 & A1).
  destruct (collect_lines p "Scope1" "Refrigerants" (refrig p)
              (counter + Z.of_nat (length l1))) as (l2 & E2 & T2 & A2).
  rewrite E1, E2.
  assert (∃ l3,
            collect_elec p (counter + Z.of_nat (length l1)
                            + Z.of_nat (length l2))
            = Ok (l3, counter + Z.of_nat (length l1) + Z.of_nat (length l2)
                      + Z.of_nat (length l3))
            ∧ emission_type <$> l3
              = (if truthy (strip (elec_amount_var p))
                 then ["Electricity"] else [])
            ∧ Forall (λ r, common_fields p r
                           ∧ emission_category r = "Scope2"
                           ∧ emission_name r = "Electricity") l3)
    as (l3 & E3 & T3 & A3).
  { unfold collect_elec.
    destruct (truthy (strip (elec_amount_var p))) eqn:Hamount.
    - destruct (update_total_value_returns (elec_factor p)
                  (strip (elec_amount_var p))) as [tot ->].
      cbn [mbind result_bind]. eexists [_].
      split; [f_equal; f_equal; simpl length; lia|]. split; [done|].
      constructor; [|constructor]. unfold common_fields. cbn.
      by apply truthy_ne in Hamount.
    - exists []. split; [f_equal; f_equal; simpl length; lia|].
      split; [done|constructor]. }
  rewrite E3. cbn [mbind result_bind].
  exists (l1 ++ l2 ++ l3)%list.
  split; [f_equal; f_equal; rewrite !length_app; lia|].
  split; [by rewrite !fmap_app, T1, T2, T3|].
  split.
  { assert (new_records p counter
            = Ok ((l1 ++ l2 ++ l3)%list,
                  counter + Z.of_nat (length l1) + Z.of_nat (length l2)
                  + Z.of_nat (length l3))) as Hnew
      by (unfold new_records; by rewrite E1, E2, E3).
    by apply new_records_ids in Hnew as [? _]. }
  rewrite !Forall_app. split; [|split].
  - eapply Forall_impl; [exact A1|]. intros r (? & -> & ->).
    split; [done|]. set_solver.
  - eapply Forall_impl; [exact A2|]. intros r (? & -> & ->).
    split; [done|]. set_solver.
  - eapply Forall_impl; [exact A3|]. intros r (? & -> & ->).
    split; [done|]. set_solver.
Qed.

(** X6: [new_records] never raises.  A submission yields one record for
    every line of the form whose amount is not blank, the fuel lines
    first, then the refrigerants, then electricity, in the order of the
    form; a line whose amount is empty or white space yields none.
    The records carry the identifiers from the counter on, the user,
    date, month, year and unit of the form and a value that is not
    empty; fuel and refrigerant records are filed under Scope1,
    electricity under Scope2. *)
Theorem new_records_lines (p : DataEntryPage) (counter : Z) :
  ∃ l,
    new_records p counter = Ok (l, counter + Z.of_nat (length l))
    ∧ emission_type <$> l
      = ((type_name <$> List.filter has_amount (fuel p))
         ++ (type_name <$> List.filter has_amount (refrig p))
         ++ (if truthy (strip (elec_amount_var p))
             then ["Electricity"] else []))%list
    ∧ record_id <$> l = seqZ counter (Z.of_nat (length l))
    ∧ Forall (λ r, common_fields p r
                   ∧ (emission_category r, emission_name r)
                     ∈ [("Scope1", "Fuel"); ("Scope1", "Refrigerants");
                        ("Scope2", "Electricity")]) l.
Proof.
  apply new_records_per_line.
Qed.

End EntryForm.

Section Submission.
Import Data.
Context `{SqlNumeric}.

(** ** The checks of [submit_data_handler] *)

Lemma mandatory_filled_spec (p : DataEntryPage) :
  truthy (strip (unit_var p)) && truthy (strip (month_var p))
  && truthy (strip (year_var p)) && truthy (current_date_label p) = true
  ↔ mandatory_filled p.
Proof.
  unfold mandatory_filled. rewrite !andb_true_iff, !truthy_ne. tauto.
Qed.

Lemma existsb_lacks_document (l : list entry_row) :
  existsb lacks_document l = false ↔
  ∀ r, r ∈ l → has_amount r = true → file_var r ≠ "".
Proof.
  induction l as [|x l IH]; cbn [existsb].
  - split; [|done]. intros _ r Hr. by apply elem_of_nil in Hr.
  - rewrite orb_false_iff, IH. unfold lacks_document at 1, has_amount.
    split.
    + intros [Hx Hl] r [->|Hr]%elem_of_cons Ha; [|by apply Hl].
      rewrite Ha in Hx. cbn in Hx. apply negb_false_iff in Hx.
      by apply truthy_ne.
    + intros Hall. split; [|intros r Hr; apply Hall; by right].
      destruct (truthy (strip (amount_var x))) eqn:Ha; [|done].
      cbn. apply negb_false_iff, truthy_ne. apply Hall; [by left|done].
Qed.

Lemma documents_present_spec (p : DataEntryPage) :
  existsb lacks_document (fuel p) || existsb lacks_document (refrig p)
  || (truthy (strip (elec_amount_var p)) && negb (truthy (elec_file_var p)))
  = false
  ↔ documents_present p.
Proof.
  unfold documents_present.
  rewrite !orb_false_iff, !existsb_lacks_document, andb_false_iff,
    negb_false_iff, <- not_true_iff_false, !truthy_ne.
  split.
  - intros [[Hf Hr] He]. split.
    + intros r [?|?]%elem_of_app; auto.
    + intros Ha. by destruct He.
  - intros [Hl He]. split; [split|].
    + intros r Hr. apply Hl, elem_of_app. by left.
    + intros r Hr. apply Hl, elem_of_app. by right.
    + destruct (decide (strip (elec_amount_var p) = "")); auto.
Qed.

Lemma collect_nil (p : DataEntryPage) (category name : string)
    (lines : list entry_row) (counter : Z) :
  (collect p category name lines counter).1 = [] ↔
  ∀ r, r ∈ lines → has_amount r = false.
Proof.
  revert counter. induction lines as [|r lines IH]; intros counter.
  - split; [|done]. intros _ r Hr. by apply elem_of_nil in Hr.
  - cbn [collect]. unfold has_amount in *.
    destruct (truthy (strip (amount_var r))) eqn:Ha.
    + destruct (collect p category name lines (counter + 1)) as [l n].
      split; [done|]. intros Hall. rewrite Hall in Ha; [done|by left].
    + rewrite IH. split.
      * intros Hall r' [->|?]%elem_of_cons; auto.
      * intros Hall r' Hr'. apply Hall. by right.
Qed.

Lemma collect_cons (p : DataEntryPage) (category name : string)
    (lines : list entry_row) (counter : Z) :
  (collect p category name lines counter).1 ≠ [] →
  ∃ r, r ∈ lines ∧ has_amount r = true.
Proof.
  revert counter. induction lines as [|r lines IH]; intros counter; [done|].
  cbn [collect]. destruct (truthy (strip (amount_var r))) eqn:Ha.
  - intros _. exists r. split; [by left|done].
  - intros (r' & Hr' & Ha')%IH. exists r'. split; [by right|done].
Qed.

Lemma new_records_nil (p : DataEntryPage) (counter : Z)
    (l : list emission_record) (n : Z) :
  new_records p counter = Ok (l, n) →
  (l = [] → ¬ some_amount p) ∧ (l ≠ [] → some_amount p).
Proof.
  unfold new_records, some_amount.
  pose proof (collect_nil p "Scope1" "Fuel" (fuel p) counter) as H1.
  pose proof (collect_cons p "Scope1" "Fuel" (fuel p) counter) as H1'.
  destruct (collect p "Scope1" "Fuel" (fuel p) counter) as [l1 n1].
  pose proof (collect_nil p "Scope1" "Refrigerants" (refrig p) n1) as H2.
  pose proof (collect_cons p "Scope1" "Refrigerants" (refrig p) n1) as H2'.
  destruct (collect p "Scope1" "Refrigerants" (refrig p) n1) as [l2 n2].
  cbn [fst] in H1, H2, H1', H2'. unfold collect_elec.
  destruct (truthy (strip (elec_amount_var p))) eqn:Ha.
  - destruct (update_total_value _ _) as [tot|]; [|done].
    intros [= <- <-]. apply truthy_ne in Ha. split.
    + intros E. by apply app_eq_nil in E as [_ [_ ?]%app_eq_nil].
    + intros _. by right.
  - intros [= <- <-]. rewrite app_nil_r.
    assert (strip (elec_amount_var p) = "") as He
      by (by destruct (strip (elec_amount_var p))).
    split.
    + intros [E1 E2]%app_eq_nil [(r & Hr & Hr')|?]; [|done].
      apply elem_of_app in Hr as [Hr|Hr].
      * apply H1 in Hr; [congruence|done].
      * apply H2 in Hr; [congruence|done].
    + intros Hne. left. destruct l1 as [|r1 l1].
      * destruct H2' as (r & Hr & Ha'); [done|]. exists r.
        split; [|done]. apply elem_of_app. by right.
      * destruct H1' as (r & Hr & Ha'); [done|]. exists r.
        split; [|done]. apply elem_of_app. by left.
Qed.

(* The four ways a submission ends. *)
Lemma submit_outcome_cases (p : DataEntryPage)
    (c c' c'' : connection) (st st' : state) (t t' : table)
    (p' : DataEntryPage) (o : outcome) :
  submit_data_handler p c c' c'' st t = (st', t', p', o) →
  (o = MandatoryMissing ∧ ¬ mandatory_filled p
   ∨ o = DocumentMissing ∧ mandatory_filled p ∧ ¬ documents_present p
   ∨ o = NoData ∧ mandatory_filled p ∧ documents_present p
     ∧ ¬ some_amount p
   ∨ o = Submitted ∧ mandatory_filled p ∧ documents_present p
     ∧ some_amount p ∧ p' = reset_input_fields p)
  ∧ (o ≠ Submitted → st' = st ∧ t' = t ∧ p' = p).
Proof.
  unfold submit_data_handler.
  destruct (_ && _ && _ && _) eqn:Hm; cbn [negb].
  2:{ intros [= <- <- <- <-]. split; [|done]. left. split; [done|].
      rewrite <- mandatory_filled_spec. congruence. }
  apply mandatory_filled_spec in Hm.
  destruct (_ || _ || _) eqn:Hd.
  { intros [= <- <- <- <-]. split; [|done]. right. left.
    split; [done|]. split; [done|].
    rewrite <- documents_present_spec. congruence. }
  apply documents_present_spec in Hd.
  destruct (new_records_per_line p (record_id_counter st))
    as (l & Hl & _).
  rewrite Hl. pose proof (new_records_nil _ _ _ _ Hl) as Hnil.
  destruct l as [|r l].
  - intros [= <- <- <- <-]. split; [|done]. right. right. left.
    split; [done|]. split; [done|]. split; [done|]. by apply Hnil.
  - intros [= <- <- <- <-]. split; [|done]. right. right. right.
    split; [done|]. split; [done|]. split; [done|]. split; [|done].
    by apply Hnil.
Qed.

(** X7: [submit_data_handler] ends in one of four ways, decided by the
    form alone, whatever the connections do.  It reports missing
    mandatory fields exactly when the unit, the month or the year is
    blank or the date label is empty; otherwise a missing document
    exactly when a line has an amount and no document; otherwise no
    data exactly when no line has an amount; otherwise that the data
    were submitted.  Unless it reports a submission, the cache, the
    table and the form are as before; when it does, the form has been
    reset. *)
Theorem submit_data_handler_outcome (p : DataEntryPage)
    (c c' c'' : connection) (st st' : state) (t t' : table)
    (p' : DataEntryPage) (o : outcome) :
  submit_data_handler p c c' c'' st t = (st', t', p', o) →
  (o = MandatoryMissing ∧ ¬ mandatory_filled p
   ∨ o = DocumentMissing ∧ mandatory_filled p ∧ ¬ documents_present p
   ∨ o = NoData ∧ mandatory_filled p ∧ documents_present p
     ∧ ¬ some_amount p
   ∨ o = Submitted ∧ mandatory_filled p ∧ documents_present p
     ∧ some_amount p ∧ p' = reset_input_fields p)
  ∧ (o ≠ Submitted → st' = st ∧ t' = t ∧ p' = p).
Proof.
  apply submit_outcome_cases.
Qed.

End Submission.

Section FormReset.
Import Data.
Context `{SqlNumeric}.

(** ** Resetting the form *)

Lemma reset_row_blank (cb : entry_row → entry_row) (r : entry_row) :
  (∀ r', type_name (cb r') = type_name r'
         ∧ type_factor (cb r') = type_factor r'
         ∧ amount_var (cb r') = amount_var r'
         ∧ remarks_var (cb r') = remarks_var r'
         ∧ file_var (cb r') = file_var r') →
  reset_row cb r
  = {| type_name := type_name r; type_factor := type_factor r;
       amount_var := ""; total_label := "0.00"; remarks_var := "";
       file_var := "" |}.
Proof.
  intros Hcb. unfold reset_row, write_remarks, set_label.
  destruct (Hcb (write_amount "" (write_file "" r)))
    as (-> & -> & -> & _ & ->).
  done.
Qed.

Lemma set_label_keeps (r : entry_row) (text : result string) :
  type_name (set_label r text) = type_name r
  ∧ type_factor (set_label r text) = type_factor r
  ∧ amount_var (set_label r text) = amount_var r
  ∧ remarks_var (set_label r text) = remarks_var r
  ∧ file_var (set_label r text) = file_var r.
Proof. by destruct text. Qed.

Lemma reset_row_cb_fuel (r : entry_row) :
  reset_row cb_fuel r
  = {| type_name := type_name r; type_factor := type_factor r;
       amount_var := ""; total_label := "0.00"; remarks_var := "";
       file_var := "" |}.
Proof.
  apply reset_row_blank. intros r'. apply set_label_keeps.
Qed.

Lemma reset_row_cb_refrig (r : entry_row) :
  reset_row cb_refrig r
  = {| type_name := type_name r; type_factor := type_factor r;
       amount_var := ""; total_label := "0.00"; remarks_var := "";
       file_var := "" |}.
Proof.
  apply reset_row_blank. intros r'. apply set_label_keeps.
Qed.

Lemma no_amount_after_reset (p : DataEntryPage) :
  ¬ some_amount (reset_input_fields p).
Proof.
  intros [(r & Hr & Ha)|He]; [|done].
  cbn [reset_input_fields fuel refrig] in Hr.
  apply elem_of_app in Hr
    as [(r0 & -> & _)%list_elem_of_fmap|(r0 & -> & _)%list_elem_of_fmap].
  - by rewrite reset_row_cb_fuel in Ha.
  - by rewrite reset_row_cb_refrig in Ha.
Qed.


End FormReset.

Section CacheAndStore.
Import Data.
Context `{SqlNumeric}.

(** ** Saving what was loaded *)

(** X9: what a reload returns for a stored record is stable under
    another save as far as the date and the texts go.  The entry date
    comes back as [YYYY-MM-DD] and [strptime] reads it as the day that
    is stored, whatever form the date had when the record was saved;
    when such a record is inserted again, the new row has the day and
    the texts of the old one. *)
Theorem stored_date_and_text_stable (r : emission_record) (id : Z)
    (w : row) :
  insert_row r id = Some w →
  strptime (entry_date r) = Some (row_entry_date w)
  ∧ entry_date (of_row w) = strftime_Y_m_d (row_entry_date w)
  ∧ strptime (entry_date (of_row w)) = Some (row_entry_date w)
  ∧ ∀ id' w',
      insert_row (of_row w) id' = Some w' →
      row_entry_date w' = row_entry_date w
      ∧ entry_date (of_row w') = entry_date (of_row w)
      ∧ row_email w' = row_email w ∧ row_month w' = row_month w
      ∧ row_year w' = row_year w
      ∧ row_company_unit w' = row_company_unit w
      ∧ row_emission_category w' = row_emission_category w
      ∧ row_emission_name w' = row_emission_name w
      ∧ row_emission_type w' = row_emission_type w
      ∧ row_remarks w' = row_remarks w
      ∧ row_document w' = row_document w.
Proof.
  intros Hw.
  assert (strptime (entry_date r) = Some (row_entry_date w)) as Hdate.
  { revert Hw. unfold insert_row.
    destruct (strptime (entry_date r)) as [dt|]; [|done].
    destruct (py_float (factor r)) as [f|]; [|done].
    destruct (py_float (value r)) as [v|]; [|done].
    destruct (py_float (total r)) as [x|]; [|done].
    cbn [mbind option_bind].
    destruct (bind_float f) as [nf|]; [|done].
    destruct (bind_float v) as [nv|]; [|done].
    destruct (bind_float x) as [nt|]; [|done].
    by intros [= <-]. }
  assert (strptime (entry_date (of_row w)) = Some (row_entry_date w))
    as Hback.
  { apply strptime_calendar in Hdate as (Hy & Hm & Hd).
    by apply strptime_strftime. }
  split; [done|]. split; [done|]. split; [done|].
  intros id' w'. unfold insert_row. rewrite Hback.
  destruct (py_float (factor (of_row w))) as [f|]; [|done].
  destruct (py_float (value (of_row w))) as [v|]; [|done].
  destruct (py_float (total (of_row w))) as [x|]; [|done].
  cbn [mbind option_bind].
  destruct (bind_float f) as [nf|]; [|done].
  destruct (bind_float v) as [nv|]; [|done].
  destruct (bind_float x) as [nt|]; [|done].
  by intros [= <-].
Qed.

(** ** The cache after a handler *)

(** X10: after a handler has reported success and its reload found the
    server, the cache is the table as a reload presents it: after a
    submission (when one of its two reloads went through), a deletion
    or an edit, the cached records are the rows of the table in the
    order of the query, and nothing of what the handler itself wrote
    into the list is left. *)
Theorem cache_mirrors_table :
  (∀ p c c' c'' st t st' t' p',
     submit_data_handler p c c' c'' st t = (st', t', p', Submitted) →
     c' = Connected ∨ c'' = Connected →
     emission_records st' = view t')
  ∧ (∀ sel confirmed c st t st' t',
       delete_record sel confirmed c Connected st t = (st', t', Success) →
       emission_records st' = view t')
  ∧ (∀ d c st t st' t',
       save_changes d c Connected st t = (st', t', Success) →
       emission_records st' = view t').
Proof.
  split; [|split].
  - intros p c c' c'' st t st' t' p'. unfold submit_data_handler.
    destruct (negb _); [done|]. destruct (_ || _ || _); [done|].
    destruct (new_records p (record_id_counter st)) as [[[|r l] n]|];
      [done| |done].
    intros [= <- <- _] [-> | ->]; [by destruct c''|done].
  - intros sel confirmed c st t st' t'. unfold delete_record.
    destruct sel as [id|]; [|done]. destruct confirmed; [|done].
    destruct c; [|done..]. by intros [= <- <-].
  - intros d c st t st' t'. unfold save_changes.
    destruct (updated_record d) as [u|]; [|done].
    destruct c; [|done..].
    destruct (update_rows u t) as [t1|]; [|done].
    destruct (decide _); [|done]. by intros [= <- <-].
Qed.

(** X11: [submit_data_handler] does not look at what
    [save_emission_records] achieved.  When the save cannot reach the
    server, a valid form is still reported as submitted and is reset,
    while the table is as before; if the reload then goes through, the
    cache is the table again and the records of the form are in
    neither, and if no reload goes through, they are in the cache
    alone. *)
Theorem submit_reports_success_unsaved (p : DataEntryPage)
    (c c' c'' : connection) (st : state) (t : table) :
  c ≠ Connected → mandatory_filled p → documents_present p →
  some_amount p →
  ∃ st' l,
    submit_data_handler p c c' c'' st t
    = (st', t, reset_input_fields p, Submitted)
    ∧ l ≠ []
    ∧ new_records p (record_id_counter st)
      = Ok (l, record_id_counter st + Z.of_nat (length l))
    ∧ (c' = Connected ∨ c'' = Connected → emission_records st' = view t)
    ∧ (c' ≠ Connected → c'' ≠ Connected →
       st' = {| emission_records := emission_records st ++ l;
                record_id_counter :=
                  record_id_counter st + Z.of_nat (length l) |}).
Proof.
  intros Hc Hm Hd Hsome.
  destruct (new_records_per_line p (record_id_counter st))
    as (l & Hl & _).
  pose proof (new_records_nil _ _ _ _ Hl) as [Hnil _].
  assert (l ≠ []) as Hne by (intros E; by apply Hnil in E).
  unfold submit_data_handler.
  rewrite (proj2 (mandatory_filled_spec p) Hm),
    (proj2 (documents_present_spec p) Hd), Hl. cbn [negb].
  assert (save_emission_records c
            {| emission_records := emission_records st ++ l;
               record_id_counter :=
                 record_id_counter st + Z.of_nat (length l) |} t = t)
    as -> by (by destruct c).
  destruct l as [|r l]; [done|].
  eexists _, (r :: l). split; [reflexivity|]. split; [done|].
  split; [done|]. split.
  - intros [-> | ->]; [by destruct c''|done].
  - intros Hc' Hc''. by destruct c', c''.
Qed.

End CacheAndStore.

(* ================================================================== *)
(** * Further properties of the document store *)
(* ================================================================== *)

Lemma path_join_nonempty (a b : string) : b ≠ "" → path_join a b ≠ "".
Proof.
  intros Hb. unfold path_join. destruct (is_absolute b); [done|].
  destruct (negb (truthy a) || ends_with_slash a).
  - destruct a; [done|done].
  - destruct a; [done|done].
Qed.

Lemma makedirs_only_dirs (chain : list string) (fs fs' : filesystem)
    (r : result unit) :
  makedirs chain fs = (fs', r) →
  ∀ p, fs !! p = None → fs' !! p = None ∨ fs' !! p = Some Dir.
Proof.
  revert fs. induction chain as [|q chain IH]; intros fs Hm p Hp;
    simpl in Hm.
  - injection Hm as <- _. by left.
  - destruct (fs !! q) as [[c|]|] eqn:Hq.
    + injection Hm as <- _. by left.
    + rewrite insert_id in Hm by done. by eapply IH.
    + destruct (decide (p = q)) as [->|Hne].
      * right. apply makedirs_preserves in Hm.
        eapply lookup_weaken; [|done]. apply lookup_insert_eq.
      * eapply IH; [done|]. by rewrite lookup_insert_ne.
Qed.

Section StoragePath.
Variable BASE_DIR : string.

(* What [get_storage_path] does to the files. *)
Lemma get_storage_path_cases (unit_name upload_date : string)
    (fs fs' : filesystem) (r : result string) :
  get_storage_path BASE_DIR unit_name upload_date fs = (fs', r) →
  fs ⊆ fs'
  ∧ (∀ p, fs !! p = None → fs' !! p = None ∨ fs' !! p = Some Dir)
  ∧ (r = Raise ValueError ↔ strptime upload_date = None)
  ∧ (strptime upload_date = None → fs' = fs)
  ∧ ∀ folder,
      r = Ok folder →
      (∃ dt, strptime upload_date = Some dt
             ∧ folder
               = path_join (path_join (path_join BASE_DIR unit_name)
                              (pad4 (d_year dt)))
                   (pad2 (d_month dt) ++ "_" ++ month_name (d_month dt)))
      ∧ fs' !! folder = Some Dir
      ∧ get_storage_path BASE_DIR unit_name upload_date fs'
        = (fs', Ok folder).
Proof.
  unfold get_storage_path.
  destruct (strptime upload_date) as [dt|] eqn:Hdt.
  2:{ intros [= <- <-]. split; [done|]. split; [by left|].
      split; [done|]. split; [done|]. done. }
  destruct (makedirs _ fs) as [fs0 [[]|e]] eqn:Hm; intros [= <- <-].
  - split; [by eapply makedirs_preserves|].
    split; [by eapply makedirs_only_dirs|].
    split; [done|]. split; [done|].
    intros folder [= <-]. split; [by exists dt|].
    pose proof (makedirs_creates _ _ _ Hm) as Hdirs.
    split; [apply Hdirs; set_solver|].
    rewrite makedirs_present; [done|]. exact Hdirs.
  - split; [by eapply makedirs_preserves|].
    split; [by eapply makedirs_only_dirs|].
    split; [|done].
    split; [|done]. intros [= ->].
    assert (∀ chain fs a, makedirs chain fs ≠ (a, Raise ValueError))
      as Hno.
    { clear. intros chain. induction chain as [|q chain IH]; intros fs a;
        simpl; [done|].
      destruct (fs !! q) as [[c|]|]; [done|apply IH..]. }
    by apply Hno in Hm.
Qed.

(* When [save_document] raises and when it returns. *)
Lemma save_document_cases
    (fp unit_name upload_date emission_name emission_type uploader role now
       : string)
    (fs fs' : filesystem) (logs logs' : list metadata)
    (r : result metadata) :
  save_document BASE_DIR fp unit_name upload_date emission_name emission_type
    uploader role now fs logs = Some (fs', logs', r) →
  (∀ e, r = Raise e →
        logs' = logs ∧ fs ⊆ fs'
        ∧ ∀ p, fs !! p = None → fs' !! p = None ∨ fs' !! p = Some Dir)
  ∧ (r = Raise ValueError ↔ strptime upload_date = None)
  ∧ (strptime upload_date = None → fs' = fs)
  ∧ ((∃ meta, r = Ok meta) ↔
     ∃ fs1 folder content,
       get_storage_path BASE_DIR unit_name upload_date fs = (fs1, Ok folder)
       ∧ fs1 !! fp = Some (File content)).
Proof.
  unfold save_document, generate_unique_code.
  destruct (strptime upload_date) as [dt|] eqn:Hdt;
    cbn [of_option mbind result_bind].
  2:{ intros [= <- <- <-].
      split; [intros e _; split; [done|]; split; [done|]; by left|].
      split; [done|]. split; [done|]. split; [by intros [? ?]|].
      intros (fs1 & folder & content & Hp & _).
      unfold get_storage_path in Hp. by rewrite Hdt in Hp. }
  destruct (get_storage_path BASE_DIR unit_name upload_date fs)
    as [fs1 [folder|e1]] eqn:Hpath.
  2:{ intros [= <- <- <-].
      apply get_storage_path_cases in Hpath
        as (Hsub & Hdirs & Hval & _ & _).
      split; [intros e _; split; [done|]; by split|].
      split; [split; [intros [= ->]; pose proof (proj1 Hval eq_refl);
                      congruence|done]|].
      split; [done|]. split; [by intros [? ?]|].
      by intros (? & ? & ? & ? & _). }
  pose proof (get_storage_path_cases _ _ _ _ _ Hpath)
    as (Hsub & Hdirs & _ & _ & _).
  destruct (probe _ _ _ _ _ _ _) as [[v final]|]; [|done].
  unfold copy. destruct (fs1 !! fp) as [[content|]|] eqn:Hfp;
    intros [= <- <- <-].
  - split; [done|]. split; [done|]. split; [done|].
    split; [|by eexists]. intros _. by exists fs1, folder, content.
  - split; [intros e _; split; [done|]; by split|].
    split; [done|]. split; [done|].
    split; [by intros [? ?]|]. intros (? & ? & ? & [= <- <-] & ?).
    congruence.
  - split; [intros e _; split; [done|]; by split|].
    split; [done|]. split; [done|].
    split; [by intros [? ?]|]. intros (? & ? & ? & [= <- <-] & ?).
    congruence.
Qed.

(** X12: [get_storage_path] touches nothing that exists and adds
    directories only.  It raises [ValueError] exactly when [strptime]
    does not read the date, and has then changed nothing.  When it
    returns, the folder is [BASE_DIR], the unit, the year as four
    digits and the month as [MM_Name] joined as paths, the folder
    exists as a directory, and a second call returns the same folder
    and changes nothing. *)
Theorem get_storage_path_effect (unit_name upload_date : string)
    (fs fs' : filesystem) (r : result string) :
  get_storage_path BASE_DIR unit_name upload_date fs = (fs', r) →
  fs ⊆ fs'
  ∧ (∀ p, fs !! p = None → fs' !! p = None ∨ fs' !! p = Some Dir)
  ∧ (r = Raise ValueError ↔ strptime upload_date = None)
  ∧ (strptime upload_date = None → fs' = fs)
  ∧ ∀ folder,
      r = Ok folder →
      (∃ dt, strptime upload_date = Some dt
             ∧ folder
               = path_join (path_join (path_join BASE_DIR unit_name)
                              (pad4 (d_year dt)))
                   (pad2 (d_month dt) ++ "_" ++ month_name (d_month dt)))
      ∧ fs' !! folder = Some Dir
      ∧ get_storage_path BASE_DIR unit_name upload_date fs'
        = (fs', Ok folder).
Proof.
  apply get_storage_path_cases.
Qed.


End StoragePath.

Section RepeatedUploads.
Variable BASE_DIR : string.

Lemma candidate_inj (folder code ext : string) (v v' : Z) :
  code ≠ "" →
  candidate folder code ext (path_join folder (code ++ ext)) v
  = candidate folder code ext (path_join folder (code ++ ext)) v' →
  v = v'.
Proof.
  intros Hcode. unfold candidate.
  destruct (Z.eqb_spec v 1) as [->|Hv], (Z.eqb_spec v' 1) as [->|Hv'];
    [done| | |].
  - intros E. symmetry in E. by apply versioned_not_base in E.
  - intros E. by apply versioned_not_base in E.
  - by apply versioned_inj.
Qed.

Lemma candidate_nonempty (folder code ext : string) (v : Z) :
  code ≠ "" →
  candidate folder code ext (path_join folder (code ++ ext)) v ≠ "".
Proof.
  intros Hcode. unfold candidate, versioned.
  destruct (v =? 1); apply path_join_nonempty; by destruct code.
Qed.

(** A call over a file system in which the first [k] names are taken
    and the next one is free. *)
Lemma save_document_next
    (fp unit_name upload_date emission_name emission_type uploader role now
       : string)
    (code folder content : string) (k : Z) (fsk : filesystem)
    (logs : list metadata) :
  let ext := splitext_ext fp in
  let dest := path_join folder (code ++ ext) in
  generate_unique_code unit_name upload_date emission_name emission_type
  = Ok code →
  get_storage_path BASE_DIR unit_name upload_date fsk = (fsk, Ok folder) →
  0 <= k →
  (∀ v, 1 <= v <= k → is_Some (fsk !! candidate folder code ext dest v)) →
  fsk !! candidate folder code ext dest (k + 1) = None →
  fsk !! fp = Some (File content) →
  ∃ meta,
    save_document BASE_DIR fp unit_name upload_date emission_name
      emission_type uploader role now fsk logs
    = Some (<[candidate folder code ext dest (k + 1) := File content]> fsk,
            (logs ++ [meta])%list, Ok meta)
    ∧ version meta = k + 1
    ∧ file_path meta = candidate folder code ext dest (k + 1).
Proof.
  intros ext dest Hcode Hpath Hk Hocc Hfree Hfp.
  pose proof (generate_unique_code_nonempty _ _ _ _ _ Hcode) as Hne.
  unfold save_document. rewrite Hcode, Hpath. fold ext. fold dest.
  destruct (probe_enough fsk folder code ext 1 dest Hne) as [[v final] Hp].
  rewrite Hp.
  apply (probe_Some fsk folder code ext _ dest 1) in Hp
    as (Hv & -> & Hnone & Hbelow); [|lia].
  assert (v = k + 1) as ->.
  { destruct (decide (v <= k)) as [Hle|Hgt].
    - destruct (Hocc v) as [x Hx]; [lia|]. congruence.
    - destruct (decide (v = k + 1)) as [?|Hne']; [done|].
      destruct (Hbelow (k + 1)) as [x Hx]; [lia|]. congruence. }
  unfold copy. rewrite Hfp. eexists. split; [reflexivity|]. done.
Qed.

Lemma save_documents_from (fps : list string)
    (unit_name upload_date emission_name emission_type uploader role now
       : string)
    (code folder ext : string) (fs1 : filesystem) :
  let dest := path_join folder (code ++ ext) in
  generate_unique_code unit_name upload_date emission_name emission_type
  = Ok code →
  (∀ fs2, fs1 ⊆ fs2 →
          get_storage_path BASE_DIR unit_name upload_date fs2
          = (fs2, Ok folder)) →
  Forall (λ fp, splitext_ext fp = ext ∧ ∃ c, fs1 !! fp = Some (File c)) fps →
  ∀ (k : Z) (fsk : filesystem) (logs : list metadata),
    fs1 ⊆ fsk → 0 <= k →
    (∀ v, 1 <= v <= k → is_Some (fsk !! candidate folder code ext dest v)) →
    (∀ v, k < v <= k + Z.of_nat (length fps) →
          fsk !! candidate folder code ext dest v = None) →
    ∃ fs' metas,
      save_documents BASE_DIR fps unit_name upload_date emission_name
        emission_type uploader role now fsk logs
      = Some (fs', (logs ++ metas)%list, Ok metas)
      ∧ fsk ⊆ fs'
      ∧ version <$> metas = seqZ (k + 1) (Z.of_nat (length fps))
      ∧ file_path <$> metas
        = candidate folder code ext dest
            <$> seqZ (k + 1) (Z.of_nat (length fps))
      ∧ Forall2 (λ fp m, ∃ c, fs1 !! fp = Some (File c)
                              ∧ fs' !! file_path m = Some (File c))
          fps metas.
Proof.
  intros dest Hcode Hpath Hall.
  pose proof (generate_unique_code_nonempty _ _ _ _ _ Hcode) as Hne.
  induction Hall as [|fp fps [Hext [c Hc]] Hall IH];
    intros k fsk logs Hsub Hk Hocc Hfree.
  - exists fsk, []. cbn. rewrite app_nil_r. repeat split; try done.
  - cbn [save_documents].
    destruct (save_document_next fp unit_name upload_date emission_name
                emission_type uploader role now code folder c k fsk logs)
      as (meta & -> & Hv & Hfile).
    { done. } { by apply Hpath. } { done. }
    { by rewrite Hext. }
    { rewrite Hext. apply Hfree. simpl length. lia. }
    { by eapply lookup_weaken. }
    rewrite Hext. fold dest.
    set (fsk' := <[candidate folder code ext dest (k + 1) := File c]> fsk).
    assert (fsk ⊆ fsk') as Hstep.
    { apply insert_subseteq. apply Hfree. simpl length. lia. }
    destruct (IH (k + 1) fsk' (logs ++ [meta])%list)
      as (fs' & metas & -> & Hsub' & Hvs & Hfs & Hcopies).
    { by etrans. } { lia. }
    { intros v Hv'. destruct (decide (v = k + 1)) as [->|Hne'].
      - unfold fsk'. by rewrite lookup_insert_eq.
      - destruct (Hocc v) as [x Hx]; [lia|]. exists x.
        by eapply lookup_weaken. }
    { intros v Hv'. unfold fsk'. rewrite lookup_insert_ne.
      - apply Hfree. simpl length. lia.
      - intros E. apply candidate_inj in E; [lia|done]. }
    exists fs', (meta :: metas).
    split; [by rewrite <- app_assoc|]. split; [by etrans|].
    simpl length. rewrite Nat2Z.inj_succ, (seqZ_cons (k + 1)) by lia.
    replace (Z.succ (k + 1)) with (k + 1 + 1) by lia.
    replace (Z.pred (Z.succ (Z.of_nat (length fps))))
      with (Z.of_nat (length fps)) by lia.
    rewrite !fmap_cons, Hvs, Hfs, Hv, Hfile. rewrite Hext in *.
    split; [done|]. split; [done|].
    constructor; [|done]. exists c. split; [done|].
    eapply lookup_weaken; [|exact Hsub'].
    rewrite Hfile. unfold fsk'. apply lookup_insert_eq.
Qed.


End RepeatedUploads.

Section UploadDocument.
Variable BASE_DIR : string.
Context `{PyFloat}.

(** What the entry of a call that returned records. *)
Lemma save_document_meta
    (fp unit date code_name code_type who as_role now : string)
    (fs fs' : filesystem) (logs logs' : list metadata) (meta : metadata) :
  save_document BASE_DIR fp unit date code_name code_type who as_role now
    fs logs = Some (fs', logs', Ok meta) →
  uploader meta = who ∧ role meta = as_role ∧ unit_name meta = unit
  ∧ upload_date meta = date ∧ emission_name meta = code_name
  ∧ emission_type meta = code_type ∧ upload_date_time meta = now
  ∧ file_status meta = "Stored Locally".
Proof.
  unfold save_document.
  destruct (generate_unique_code _ _ _ _) as [code|]; [|done].
  destruct (get_storage_path _ _ _ _) as [fs1 [folder|]]; [|done].
  destruct (probe _ _ _ _ _ _ _) as [[v final]|]; [|done].
  destruct (copy _ _ _) as [fs2 [[]|]]; [|done].
  by intros [= <- <- <-].
Qed.

(* What a call of [upload_document] that ended has done. *)
Lemma upload_document_cases
    (fp var in_unit date_str name etype who admin now : string)
    (fs fs' : filesystem) (logs logs' : list metadata) (var' : string)
    (r : result unit) :
  upload_document BASE_DIR fp var in_unit date_str name etype who admin
    now fs logs = Some (var', fs', logs', r) →
  (fp = "" → var' = var ∧ fs' = fs ∧ logs' = logs ∧ r = Ok tt)
  ∧ (∀ e, r = Raise e → var' = var ∧ logs' = logs)
  ∧ (fp ≠ "" → r = Ok tt →
     var' ≠ "" ∧ fs !! var' = None
     ∧ (∃ c, fs' !! fp = Some (File c) ∧ fs' !! var' = Some (File c))
     ∧ (∃ meta, logs' = (logs ++ [meta])%list ∧ file_path meta = var'
                ∧ uploader meta = who
                ∧ role meta = if String.eqb who admin
                              then "Admin" else "User")
     ∧ ∀ line, Data.lacks_document (Data.write_file var' line) = false).
Proof.
  unfold upload_document. destruct fp as [|a fp0]; cbn [truthy negb].
  { intros [= <- <- <- <-]. split; [done|]. split; [done|]. done. }
  set (fp := String a fp0).
  destruct (save_document _ _ _ _ _ _ _ _ _ _ _)
    as [[[fs1 logs1] [meta|e]]|] eqn:Hsave; [| |done].
  2:{ intros [= <- <- <- <-]. split; [done|]. split; [|done].
      intros e' _. split; [done|].
      by apply save_document_cases in Hsave as [Hfail _];
        destruct (Hfail e eq_refl). }
  intros [= <- <- <- <-]. split; [done|]. split; [done|]. intros _ _.
  pose proof (save_document_meta _ _ _ _ _ _ _ _ _ _ _ _ _ Hsave)
    as (Hwho & Hrole & _).
  apply save_document_Ok in Hsave
    as (code & folder & fs0 & content & Hcode & Hpath & Hfp & Hprobe & ->
        & -> & Hmeta).
  pose proof (generate_unique_code_nonempty _ _ _ _ _ Hcode) as Hne.
  destruct (get_storage_path_Ok _ _ _ _ _ _ Hpath) as [Hsub _].
  apply (probe_Some fs0 folder code _ _ (path_join folder (code ++ _)) 1)
    in Hprobe as (Hv & Hfinal & Hfree & _); [|lia].
  assert (file_path meta ≠ "") as Hnonempty.
  { rewrite Hfinal. by apply candidate_nonempty. }
  split; [done|]. split.
  { destruct (fs !! file_path meta) as [x|] eqn:E; [|done].
    pose proof (lookup_weaken _ _ _ _ E Hsub). congruence. }
  split.
  { exists content. split; [|apply lookup_insert_eq].
    rewrite lookup_insert_ne; [done|]. intros E. congruence. }
  split.
  { by exists meta. }
  intros line. unfold Data.lacks_document, Data.write_file. cbn.
  destruct (file_path meta); [done|]. cbn. apply andb_false_r.
Qed.


(** X15: [upload_document] always ends.  A cancelled file dialog
    changes nothing.  A call that raises leaves the file variable and
    [document_logs] as they were.  A call that returns after a file was
    chosen leaves in the variable a path that is not empty, that was
    free before and now holds a copy of the chosen file, which is
    itself still in place; [document_logs] has one more entry, for that
    path, with the role [Admin] when the uploader is the administrator
    and [User] otherwise.  A line of the form that carries this path
    passes the document check of [submit_data_handler]. *)
Theorem upload_document_effect
    (fp var in_unit date_str name etype who admin now : string)
    (fs : filesystem) (logs : list metadata) :
  ∃ var' fs' logs' r,
    upload_document BASE_DIR fp var in_unit date_str name etype who admin
      now fs logs = Some (var', fs', logs', r)
    ∧ (fp = "" → var' = var ∧ fs' = fs ∧ logs' = logs ∧ r = Ok tt)
    ∧ (∀ e, r = Raise e → var' = var ∧ logs' = logs)
    ∧ (fp ≠ "" → r = Ok tt →
       var' ≠ "" ∧ fs !! var' = None
       ∧ (∃ c, fs' !! fp = Some (File c) ∧ fs' !! var' = Some (File c))
       ∧ (∃ meta, logs' = (logs ++ [meta])%list ∧ file_path meta = var'
                  ∧ uploader meta = who
                  ∧ role meta = if String.eqb who admin
                                then "Admin" else "User")
       ∧ ∀ line, Data.lacks_document (Data.write_file var' line) = false).
Proof.
  destruct (upload_document BASE_DIR fp var in_unit date_str name etype who
              admin now fs logs) as [[[[var' fs'] logs'] r]|] eqn:Hu.
  - exists var', fs', logs', r. split; [done|].
    by eapply upload_document_cases.
  - exfalso. unfold upload_document in Hu.
    destruct (negb (truthy fp)); [done|].
    destruct (save_document_returns BASE_DIR fp in_unit date_str name etype
                who (if String.eqb who admin then "Admin" else "User")
                now fs logs) as [[[fs' logs'] r] Hs].
    rewrite Hs in Hu. by destruct r.
Qed.

End UploadDocument.

(* ================================================================== *)
(** * Users and roles *)
(* ================================================================== *)

Section UserAccounts.
Import Users.

Lemma credentials_spec (address pwd : string) (u : user) :
  credentials address pwd u = true ↔ email u = address ∧ password u = pwd.
Proof.
  unfold credentials. by rewrite andb_true_iff, !String.eqb_eq.
Qed.

Lemma login_spec (e p : string) (cfg : users) (a : string) :
  login e p cfg = Some a ↔
  a = strip e
  ∧ ∃ u, (u = admin cfg ∨ u ∈ (manager cfg ++ employee cfg)%list)
         ∧ email u = strip e ∧ password u = strip p.
Proof.
  unfold login.
  destruct (credentials _ _ (admin cfg)) eqn:Ha.
  - apply credentials_spec in Ha. split.
    + intros [= <-]. split; [done|]. exists (admin cfg). by split; [left|].
    + by intros [-> _].
  - destruct (existsb _ _) eqn:Hl.
    + apply existsb_exists in Hl as (u & Hu & Hc).
      apply credentials_spec in Hc. apply list_elem_of_In in Hu. split.
      * intros [= <-]. split; [done|]. exists u. by split; [right|].
      * by intros [-> _].
    + split; [done|]. intros [_ (u & [->|Hu] & He & Hp)].
      * assert (credentials (strip e) (strip p) (admin cfg) = true)
          by (by apply credentials_spec). congruence.
      * assert (existsb (credentials (strip e) (strip p))
                  (manager cfg ++ employee cfg) = true); [|congruence].
        apply existsb_exists. exists u. split; [by apply list_elem_of_In|].
        by apply credentials_spec.
Qed.

Lemma existsb_email (address : string) (l : list user) :
  existsb (λ u, String.eqb (email u) address) l = true ↔
  ∃ u, u ∈ l ∧ email u = address.
Proof.
  rewrite existsb_exists. split; intros (u & Hu & He); exists u.
  - by rewrite list_elem_of_In, <- String.eqb_eq.
  - by rewrite <- list_elem_of_In, String.eqb_eq.
Qed.

Lemma append_user_lists (target : string) (u : user) (cfg : users) :
  admin (append_user target u cfg) = admin cfg
  ∧ manager (append_user target u cfg)
    = (manager cfg ++ if String.eqb target "Manager" then [u] else [])%list
  ∧ employee (append_user target u cfg)
    = (employee cfg ++ if String.eqb target "Manager" then [] else [u])%list.
Proof.
  unfold append_user. destruct (String.eqb target "Manager"); cbn;
    by rewrite app_nil_r.
Qed.

Lemma elem_of_append_user (target : string) (u x : user) (cfg : users) :
  x ∈ (manager (append_user target u cfg)
       ++ employee (append_user target u cfg))%list
  ↔ x = u ∨ x ∈ (manager cfg ++ employee cfg)%list.
Proof.
  destruct (append_user_lists target u cfg) as (_ & -> & ->).
  rewrite !elem_of_app.
  destruct (String.eqb target "Manager");
    rewrite list_elem_of_singleton, elem_of_nil; tauto.
Qed.


End UserAccounts.

Section UserLists.
Import Users.

Lemma remove_spec (data : user) (lst : list user) :
  data ∈ lst →
  ∃ i rest, remove data lst = Some rest ∧ lst !! i = Some data
            ∧ rest = delete i lst
            ∧ ∀ j, (j < i)%nat → lst !! j ≠ Some data.
Proof.
  induction lst as [|u lst IH]; [by intros ?%elem_of_nil|].
  intros Hin. cbn [remove]. destruct (decide (u = data)) as [->|Hne].
  - exists 0%nat, lst. repeat split; try done. intros j Hj. lia.
  - apply elem_of_cons in Hin as [?|Hin]; [done|].
    destruct (IH Hin) as (i & rest & -> & Hi & -> & Hfirst).
    exists (S i), (u :: delete i lst). repeat split; try done.
    intros [|j] Hj; cbn; [congruence|]. apply Hfirst. lia.
Qed.

Lemma delete_app_l {A} (l1 l2 : list A) (i : nat) :
  (i < length l1)%nat → delete i (l1 ++ l2)%list = (delete i l1 ++ l2)%list.
Proof.
  revert i. induction l1 as [|x l1 IH]; intros [|i] Hi; simpl in *;
    [lia..|done|]. f_equal. apply IH. lia.
Qed.

Lemma delete_app_r {A} (l1 l2 : list A) (i : nat) :
  (length l1 ≤ i)%nat →
  delete i (l1 ++ l2)%list = (l1 ++ delete (i - length l1)%nat l2)%list.
Proof.
  revert i. induction l1 as [|x l1 IH]; intros i Hi; simpl in *.
  - by rewrite Nat.sub_0_r.
  - destruct i as [|i]; [lia|]. simpl. f_equal. apply IH. lia.
Qed.

Lemma delete_first_NoDup {A} (l : list A) (i j : nat) (x : A) :
  NoDup l → l !! i = Some x → l !! j = Some x → i = j.
Proof. intros Hnd Hi Hj. by eapply NoDup_lookup. Qed.

(** X17: [delete_user] with a selected position that exists never
    raises: it removes one entry equal to the selected one from the
    list the selection belongs to (the first such entry of that list,
    which is the selected one when no entry occurs twice) and leaves
    the other list and the administrator alone.  No login is gained by
    a deletion.  A position beyond the end of the list raises
    [IndexError]; without a selection nothing changes. *)
Theorem delete_user_removes (sel : option nat) (cfg : users) :
  match sel, delete_user sel cfg with
  | None, r => r = Ok cfg
  | Some idx, Ok cfg' =>
      ∃ label data,
        allu cfg !! idx = Some (label, data)
        ∧ allu cfg ≡ₚ (label, data) :: allu cfg'
        ∧ admin cfg' = admin cfg
        ∧ (NoDup (allu cfg) → allu cfg' = delete idx (allu cfg))
        ∧ (∀ e p a, login e p cfg' = Some a → login e p cfg = Some a)
  | Some idx, Raise e => e = IndexError ∧ (length (allu cfg) ≤ idx)%nat
  end.
Proof.
  destruct sel as [idx|]; [|done]. unfold delete_user.
  destruct (allu cfg !! idx) as [[label data]|] eqn:Hidx;
    cbn [of_option mbind result_bind].
  2:{ split; [done|]. by apply lookup_ge_None. }
  unfold allu in Hidx |- *.
  assert (∀ (cfg' : users) e p a,
            admin cfg' = admin cfg →
            (∀ u, u ∈ (manager cfg' ++ employee cfg')%list →
                  u ∈ (manager cfg ++ employee cfg)%list) →
            login e p cfg' = Some a → login e p cfg = Some a) as Hlogin.
  { intros cfg' e p a Hadm Hsub (-> & u & Hu & He & Hp)%login_spec.
    apply login_spec. split; [done|]. exists u. split; [|done].
    destruct Hu as [->|Hu]; [by left|]. right. by apply Hsub. }
  apply lookup_app_Some in Hidx as [Hm|[Hlen He]].
  - apply list_lookup_fmap_Some in Hm as (u & [= -> ->] & Hu).
    cbn [String.eqb Ascii.eqb Bool.eqb].
    destruct (remove_spec u (manager cfg)) as (i & rest & -> & Hi & -> & Hfirst);
      [by eapply list_elem_of_lookup_2|].
    cbn [of_option mbind result_bind]. exists "Manager", u. cbn.
    split; [done|]. split.
    { rewrite (delete_Permutation (manager cfg) i u Hi) at 1.
      by rewrite fmap_cons. }
    split; [done|]. split.
    { intros Hnd. apply NoDup_app in Hnd as (Hnd & _ & _).
      apply NoDup_fmap_1 in Hnd.
      rewrite (delete_first_NoDup _ _ _ _ Hnd Hu Hi).
      rewrite list_fmap_delete.
      apply lookup_lt_Some in Hi.
      by rewrite delete_app_l by (by rewrite length_fmap). }
    intros e p a. apply Hlogin; [done|]. cbn. intros x.
    rewrite !elem_of_app. intros [Hx|Hx]; [left|by right].
    by eapply list_elem_of_delete_inv.
  - rewrite length_fmap in Hlen, He.
    apply list_lookup_fmap_Some in He as (u & [= -> ->] & Hu).
    cbn [String.eqb Ascii.eqb Bool.eqb].
    destruct (remove_spec u (employee cfg))
      as (i & rest & -> & Hi & -> & Hfirst);
      [by eapply list_elem_of_lookup_2|].
    cbn [of_option mbind result_bind]. exists "Employee", u. cbn.
    split; [done|]. split.
    { rewrite (delete_Permutation (employee cfg) i u Hi) at 1.
      rewrite fmap_cons. by rewrite Permutation_middle. }
    split; [done|]. split.
    { intros Hnd. apply NoDup_app in Hnd as (_ & _ & Hnd).
      apply NoDup_fmap_1 in Hnd.
      rewrite delete_app_r by (by rewrite length_fmap).
      rewrite length_fmap, (delete_first_NoDup _ _ _ _ Hnd Hu Hi).
      by rewrite list_fmap_delete. }
    intros e p a. apply Hlogin; [done|]. cbn. intros x.
    rewrite !elem_of_app. intros [Hx|Hx]; [by left|right].
    by eapply list_elem_of_delete_inv.
Qed.

End UserLists.

Section UserEdit.
Import Users.

Lemma remove_email_spec (old : string) (lst : list user) :
  (∀ u, u ∈ lst → email u ≠ old → u ∈ remove_email old lst)
  ∧ (∀ u, u ∈ remove_email old lst → u ∈ lst)
  ∧ (length (remove_email old lst)
     + (if existsb (λ u, String.eqb (email u) old) lst then 1 else 0)
     = length lst)%nat.
Proof.
  induction lst as [|x lst (IH1 & IH2 & IH3)]; cbn [remove_email existsb].
  - done.
  - destruct (String.eqb_spec (email x) old) as [E|E]; cbn [orb].
    + split; [|split].
      * intros u [->|?]%elem_of_cons; [done|done].
      * intros u Hu. by right.
      * simpl. lia.
    + split; [|split].
      * intros u [->|?]%elem_of_cons Hne; [by left|]. right. by apply IH1.
      * intros u [->|?]%elem_of_cons; [by left|]. right. by apply IH2.
      * simpl. lia.
Qed.


End UserEdit.

(* ================================================================== *)
(** * The file-backed variant (main.py) *)
(* ================================================================== *)

Section MainPersistence.
Import Main MainPage.

Lemma foldl_max_ge (l : list emission_record) (m : Z) :
  m <= foldl (λ m r', Z.max m (record_id r')) m l
  ∧ ∀ r, r ∈ l → record_id r <= foldl (λ m r', Z.max m (record_id r')) m l.
Proof.
  revert m. induction l as [|y l IH]; intros m; cbn [foldl].
  - split; [lia|]. by intros r ?%elem_of_nil.
  - destruct (IH (Z.max m (record_id y))) as [Hm Hl]. split; [lia|].
    intros r [->|Hr]%elem_of_cons; [lia|by apply Hl].
Qed.

Lemma main_max_id_ge (l : list emission_record) (r : emission_record) :
  r ∈ l → record_id r <= max_id l.
Proof.
  destruct l as [|x l]; [by intros ?%elem_of_nil|]. cbn [max_id].
  destruct (foldl_max_ge l (record_id x)) as [Hm Hl].
  intros [->|Hr]%elem_of_cons; [done|by apply Hl].
Qed.

Lemma main_max_id_lt (l : list emission_record) (n : Z) :
  l ≠ [] → (∀ r, r ∈ l → record_id r < n) → max_id l < n.
Proof.
  destruct l as [|x l]; [done|]. intros _ Hall. cbn [max_id].
  assert (∀ m, m < n → (∀ r, r ∈ l → record_id r < n) →
               foldl (λ m r', Z.max m (record_id r')) m l < n) as Hfold.
  { clear. induction l as [|y l IH]; intros m Hm Hl; cbn [foldl]; [done|].
    apply IH.
    - pose proof (Hl y ltac:(left)). lia.
    - intros r Hr. apply Hl. by right. }
  apply Hfold.
  - apply Hall. by left.
  - intros r Hr. apply Hall. by right.
Qed.

(** X19: what [save_emission_records] of main.py writes,
    [load_emission_records] reads back: after a save that went through,
    a load returns the list that was saved, in its order, and sets the
    counter to the largest identifier plus one, above every identifier
    in the list and not above the old counter when that was above them;
    an empty list leaves the counter alone.  When the file cannot be
    written the save is silent and a load returns what the file held
    before; when there is no file a load changes nothing. *)
Theorem main_save_load_round_trip (st0 st : state) (dk : disk) :
  load_emission_records st0 (save_emission_records Writable st dk)
  = {| emission_records := emission_records st;
       record_id_counter :=
         match emission_records st with
         | [] => record_id_counter st0
         | _ => max_id (emission_records st) + 1
         end |}
  ∧ (∀ r, r ∈ emission_records st →
          record_id r
          < record_id_counter
              (load_emission_records st0
                 (save_emission_records Writable st dk)))
  ∧ (emission_records st ≠ [] →
     (∀ r, r ∈ emission_records st → record_id r < record_id_counter st) →
     record_id_counter
       (load_emission_records st0 (save_emission_records Writable st dk))
     <= record_id_counter st)
  ∧ load_emission_records st0 (save_emission_records ReadOnly st dk)
    = load_emission_records st0 dk
  ∧ load_emission_records st0 None = st0.
Proof.
  split; [done|]. split; [|split; [|done]].
  - intros r Hr. cbn. pose proof (main_max_id_ge _ _ Hr).
    destruct (emission_records st); [by apply elem_of_nil in Hr|lia].
  - intros Hne Hall. cbn. pose proof (main_max_id_lt _ _ Hne Hall).
    destruct (emission_records st); [done|lia].
Qed.

End MainPersistence.

Section MainBrowser.
Import Main MainPage.

Lemma main_find_record_None (sel : Z) (l : list emission_record) (i : nat) :
  find_record sel l i = None ↔ ∀ r, r ∈ l → record_id r ≠ sel.
Proof.
  revert i. induction l as [|x l IH]; intros i; cbn [find_record].
  - split; [|done]. by intros _ r ?%elem_of_nil.
  - destruct (Z.eqb_spec (record_id x) sel) as [E|E].
    + split; [done|]. intros Hall. destruct (Hall x); [left|done].
    + rewrite IH. split.
      * intros Hall r [->|Hr]%elem_of_cons; auto.
      * intros Hall r Hr. apply Hall. by right.
Qed.

Lemma main_find_record_Some (sel : Z) (l : list emission_record) (i : nat)
    r j :
  find_record sel l i = Some (r, j) →
  (i ≤ j)%nat ∧ l !! (j - i)%nat = Some r ∧ record_id r = sel
  ∧ ∀ k r', (k < j - i)%nat → l !! k = Some r' → record_id r' ≠ sel.
Proof.
  revert i. induction l as [|x l IH]; intros i; cbn [find_record]; [done|].
  destruct (Z.eqb_spec (record_id x) sel) as [E|E].
  - intros [= <- <-]. rewrite Nat.sub_diag. repeat split; try done.
    intros k r' Hk. lia.
  - intros (Hle & Hl & Hid & Hfirst)%IH. split; [lia|].
    replace (j - i)%nat with (S (j - S i)) by lia.
    split; [done|]. split; [done|].
    intros [|k] r' Hk Hr'; [by injection Hr' as <-|].
    apply (Hfirst k); [lia|done].
Qed.

(** X20: [delete_record] of main.py.  Without a selection or when the
    confirmation is declined nothing changes.  Otherwise it reports
    that the record was deleted, also when no record carries the
    selected identifier; the cache then loses the first record under
    that identifier and no other, keeping the order of the rest, and
    the counter keeps its value; the file is rewritten with the new
    list when it can be written.  The document of the deleted record is
    removed from the file system when its path is not [No File] and
    names a file; no other path is touched, so a record that shares the
    document keeps a path to a file that is gone. *)
Theorem main_delete_record_effect (sel : option Z) (confirmed : bool)
    (m : medium) (st st' : state) (fs fs' : filesystem) (dk dk' : disk)
    (msg : message) :
  delete_record sel confirmed m st fs dk = (st', fs', dk', msg) →
  (msg ≠ Deleted →
   st' = st ∧ fs' = fs ∧ dk' = dk ∧ (sel = None ∨ confirmed = false))
  ∧ (msg = Deleted →
     ∃ id,
       sel = Some id ∧ confirmed = true
       ∧ record_id_counter st' = record_id_counter st
       ∧ dk' = save_emission_records m st' dk
       ∧ ((∀ r, r ∈ emission_records st → record_id r ≠ id) →
          st' = st ∧ fs' = fs)
       ∧ ∀ i rec,
           emission_records st !! i = Some rec → record_id rec = id →
           (∀ k r, (k < i)%nat → emission_records st !! k = Some r →
                   record_id r ≠ id) →
           emission_records st' = delete i (emission_records st)
           ∧ (∀ p, p ≠ document rec → fs' !! p = fs !! p)
           ∧ (document rec = "No File" → fs' = fs)
           ∧ (document rec ≠ "No File" →
              fs' !! document rec
              = match fs !! document rec with
                | Some (File _) => None
                | other => other
                end)).
Proof.
  unfold delete_record. destruct sel as [id|].
  2:{ intros [= <- <- <- <-]. split; [|done]. intros _. auto. }
  destruct confirmed; cbn [negb].
  2:{ intros [= <- <- <- <-]. split; [|done]. intros _. auto. }
  destruct (find_record id (emission_records st) 0) as [[rec0 i0]|] eqn:Hf.
  - intros [= <- <- <- <-]. split; [done|]. intros _. exists id.
    apply main_find_record_Some in Hf as (_ & Hl & Hid & Hfirst).
    rewrite Nat.sub_0_r in Hl, Hfirst.
    split; [done|]. split; [done|]. split; [done|]. split; [done|]. split.
    { intros Hall. destruct (Hall rec0); [|done].
      by eapply list_elem_of_lookup_2. }
    intros i rec Hi Hrec Hbefore.
    assert (i = i0) as ->.
    { destruct (Nat.lt_trichotomy i i0) as [Hlt|[?|Hlt]]; [|done|].
      - by destruct (Hfirst i rec Hlt Hi).
      - by destruct (Hbefore i0 rec0 Hlt Hl). }
    assert (rec = rec0) as -> by congruence.
    split; [done|]. unfold os_remove.
    destruct (String.eqb_spec (document rec0) "No File") as [E|E];
      cbn [negb].
    { split; [done|]. split; [done|]. done. }
    split.
    { intros p Hp. destruct (fs !! document rec0) as [[c|]|]; [|done..].
      by rewrite lookup_delete_ne. }
    split; [done|]. intros _.
    destruct (fs !! document rec0) as [[c|]|] eqn:Hdoc; [|done..].
    by rewrite lookup_delete_eq.
  - intros [= <- <- <- <-]. split; [done|]. intros _. exists id.
    split; [done|]. split; [done|]. split; [done|]. split; [done|].
    split; [done|].
    intros i rec Hi Hrec _.
    destruct (proj1 (main_find_record_None _ _ _) Hf rec); [|done].
    by eapply list_elem_of_lookup_2.
Qed.

End MainBrowser.

Section MainSort.
Import Main MainPage.

(** ** The order of strings *)

Lemma ascii_compare_refl (c : ascii) : Ascii.compare c c = Eq.
Proof. unfold Ascii.compare. apply N.compare_refl. Qed.

Lemma ascii_compare_trans (a b c : ascii) (o : comparison) :
  Ascii.compare a b = o → Ascii.compare b c = o → Ascii.compare a c = o.
Proof.
  unfold Ascii.compare.
  destruct o; rewrite ?N.compare_eq_iff, ?N.compare_lt_iff, ?N.compare_gt_iff;
    [congruence|lia..].
Qed.

Lemma string_leb_trans (a b c : string) :
  String.leb a b = true → String.leb b c = true → String.leb a c = true.
Proof.
  unfold String.leb. revert b c.
  induction a as [|x a IH]; intros [|y b] [|z c]; cbn; try done.
  destruct (Ascii.compare x y) eqn:Hxy, (Ascii.compare y z) eqn:Hyz;
    try done.
  - apply Ascii.compare_eq_iff in Hxy, Hyz. subst.
    rewrite ascii_compare_refl. apply IH.
  - apply Ascii.compare_eq_iff in Hxy. subst. by rewrite Hyz.
  - apply Ascii.compare_eq_iff in Hyz. subst. by rewrite Hxy.
  - by rewrite (ascii_compare_trans x y z Lt).
Qed.

Lemma string_leb_refl (a : string) : String.leb a a = true.
Proof. by destruct (String.leb_total a a). Qed.

(** ** The sort *)

Lemma before_trans (desc : bool) : Transitive (before desc).
Proof.
  intros a b c. unfold before. destruct desc; intros H1 H2;
    by eapply string_leb_trans.
Qed.

Lemma before_total (desc : bool) (a b : emission_record) :
  before desc a b ∨ before desc b a.
Proof.
  unfold before.
  destruct desc, (String.leb_total (entry_date a) (entry_date b)); auto.
Qed.

Lemma before_same_date (desc : bool) (a b : emission_record) :
  before desc a b → before desc b a → entry_date a = entry_date b.
Proof.
  unfold before. destruct desc; intros H1 H2;
    [symmetry|]; by apply String.leb_antisym.
Qed.

Lemma insert_by_date_cond (desc : bool) (x y : emission_record) :
  (if desc then String.leb (entry_date x) (entry_date y)
   else String.leb (entry_date y) (entry_date x)) = true
  ↔ before desc y x.
Proof. unfold before. by destruct desc. Qed.

Lemma insert_by_date_perm (desc : bool) (x : emission_record)
    (l : list emission_record) :
  insert_by_date desc x l ≡ₚ x :: l.
Proof.
  induction l as [|y l IH]; cbn [insert_by_date]; [done|].
  destruct (if desc then _ else _); [|done].
  by rewrite IH, Permutation_swap.
Qed.

Lemma insert_by_date_sorted (desc : bool) (x : emission_record)
    (l : list emission_record) :
  StronglySorted (before desc) l →
  StronglySorted (before desc) (insert_by_date desc x l).
Proof.
  induction 1 as [|y l Hs IH Hall]; cbn [insert_by_date].
  - repeat constructor.
  - destruct (if desc then _ else _) eqn:Hc.
    + apply insert_by_date_cond in Hc. constructor; [done|].
      rewrite insert_by_date_perm. by constructor.
    + assert (before desc x y) as Hxy.
      { destruct (before_total desc x y) as [?|Hyx]; [done|].
        apply insert_by_date_cond in Hyx. congruence. }
      constructor; [by constructor|]. constructor; [done|].
      eapply Forall_impl; [exact Hall|]. intros z Hz.
      by eapply before_trans.
Qed.

Lemma filter_nil_forall {A} (f : A → bool) (l : list A) :
  Forall (λ x, f x = false) l → List.filter f l = [].
Proof.
  induction 1 as [|x l Hx _ IH]; cbn [List.filter]; [done|].
  by rewrite Hx.
Qed.

Lemma insert_by_date_filter (desc : bool) (x : emission_record)
    (l : list emission_record) (d : string) :
  StronglySorted (before desc) l →
  List.filter (λ r, String.eqb (entry_date r) d) (insert_by_date desc x l)
  = (List.filter (λ r, String.eqb (entry_date r) d) l
     ++ List.filter (λ r, String.eqb (entry_date r) d) [x])%list.
Proof.
  induction 1 as [|y l Hs IH Hall]; cbn [insert_by_date]; [done|].
  destruct (if desc then _ else _) eqn:Hc.
  - cbn [List.filter]. rewrite IH.
    by destruct (String.eqb (entry_date y) d).
  - assert (¬ before desc y x) as Hyx
      by (rewrite <- insert_by_date_cond; congruence).
    assert (before desc x y) as Hxy
      by (destruct (before_total desc x y); done).
    assert (entry_date x = d →
            List.filter (λ r, String.eqb (entry_date r) d) (y :: l) = [])
      as Hnil.
    { intros Hx.
      apply (filter_nil_forall (λ r, String.eqb (entry_date r) d)).
      assert (∀ z, before desc y z → entry_date z ≠ d) as Hlater.
      { intros z Hyz Hz. apply Hyx. unfold before in *.
        destruct desc; rewrite Hx, <- Hz; done. }
      constructor.
      + apply not_true_iff_false. rewrite String.eqb_eq.
        apply Hlater. unfold before. destruct desc; apply string_leb_refl.
      + eapply Forall_impl; [exact Hall|]. intros z Hz.
        apply not_true_iff_false. rewrite String.eqb_eq. by apply Hlater. }
    change (List.filter (λ r, String.eqb (entry_date r) d) (x :: y :: l))
      with (if String.eqb (entry_date x) d
            then x :: List.filter (λ r, String.eqb (entry_date r) d) (y :: l)
            else List.filter (λ r, String.eqb (entry_date r) d) (y :: l)).
    change (List.filter (λ r, String.eqb (entry_date r) d) [x])
      with (if String.eqb (entry_date x) d then [x] else []).
    destruct (String.eqb_spec (entry_date x) d) as [Hx|Hx];
      [by rewrite Hnil|by rewrite app_nil_r].
Qed.

Lemma sort_records_from (desc : bool) (l acc : list emission_record) :
  StronglySorted (before desc) acc →
  StronglySorted (before desc)
    (foldl (λ acc x, insert_by_date desc x acc) acc l)
  ∧ foldl (λ acc x, insert_by_date desc x acc) acc l ≡ₚ (acc ++ l)%list
  ∧ ∀ d, List.filter (λ r, String.eqb (entry_date r) d)
           (foldl (λ acc x, insert_by_date desc x acc) acc l)
         = (List.filter (λ r, String.eqb (entry_date r) d) acc
            ++ List.filter (λ r, String.eqb (entry_date r) d) l)%list.
Proof.
  revert acc. induction l as [|x l IH]; intros acc Hacc; cbn [foldl].
  - split; [done|]. split; [by rewrite app_nil_r|].
    intros d. by rewrite app_nil_r.
  - destruct (IH (insert_by_date desc x acc)) as (Hs & Hp & Hf);
      [by apply insert_by_date_sorted|].
    split; [done|]. split.
    + rewrite Hp, insert_by_date_perm. apply Permutation_middle.
    + intros d. rewrite Hf, insert_by_date_filter by done.
      rewrite <- app_assoc. f_equal. cbn [List.filter].
      by destruct (String.eqb (entry_date x) d).
Qed.

(** X21: [sort_by_date] of main.py shows the records that
    [apply_filters] shows, each one once: the cached records that agree
    with every criterion that is not [All], the year being compared
    with the first four characters of the entry date and the emission
    type with the category.  They are shown by entry date, compared as
    strings: ascending when [sort_ascending] was set and descending
    otherwise, records of one date in the order the cache has them.
    The flag is flipped, so that the next call sorts the other way. *)
Theorem sort_by_date_spec (flts : filter_vars) (sort_ascending : bool)
    (st : state) :
  (sort_by_date flts sort_ascending st).2 = negb sort_ascending
  ∧ (sort_by_date flts sort_ascending st).1 ≡ₚ apply_filters flts st
  ∧ (∀ rec, rec ∈ apply_filters flts st ↔
       rec ∈ emission_records st
       ∧ (filter_unit flts = "All" ∨ unit rec = filter_unit flts)
       ∧ (filter_month flts = "All" ∨ month rec = filter_month flts)
       ∧ (filter_year flts = "All"
          ∨ String.substring 0 4 (entry_date rec) = filter_year flts)
       ∧ (filter_emission_type flts = "All"
          ∨ emission_category rec = filter_emission_type flts))
  ∧ (∀ i j a b,
       (i < j)%nat →
       (sort_by_date flts sort_ascending st).1 !! i = Some a →
       (sort_by_date flts sort_ascending st).1 !! j = Some b →
       if sort_ascending
       then String.leb (entry_date a) (entry_date b) = true
       else String.leb (entry_date b) (entry_date a) = true)
  ∧ (∀ d, List.filter (λ r, String.eqb (entry_date r) d)
            (sort_by_date flts sort_ascending st).1
          = List.filter (λ r, String.eqb (entry_date r) d)
              (apply_filters flts st)).
Proof.
  unfold sort_by_date, sort_records. cbn [fst snd].
  destruct (sort_records_from (negb sort_ascending) (apply_filters flts st)
              []) as (Hs & Hp & Hf); [constructor|].
  split; [done|]. split; [done|]. split.
  { intros rec. unfold apply_filters, matches.
    rewrite list_elem_of_In, filter_In, <- list_elem_of_In.
    rewrite !andb_true_iff, !orb_true_iff, !String.eqb_eq. tauto. }
  split; [|done].
  intros i j a b Hij Ha Hb.
  pose proof (StronglySorted_lookup _ _ _ _ _ _ Hs Hij Ha Hb) as Hab.
  unfold before in Hab. by destruct sort_ascending.
Qed.

End MainSort.

(* ================================================================== *)
(** * The generator of sample data *)
(* ================================================================== *)

Section SampleData.
Import Main Generator.

Lemma randint_range (range : Z * Z) (raw : Z) :
  range.1 <= range.2 → range.1 <= randint range raw <= range.2.
Proof.
  intros Hle. unfold randint.
  pose proof (Z.mod_pos_bound raw (range.2 - range.1 + 1)). lia.
Qed.

(** Over the ranges of the generator the totals are those of the edit
    dialog: checked source by source and amount by amount. *)
Lemma sources_agree :
  forallb (λ src,
      (src.(amount_range).1 <=? src.(amount_range).2)
      && forallb (total_agrees src)
           (seqZ src.(amount_range).1
              (src.(amount_range).2 - src.(amount_range).1 + 1)))
    sources = true.
Proof. vm_compute. reflexivity. Qed.

Lemma source_agrees (src : source) (amount : Z) :
  src ∈ sources →
  (amount_range src).1 <= (amount_range src).2
  ∧ ((amount_range src).1 <= amount <= (amount_range src).2 →
     total_agrees src amount = true).
Proof.
  intros Hsrc. pose proof sources_agree as Hall.
  rewrite forallb_forall in Hall.
  specialize (Hall src (proj1 (list_elem_of_In _ _) Hsrc)).
  apply andb_prop in Hall as [Hle Hall]. apply Z.leb_le in Hle.
  split; [done|]. intros Ha.
  apply (forallb_seqZ _ _ _ Hall). lia.
Qed.

Lemma emit_ok (random : nat → Z) (year unit_name : string)
    (m : string * string) (kind : string) (src : source) (p : progress) :
  year ∈ years → unit_name ∈ units → m ∈ months →
  (kind = "Fuel" ∧ src ∈ fuel_types
   ∨ kind = "Electricity" ∧ src = electricity) →
  progress_ok p →
  ∃ p', emit random year unit_name m.1 m.2 kind src p = Ok p'
        ∧ progress_ok p'
        ∧ length (records p') = (length (records p) + 1)%nat.
Proof.
  intros Hyear Hunit Hm Hkind (Hid & Hdraws & Hids & Hall). unfold emit.
  assert (src ∈ sources) as Hsrc.
  { unfold sources. apply elem_of_app.
    destruct Hkind as [[_ ?]|[_ ->]]; [by left|right; by left]. }
  destruct (source_agrees src
              (randint (amount_range src) (random (draws p))) Hsrc)
    as [Hle Hagree].
  pose proof (randint_range (amount_range src) (random (draws p)) Hle)
    as Hrange.
  specialize (Hagree Hrange). unfold total_agrees in Hagree.
  destruct (Binary64.parse _) as [f|]; [|done].
  destruct (compute_total _ _) as [total|] eqn:Htotal; [|done].
  cbn [mbind result_bind]. eexists. split; [reflexivity|].
  unfold progress_ok. cbn [records next_id draws].
  rewrite length_app. cbn [length].
  split; [|done]. split; [lia|]. split; [lia|]. split.
  - rewrite fmap_app, Hids, Nat2Z.inj_add, seqZ_app by lia.
    f_equal. cbn. by rewrite Hid.
  - apply Forall_app. split; [done|]. constructor; [|constructor].
    by eexists year, unit_name, m, kind, src, _, total, _.
Qed.

Lemma for_each_ok {A} (l : list A) (body : A → progress → result progress)
    (k : nat) (p : progress) :
  (∀ x q, x ∈ l → progress_ok q →
          ∃ q', body x q = Ok q' ∧ progress_ok q'
                ∧ length (records q') = (length (records q) + k)%nat) →
  progress_ok p →
  ∃ p', for_each l body p = Ok p' ∧ progress_ok p'
        ∧ length (records p')
          = (length (records p) + length l * k)%nat.
Proof.
  revert p. induction l as [|x l IH]; intros p Hbody Hp; cbn [for_each].
  - exists p. split; [done|]. split; [done|]. simpl. lia.
  - destruct (Hbody x p) as (q & -> & Hq & Hlen); [by left|done|].
    cbn [mbind result_bind].
    destruct (IH q) as (p' & -> & Hp' & Hlen');
      [intros y q' Hy; apply Hbody; by right|done|].
    exists p'. split; [done|]. split; [done|]. simpl. lia.
Qed.

Lemma generate_ok (random : nat → Z) :
  ∃ p, generate random = Ok p ∧ progress_ok p
       ∧ length (records p) = 480%nat.
Proof.
  unfold generate.
  destruct (for_each_ok years
              (λ year, for_each units (λ unit_name,
                 for_each months (λ m p,
                   p' ← for_each fuel_types
                          (emit random year unit_name m.1 m.2 "Fuel") p;
                   emit random year unit_name m.1 m.2 "Electricity"
                     electricity p')))
              240 {| records := []; next_id := 0; draws := 0 |})
    as (p & Hp & Hok & Hlen).
  - intros year q Hyear Hq. apply (for_each_ok units _ 60); [|done].
    intros unit_name q1 Hunit Hq1. apply (for_each_ok months _ 5); [|done].
    intros m q2 Hm Hq2.
    destruct (for_each_ok fuel_types
                (emit random year unit_name m.1 m.2 "Fuel") 1 q2)
      as (q3 & -> & Hq3 & Hlen3); [|done|].
    { intros src q' Hsrc Hq'. apply emit_ok; try done. by left. }
    cbn [mbind result_bind].
    destruct (emit_ok random year unit_name m "Electricity"
                electricity q3) as (q4 & -> & Hq4 & Hlen4);
      [done|done|done|by right|done|].
    exists q4. split; [done|]. split; [done|].
    rewrite Hlen4, Hlen3. simpl. lia.
  - by repeat split.
  - exists p. split; [done|]. split; [done|]. rewrite Hlen. done.
Qed.

(** X22: whatever the random draws are, the generator runs to its end
    and has then made 480 records: one for each of the two years, four
    units, twelve months and five sources.  Their identifiers are 0 to
    479 in the order of the list, so that when main.py loads the file
    the list is the generated one and the counter becomes 480.  Every
    amount lies in the range of its source. *)
Theorem generate_records (random : nat → Z) :
  ∃ p,
    generate random = Ok p
    ∧ length (records p) = 480%nat
    ∧ record_id <$> records p = seqZ 0 480
    ∧ Forall generated (records p)
    ∧ ∀ st0,
        MainPage.load_emission_records st0 (Some (records p))
        = {| emission_records := records p; record_id_counter := 480 |}.
Proof.
  destruct (generate_ok random) as (p & Hp & (_ & _ & Hids & Hall) & Hlen).
  rewrite Hlen in Hids. change (Z.of_nat 480) with 480 in Hids.
  exists p. split; [done|]. split; [done|]. split; [done|]. split; [done|].
  intros st0. cbn. f_equal.
  destruct (records p) as [|r l] eqn:E; [done|].
  assert (MainPage.max_id (r :: l) = 479) as ->; [|done].
  apply Z.le_antisymm.
  - assert (MainPage.max_id (r :: l) < 480); [|lia].
    apply main_max_id_lt; [done|]. intros x Hx.
    assert (record_id x ∈ seqZ 0 480) as Hin.
    { rewrite <- Hids. apply list_elem_of_fmap. by exists x. }
    apply elem_of_seqZ in Hin. lia.
  - assert (479 ∈ record_id <$> (r :: l)) as Hin.
    { rewrite Hids. apply elem_of_seqZ. lia. }
    apply list_elem_of_fmap in Hin as (x & -> & Hx).
    by apply main_max_id_ge.
Qed.

(** X23: the totals of the generator are those of the application.
    When the edit dialog of main.py is opened on a generated record and
    saved with nothing changed, the record it writes back is the
    record itself: [float] reads the factor as it was printed and the
    amount as the integer it is, and [update_total_value] gives the
    total [compute_total] gave. *)
Theorem generated_total_agrees (r : emission_record) (idx : nat)
    (st : state) :
  generated r → emission_records st !! idx = Some r →
  Main.updated_record (H := Binary64.binary64) (MainPage.open_dialog r idx) st
  = Ok r.
Proof.
  intros (year & unit_name & m & kind & src & amount & total & id & ->
          & _ & _ & _ & Hkind & Hrange & Htotal) Hidx.
  assert (src ∈ sources) as Hsrc.
  { unfold sources. apply elem_of_app.
    destruct Hkind as [[_ ?]|[_ ->]]; [by left|right; by left]. }
  destruct (source_agrees src amount Hsrc) as [_ Hagree].
  specialize (Hagree Hrange). unfold total_agrees in Hagree.
  rewrite Htotal in Hagree.
  unfold Main.updated_record, MainPage.open_dialog.
  cbn [factor_var amount_var rec_index month_var unit_var cat_var name_var
         doc_var Main.factor Main.amount make_record].
  change (py_float (Binary64.repr (factor src)))
    with (Binary64.parse (Binary64.repr (factor src))).
  destruct (Binary64.parse (Binary64.repr (factor src))) as [f|]; [|done].
  cbn [of_option mbind result_bind].
  destruct (update_total_value _ _) as [total'|]; [|done].
  apply String.eqb_eq in Hagree as ->.
  rewrite Hidx. reflexivity.
Qed.

Lemma dates_agree :
  forallb (λ year, forallb (date_parts_agree year) months) years = true.
Proof. vm_compute. reflexivity. Qed.

(** X24: the generator names the documents as the document store
    would.  The entry date of a generated record is read by [strptime]
    as the seventh of the month the record names, and its document path
    is [CarbonData], the unit, the year, the month as [MM_Name] and the
    file name joined by backslashes, the file name being the code that
    [generate_unique_code] gives for the record's unit, date, emission
    name and category, followed by the extension of the source. *)
Theorem generated_document_named (r : emission_record) :
  generated r →
  ∃ dt code ext,
    strptime (entry_date r) = Some dt
    ∧ d_day dt = 7 ∧ month r = month_name (d_month dt)
    ∧ generate_unique_code (unit r) (entry_date r) (emission_name r)
        (emission_category r) = Ok code
    ∧ ext ∈ [".pdf"; ".jpeg"]
    ∧ document r
      = "CarbonData" ++ sep ++ unit r ++ sep ++ strftime_Y dt ++ sep
        ++ strftime_m_B dt ++ sep ++ code ++ ext.
Proof.
  intros (year & unit_name & m & kind & src & amount & total & id & ->
          & Hyear & _ & Hm & Hkind & _ & _).
  pose proof dates_agree as Hall. rewrite forallb_forall in Hall.
  specialize (Hall year (proj1 (list_elem_of_In _ _) Hyear)).
  rewrite forallb_forall in Hall.
  specialize (Hall m (proj1 (list_elem_of_In _ _) Hm)).
  unfold date_parts_agree in Hall.
  cbn [make_record entry_date month unit emission_name emission_category
         document].
  unfold generate_unique_code.
  destruct (strptime (year ++ "-" ++ m.2 ++ "-07")) as [dt|]; [|done].
  apply bool_decide_eq_true in Hall as (Hday & Hname & HY & HmB & HdmY).
  exists dt, (unit_name ++ "_" ++ strftime_d_m_Y dt ++ "_" ++ name src
              ++ "_" ++ kind), (doc_ext src).
  split; [done|]. split; [done|]. split; [done|]. split; [done|]. split.
  { destruct Hkind as [[_ Hsrc]|[_ ->]]; [|right; by left].
    unfold fuel_types in Hsrc.
    repeat (apply elem_of_cons in Hsrc as [->|Hsrc]; [by left|]).
    by apply elem_of_nil in Hsrc. }
  rewrite HY, HmB, HdmY, !append_assoc. reflexivity.
Qed.

End SampleData.

(* ================================================================== *)
(** * The further properties on concrete inputs *)
(* ================================================================== *)

Lemma load_emission_records_order_witness :
  length (Data.rows Example.one_row) = 1%nat
  ∧ Data.record_id_counter
      (Data.load_emission_records Data.Connected Example.unsaved
         Example.one_row)
    = Data.max_id
        (Data.emission_records
           (Data.load_emission_records Data.Connected Example.unsaved
              Example.one_row)) + 1.
Proof.
  assert (length (Data.rows Example.one_row) = 1%nat) as Hlen
    by (vm_compute; reflexivity).
  split; [exact Hlen|].
  destruct (load_emission_records_order (H0 := Binary64.fixed4)
              Example.unsaved Example.one_row) as (l & _ & _ & _ & _ & Hne).
  apply Hne. intros E. rewrite E in Hlen. discriminate Hlen.
Defined.

Lemma triple_eta {A B C} (p : A * B * C) : p = (p.1.1, p.1.2, p.2).
Proof. by destruct p as [[? ?] ?]. Qed.

Lemma quadruple_eta {A B C D} (p : A * B * C * D) :
  p = (p.1.1.1, p.1.1.2, p.1.2, p.2).
Proof. by destruct p as [[[? ?] ?] ?]. Qed.

Lemma delete_record_frame_witness :
  (Data.delete_record (Some 1) false Data.Connected Data.Connected
     Example.loaded Example.one_row).2 = Data.Cancelled
  ∧ (Data.delete_record (Some 1) false Data.Connected Data.Connected
       Example.loaded Example.one_row).1.1 = Example.loaded
  ∧ (Data.delete_record (Some 1) false Data.Connected Data.Connected
       Example.loaded Example.one_row).1.2 = Example.one_row.
Proof.
  assert ((Data.delete_record (Some 1) false Data.Connected Data.Connected
             Example.loaded Example.one_row).2 = Data.Cancelled) as Hout
    by reflexivity.
  split; [exact Hout|].
  apply (delete_record_frame (H0 := Binary64.fixed4) _ _ _ _ _ _ _ _ _
           (triple_eta _)).
  rewrite Hout. discriminate.
Defined.

Lemma save_changes_table_effect_witness :
  Data.identity
    (Data.save_changes Sample.diesel_dialog Data.Connected Data.Refused
       Example.loaded Example.one_row).1.2
  = Data.identity Example.one_row
  ∧ Data.row_id
      <$> Data.rows
            (Data.save_changes Sample.diesel_dialog Data.Connected
               Data.Refused Example.loaded Example.one_row).1.2
    = Data.row_id <$> Data.rows Example.one_row.
Proof.
  destruct (save_changes_table_effect (H0 := Binary64.fixed4) _ _ _ _ _ _ _ _
              (triple_eta
                 (Data.save_changes Sample.diesel_dialog Data.Connected
                    Data.Refused Example.loaded Example.one_row)))
    as (Hid & Hids & _).
  split; [exact Hid|exact Hids].
Defined.

Lemma edit_record_first_witness :
  ∃ d, Data.edit_record (Some 1) Example.loaded = inr d
       ∧ Data.emission_records Example.loaded !! Data.rec_index d
         = Some (Data.record d)
       ∧ Data.record_id (Data.record d) = 1.
Proof.
  assert (Data.record_id <$> Data.emission_records Example.loaded = [1])
    as Hids by (vm_compute; reflexivity).
  pose proof (edit_record_first (Some 1) Example.loaded) as Hthm.
  destruct (Data.edit_record (Some 1) Example.loaded) as [o|d].
  - exfalso. destruct Hthm as [[_ Hsel]|[_ (id & Hsel & Hnone)]];
      [discriminate Hsel|].
    injection Hsel as <-.
    destruct (Data.emission_records Example.loaded) as [|r l];
      [discriminate Hids|].
    injection Hids as Hr _. apply (Hnone r); [by left|exact Hr].
  - exists d. split; [reflexivity|].
    destruct Hthm as (id & Hsel & Hl & Hid & _).
    injection Hsel as <-. split; [exact Hl|exact Hid].
Defined.

Lemma submit_data_handler_outcome_witness :
  (Data.submit_data_handler Example.blank_page Data.Connected Data.Connected
     Data.Connected Data.initial Data.empty_table).2 = Data.NoData
  ∧ (Data.submit_data_handler Example.blank_page Data.Connected
       Data.Connected Data.Connected Data.initial Data.empty_table).1.1.1
    = Data.initial.
Proof.
  assert ((Data.submit_data_handler Example.blank_page Data.Connected
             Data.Connected Data.Connected Data.initial
             Data.empty_table).2 = Data.NoData) as Hout
    by (vm_compute; reflexivity).
  split; [exact Hout|].
  apply (submit_data_handler_outcome (H0 := Binary64.fixed4) _ _ _ _ _ _ _ _
           _ _ (quadruple_eta _)).
  rewrite Hout. discriminate.
Defined.


Lemma stored_date_and_text_stable_witness :
  ∃ w, Data.insert_row (H0 := Binary64.fixed4) Example.diesel_record 1
       = Some w
       ∧ strptime (Data.entry_date (Data.of_row w))
         = Some (Data.row_entry_date w).
Proof.
  assert (Data.insertable (H0 := Binary64.fixed4) Example.diesel_record
          = true) as Hins by (vm_compute; reflexivity).
  destruct (insertable_any (H0 := Binary64.fixed4) Example.diesel_record 1
              Hins) as [w Hw].
  exists w. split; [exact Hw|].
  exact (proj1 (proj2 (proj2 (stored_date_and_text_stable _ _ _ Hw)))).
Defined.

Lemma cache_mirrors_table_witness :
  (Data.delete_record (Some 1) true Data.Connected Data.Connected
     Example.loaded Example.one_row).2 = Data.Success
  ∧ Data.emission_records
      (Data.delete_record (Some 1) true Data.Connected Data.Connected
         Example.loaded Example.one_row).1.1
    = view
        (Data.delete_record (Some 1) true Data.Connected Data.Connected
           Example.loaded Example.one_row).1.2.
Proof.
  assert ((Data.delete_record (Some 1) true Data.Connected Data.Connected
             Example.loaded Example.one_row).2 = Data.Success) as Hout
    by (vm_compute; reflexivity).
  split; [exact Hout|].
  pose proof (triple_eta
                (Data.delete_record (Some 1) true Data.Connected
                   Data.Connected Example.loaded Example.one_row)) as E.
  rewrite Hout in E.
  exact (proj1 (proj2 (cache_mirrors_table (H0 := Binary64.fixed4)))
           _ _ _ _ _ _ _ E).
Defined.


Lemma submit_reports_success_unsaved_witness :
  ∃ st',
    Data.submit_data_handler Example.diesel_page Data.Refused Data.Refused
      Data.Refused Data.initial Data.empty_table
    = (st', Data.empty_table, Data.reset_input_fields Example.diesel_page,
       Data.Submitted)
    ∧ Data.record_id_counter st' = 1.
Proof.
  assert (mandatory_filled Example.diesel_page) as Hm
    by (apply mandatory_filled_spec; vm_compute; reflexivity).
  assert (documents_present Example.diesel_page) as Hd
    by (apply documents_present_spec; vm_compute; reflexivity).
  assert (length (Data.fuel Example.diesel_page) = 4%nat) as Hfuel
    by (vm_compute; reflexivity).
  assert (some_amount Example.diesel_page) as Ha.
  { left. destruct (Data.fuel Example.diesel_page) as [|r l] eqn:E;
      [discriminate Hfuel|].
    exists r. split; [apply elem_of_app; left; by left|].
    assert (has_amount <$> Data.fuel Example.diesel_page
            = [true; false; false; false]) as Hb
      by (vm_compute; reflexivity).
    rewrite E in Hb. injection Hb as Hr _. exact Hr. }
  destruct (submit_reports_success_unsaved (H0 := Binary64.fixed4)
              Example.diesel_page Data.Refused Data.Refused Data.Refused
              Data.initial Data.empty_table)
    as (st' & l & Hs & _ & Hnew & _ & Hst); [discriminate|exact Hm|exact Hd|exact Ha|].
  exists st'. split; [exact Hs|].
  rewrite Hst by discriminate. cbn [Data.record_id_counter].
  assert (length <$> (fst <$> Data.new_records Example.diesel_page
                                (Data.record_id_counter Data.initial))
          = Ok 1%nat) as Hlen by (vm_compute; reflexivity).
  rewrite Hnew in Hlen. injection Hlen as ->. reflexivity.
Defined.

Lemma get_storage_path_effect_witness :
  (get_storage_path "CarbonData" "C-49" "2025-03-07" receipt_only).2
  = Ok "CarbonData/C-49/2025/03_March"
  ∧ receipt_only
    ⊆ (get_storage_path "CarbonData" "C-49" "2025-03-07" receipt_only).1
  ∧ (get_storage_path "CarbonData" "C-49" "2025-03-07" receipt_only).1
    !! "CarbonData/C-49/2025/03_March" = Some Dir.
Proof.
  assert ((get_storage_path "CarbonData" "C-49" "2025-03-07"
             receipt_only).2 = Ok "CarbonData/C-49/2025/03_March") as Hr
    by (vm_compute; reflexivity).
  split; [exact Hr|].
  destruct (get_storage_path_effect "CarbonData" "C-49" "2025-03-07"
              receipt_only _ _ (surjective_pairing _))
    as (Hsub & _ & _ & _ & Hok).
  split; [exact Hsub|].
  exact (proj1 (proj2 (Hok _ Hr))).
Defined.



Lemma upload_document_effect_witness :
  upload_document "CarbonData" "" "No file uploaded" "C-49" "2025-03-07"
    "Diesel" "Fuel" "manager@gmail.com" "admin@gmail.com"
    "2025-03-07 10:00:00" receipt_only []
  = Some ("No file uploaded", receipt_only, [], Ok tt).
Proof.
  destruct (upload_document_effect "CarbonData" "" "No file uploaded" "C-49"
              "2025-03-07" "Diesel" "Fuel" "manager@gmail.com"
              "admin@gmail.com" "2025-03-07 10:00:00" receipt_only [])
    as (var' & fs' & logs' & r & Hu & Hcancel & _).
  destruct (Hcancel eq_refl) as (-> & -> & -> & ->). exact Hu.
Defined.



Lemma delete_user_removes_witness :
  ∃ cfg',
    Users.delete_user (Some 0%nat) Sample.accounts = Ok cfg'
    ∧ Users.admin cfg' = Users.admin Sample.accounts
    ∧ length (Users.allu Sample.accounts)
      = S (length (Users.allu cfg')).
Proof.
  eexists. split; [reflexivity|].
  destruct (delete_user_removes (Some 0%nat) Sample.accounts)
    as (label & data & _ & Hperm & Hadmin & _).
  split; [exact Hadmin|exact (Permutation_length Hperm)].
Defined.


Lemma main_save_load_round_trip_witness :
  Main.record_id_counter
    (MainPage.load_emission_records
       {| Main.emission_records := []; Main.record_id_counter := 0 |}
       (Main.save_emission_records Main.Writable Sample.two_records None))
  <= 2.
Proof.
  apply (proj1 (proj2 (proj2 (main_save_load_round_trip
                                {| Main.emission_records := [];
                                   Main.record_id_counter := 0 |}
                                Sample.two_records None)))).
  - discriminate.
  - intros r Hr. apply list_elem_of_In in Hr.
    destruct Hr as [<-|[<-|[]]]; vm_compute; reflexivity.
Defined.

Lemma main_delete_record_effect_witness :
  (MainPage.delete_record (Some 0) false Main.Writable Sample.two_records
     receipt_only None).2 = MainPage.Cancelled
  ∧ (MainPage.delete_record (Some 0) false Main.Writable Sample.two_records
       receipt_only None).1.1.1 = Sample.two_records.
Proof.
  assert ((MainPage.delete_record (Some 0) false Main.Writable
             Sample.two_records receipt_only None).2
          = MainPage.Cancelled) as Hout by reflexivity.
  split; [exact Hout|].
  apply (main_delete_record_effect _ _ _ _ _ _ _ _ _ _ (quadruple_eta _)).
  rewrite Hout. discriminate.
Defined.

Lemma sort_by_date_spec_witness :
  Main.entry_date
    <$> (MainPage.sort_by_date Sample.year_2025 true Sample.two_records).1
  = ["2025-03-07"; "2025-04-07"]
  ∧ (MainPage.sort_by_date Sample.year_2025 true Sample.two_records).1
    ≡ₚ MainPage.apply_filters Sample.year_2025 Sample.two_records.
Proof.
  split; [vm_compute; reflexivity|].
  exact (proj1 (proj2 (sort_by_date_spec Sample.year_2025 true
                         Sample.two_records))).
Defined.

Lemma january_record_generated : Generator.generated Sample.january_record.
Proof.
  exists "2025", "C-49", ("January", "01"), "Fuel", Sample.diesel, 100,
    "254.60", 0.
  split; [reflexivity|]. split; [by left|]. split; [by left|].
  split; [by left|]. split; [left; split; [reflexivity|by left]|].
  split; [cbn; lia|]. vm_compute. reflexivity.
Qed.

Lemma generated_total_agrees_witness :
  Main.updated_record (H := Binary64.binary64)
    (MainPage.open_dialog Sample.january_record 0)
    {| Main.emission_records := [Sample.january_record];
       Main.record_id_counter := 1 |}
  = Ok Sample.january_record.
Proof.
  apply generated_total_agrees;
    [exact january_record_generated|reflexivity].
Defined.

Lemma generated_document_named_witness :
  ∃ dt code ext,
    strptime (Main.entry_date Sample.january_record) = Some dt
    ∧ d_day dt = 7
    ∧ Main.month Sample.january_record = month_name (d_month dt)
    ∧ generate_unique_code (Main.unit Sample.january_record)
        (Main.entry_date Sample.january_record)
        (Main.emission_name Sample.january_record)
        (Main.emission_category Sample.january_record) = Ok code
    ∧ ext ∈ [".pdf"; ".jpeg"]
    ∧ Main.document Sample.january_record
      = "CarbonData" ++ Generator.sep ++ Main.unit Sample.january_record
        ++ Generator.sep ++ strftime_Y dt ++ Generator.sep
        ++ strftime_m_B dt ++ Generator.sep ++ code ++ ext.
Proof.
  exact (generated_document_named _ january_record_generated).
Defined.

